(** * Blueprint Graph: event normalisation and graph write path

    A shallow embedding of the ingestion code of the repository:
    - [src/schemas/ocsf_schema.py]  (format mappers, severity table),
    - [src/pipelines/ingest.py]     (ParseEvent, DetectSourceFormat,
                                     MapToOCSF, StoreInGraph, standalone loop),
    - [src/kafka/consumer.py]       (KafkaConsumer.start / process_event),
    - [src/kafka/producer.py]       (the value of a message sent),
    - [src/api/main.py]             (create_event, get_event),
    - [src/utils/db.py]             (execute_query over the graph store).

    Python values are JSON values; Python exceptions are an explicit
    outcome; the graph store and the log are threaded through a state and
    exception monad.  JSON numbers are integers in this model (floating
    point values are outside it). *)

From Stdlib Require Import ZArith Lia Ascii DecimalString DecimalZ DecimalPos.
From stdpp Require Import gmap strings list fin_maps.

(* ===================================================================== *)
(** * Part I.  The Python values the code manipulates                     *)
(* ===================================================================== *)

Module Py.

(** A value produced by [json.loads]: [None], a bool, an int, a str, a
    list or a dict.  A dict keeps its insertion order (it matters for
    [json.dumps]); lookups take the first binding of a key. *)
#[warnings="-register-all"]
Inductive json : Type :=
| JNull
| JBool (b : bool)
| JInt (n : Z)
| JStr (s : string)
| JList (xs : list json)
| JDict (kvs : list (string * json)).

(** Structural equality on values. *)
Fixpoint json_eqb (a b : json) {struct a} : bool :=
  match a, b with
  | JNull, JNull => true
  | JBool x, JBool y => Bool.eqb x y
  | JInt x, JInt y => Z.eqb x y
  | JStr x, JStr y => String.eqb x y
  | JList xs, JList ys =>
      (fix go (xs ys : list json) {struct xs} : bool :=
         match xs, ys with
         | [], [] => true
         | x :: xs', y :: ys' => json_eqb x y && go xs' ys'
         | _, _ => false
         end) xs ys
  | JDict xs, JDict ys =>
      (fix go (xs ys : list (string * json)) {struct xs} : bool :=
         match xs, ys with
         | [], [] => true
         | (k, x) :: xs', (k', y) :: ys' =>
             String.eqb k k' && json_eqb x y && go xs' ys'
         | _, _ => false
         end) xs ys
  | _, _ => false
  end.

(** Exceptions the modelled code can meet. *)
Inductive exn : Type :=
| AttributeError        (* [.get] / [.items] on a value that is not a dict *)
| TypeError             (* unhashable dictionary key                         *)
| UnicodeDecodeError    (* [bytes.decode('utf-8')]                           *)
| JSONDecodeError       (* [json.loads]                                      *)
| StoreError            (* raised by the graph store driver                  *)
| HTTPException (status : nat).

Inductive outcome (A : Type) : Type :=
| Return (a : A)
| Raise (e : exn).
Arguments Return {A} a.
Arguments Raise {A} e.

(** ** dict operations *)

(** [key in d] *)
Fixpoint dict_mem (k : string) (kvs : list (string * json)) : bool :=
  match kvs with
  | [] => false
  | (k', _) :: rest => if String.eqb k k' then true else dict_mem k rest
  end.

(** [d[key]] when the key is there *)
Fixpoint dict_lookup (k : string) (kvs : list (string * json)) : option json :=
  match kvs with
  | [] => None
  | (k', v) :: rest => if String.eqb k k' then Some v else dict_lookup k rest
  end.

(** [d[key] = v]: overwrite in place, or append a new binding. *)
Fixpoint dict_set (k : string) (v : json) (kvs : list (string * json))
  : list (string * json) :=
  match kvs with
  | [] => [(k, v)]
  | (k', v') :: rest =>
      if String.eqb k k' then (k', v) :: rest else (k', v') :: dict_set k v rest
  end.

(** [obj.get(key, default)]; only a dict has [.get]. *)
Definition py_get (obj : json) (k : string) (default : json) : outcome json :=
  match obj with
  | JDict kvs => Return (from_option id default (dict_lookup k kvs))
  | _ => Raise AttributeError
  end.

(** [{k: v for k, v in obj.items() if k not in ['id', 'type']}] *)
Definition props_without_id_type (obj : json) : outcome (list (string * json)) :=
  match obj with
  | JDict kvs =>
      Return (List.filter
                (fun kv => negb (String.eqb kv.1 "id" || String.eqb kv.1 "type")) kvs)
  | _ => Raise AttributeError
  end.

(** ** [str(n)] for an int *)
Definition str_int (n : Z) : string := NilZero.string_of_int (Z.to_int n).

(** [str(v)] as an f-string renders it, for the values whose rendering is
    plain text.  A list or a dict renders as its [repr], which begins
    with a bracket or a brace; that case is [None] here and is handled
    where the text is used. *)
Definition str_scalar (v : json) : option string :=
  match v with
  | JNull => Some "None"
  | JBool true => Some "True"
  | JBool false => Some "False"
  | JInt n => Some (str_int n)
  | JStr s => Some s
  | JList _ | JDict _ => None
  end.

(** ** UTF-8

    A Python [str] is represented by the UTF-8 encoding of its text. *)

Definition byte_val (c : ascii) : Z := Z.of_N (N_of_ascii c).

Definition is_cont (b : Z) : bool := (128 <=? b)%Z && (b <=? 191)%Z.

(** Strict UTF-8 decoding to code points, as [bytes.decode('utf-8')]
    does it: no overlong forms, no surrogates, nothing above U+10FFFF. *)
Fixpoint utf8_code_points (bs : list Z) : option (list Z) :=
  match bs with
  | [] => Some []
  | b0 :: r0 =>
      if (b0 <? 128)%Z then cons b0 <$> utf8_code_points r0
      else if (194 <=? b0)%Z && (b0 <=? 223)%Z then
        match r0 with
        | b1 :: r1 =>
            if is_cont b1
            then cons ((b0 - 192) * 64 + (b1 - 128))%Z <$> utf8_code_points r1
            else None
        | _ => None
        end
      else if (224 <=? b0)%Z && (b0 <=? 239)%Z then
        match r0 with
        | b1 :: b2 :: r2 =>
            let lo := if (b0 =? 224)%Z then 160%Z else 128%Z in
            let hi := if (b0 =? 237)%Z then 159%Z else 191%Z in
            if (lo <=? b1)%Z && (b1 <=? hi)%Z && is_cont b2
            then cons ((b0 - 224) * 4096 + (b1 - 128) * 64 + (b2 - 128))%Z
                   <$> utf8_code_points r2
            else None
        | _ => None
        end
      else if (240 <=? b0)%Z && (b0 <=? 244)%Z then
        match r0 with
        | b1 :: b2 :: b3 :: r3 =>
            let lo := if (b0 =? 240)%Z then 144%Z else 128%Z in
            let hi := if (b0 =? 244)%Z then 143%Z else 191%Z in
            if (lo <=? b1)%Z && (b1 <=? hi)%Z && is_cont b2 && is_cont b3
            then cons ((b0 - 240) * 262144 + (b1 - 128) * 4096
                       + (b2 - 128) * 64 + (b3 - 128))%Z
                   <$> utf8_code_points r3
            else None
        | _ => None
        end
      else None
  end.

Definition bytes_of_string (s : string) : list Z :=
  byte_val <$> String.list_ascii_of_string s.

(** [payload.decode('utf-8')] on the bytes of a message. *)
Definition decode_utf8 (payload : list Byte.byte) : outcome string :=
  let s := String.string_of_list_byte payload in
  match utf8_code_points (bytes_of_string s) with
  | Some _ => Return s
  | None => Raise UnicodeDecodeError
  end.

(** ** [json.dumps] with its defaults: [ensure_ascii=True], separators
    [", "] and [": "], keys in insertion order. *)

Definition dquote : ascii := "034"%char.

Definition hex_digit (d : Z) : ascii :=
  ascii_of_N (Z.to_N (if (d <? 10)%Z then 48 + d else 87 + d)%Z).

(** ['\\u{0:04x}'.format(n)] *)
Definition u_escape (n : Z) : list ascii :=
  ["\"%char; "u"%char;
   hex_digit (n / 4096 mod 16); hex_digit (n / 256 mod 16);
   hex_digit (n / 16 mod 16); hex_digit (n mod 16)].

(** One code point of [py_encode_basestring_ascii]. *)
Definition escape_code_point (n : Z) : list ascii :=
  if (n =? 34)%Z then ["\"%char; dquote]
  else if (n =? 92)%Z then ["\"%char; "\"%char]
  else if (n =? 8)%Z then ["\"%char; "b"%char]
  else if (n =? 12)%Z then ["\"%char; "f"%char]
  else if (n =? 10)%Z then ["\"%char; "n"%char]
  else if (n =? 13)%Z then ["\"%char; "r"%char]
  else if (n =? 9)%Z then ["\"%char; "t"%char]
  else if (32 <=? n)%Z && (n <=? 126)%Z then [ascii_of_N (Z.to_N n)]
  else if (n <? 65536)%Z then u_escape n
  else
    let m := (n - 65536)%Z in
    u_escape (Z.lor 55296 (Z.land (Z.shiftr m 10) 1023))
      ++ u_escape (Z.lor 56320 (Z.land m 1023)).

Definition dumps_str (s : string) : string :=
  let bs := bytes_of_string s in
  let cps := from_option id bs (utf8_code_points bs) in
  String dquote
    (String.string_of_list_ascii (concat (escape_code_point <$> cps) ++ [dquote])).

Fixpoint json_dumps (v : json) : string :=
  match v with
  | JNull => "null"
  | JBool true => "true"
  | JBool false => "false"
  | JInt n => str_int n
  | JStr s => dumps_str s
  | JList xs =>
      "[" +:+
      (fix items (xs : list json) : string :=
         match xs with
         | [] => ""
         | [x] => json_dumps x
         | x :: rest => json_dumps x +:+ ", " +:+ items rest
         end) xs
      +:+ "]"
  | JDict kvs =>
      "{" +:+
      (fix items (kvs : list (string * json)) : string :=
         match kvs with
         | [] => ""
         | [(k, x)] => dumps_str k +:+ ": " +:+ json_dumps x
         | (k, x) :: rest =>
             dumps_str k +:+ ": " +:+ json_dumps x +:+ ", " +:+ items rest
         end) kvs
      +:+ "}"
  end.

(** ** The built-in [hash] of a [str]

    CPython hashes the bytes of a string with SipHash-1-3 under a
    128-bit key [(k0, k1)] that is drawn when the interpreter starts
    (hash randomisation; [PYTHONHASHSEED] fixes it).  The key is a
    parameter of the process, not of the program. *)

Definition mask64 : Z := Z.ones 64.

Definition rotl64 (x : Z) (b : Z) : Z :=
  Z.land (Z.lor (Z.shiftl x b) (Z.shiftr x (64 - b))) mask64.

Definition add64 (a b : Z) : Z := Z.land (a + b) mask64.

Record sip_state : Type :=
  Sip { v0 : Z; v1 : Z; v2 : Z; v3 : Z }.

Definition sip_round (s : sip_state) : sip_state :=
  let '(Sip a b c d) := s in
  let a := add64 a b in
  let b := Z.lxor (rotl64 b 13) a in
  let a := rotl64 a 32 in
  let c := add64 c d in
  let d := Z.lxor (rotl64 d 16) c in
  let a := add64 a d in
  let d := Z.lxor (rotl64 d 21) a in
  let c := add64 c b in
  let b := Z.lxor (rotl64 b 17) c in
  let c := rotl64 c 32 in
  Sip a b c d.

(** Little-endian value of at most eight bytes. *)
Fixpoint le_word (bs : list Z) : Z :=
  match bs with
  | [] => 0
  | b :: rest => Z.lor b (Z.shiftl (le_word rest) 8)
  end.

Definition sip_absorb (s : sip_state) (m : Z) : sip_state :=
  let '(Sip a b c d) := sip_round (Sip (v0 s) (v1 s) (v2 s) (Z.lxor (v3 s) m)) in
  Sip (Z.lxor a m) b c d.

(** The compression loop over whole 8-byte words; the tail (fewer than
    eight bytes) is returned with the state. *)
Fixpoint sip_words (s : sip_state) (bs : list Z) : sip_state * list Z :=
  match bs with
  | b0 :: b1 :: b2 :: b3 :: b4 :: b5 :: b6 :: b7 :: rest =>
      sip_words (sip_absorb s (le_word [b0; b1; b2; b3; b4; b5; b6; b7])) rest
  | tail => (s, tail)
  end.

Definition siphash13 (k0 k1 : Z) (bs : list Z) : Z :=
  let s0 := Sip (Z.lxor k0 0x736f6d6570736575) (Z.lxor k1 0x646f72616e646f6d)
                (Z.lxor k0 0x6c7967656e657261) (Z.lxor k1 0x7465646279746573) in
  let '(s1, tail) := sip_words s0 bs in
  let b := Z.lor (Z.shiftl (Z.land (Z.of_nat (length bs)) 255) 56) (le_word tail) in
  let s2 := sip_absorb s1 b in
  let s3 := Sip (v0 s2) (v1 s2) (Z.lxor (v2 s2) 255) (v3 s2) in
  let s4 := sip_round (sip_round (sip_round s3)) in
  Z.lxor (Z.lxor (v0 s4) (v1 s4)) (Z.lxor (v2 s4) (v3 s4)).

(** A 64-bit pattern read as a signed [Py_hash_t]. *)
Definition to_signed64 (x : Z) : Z :=
  let y := (x mod 2 ^ 64)%Z in
  if (y <? 2 ^ 63)%Z then y else (y - 2 ^ 64)%Z.

(** [hash(s)] for a str [s] of ASCII text (every string [json.dumps]
    returns is one): [0] for the empty string, and [-1] is never
    returned. *)
Definition py_hash (key : Z * Z) (s : string) : Z :=
  match bytes_of_string s with
  | [] => 0
  | bs =>
      let x := to_signed64 (siphash13 key.1 key.2 bs) in
      if (x =? -1)%Z then (-2)%Z else x
  end.

End Py.

(* ===================================================================== *)
(** * Part II.  The graph store port ([src/utils/db.py])                  *)
(* ===================================================================== *)

(** The store is an external collaborator.  Its state is a property
    graph; the statements are the Cypher texts the ingestion code sends,
    with the semantics Cypher gives them:
    - [CREATE (e:Event {...}) RETURN id(e) as id] always adds a node with
      a fresh internal id (a null-valued property is not stored);
    - [MERGE (s:L {id: $id}) ON CREATE SET s += $props] binds the nodes
      with label [L] and property [id = $id], and creates one, with
      [$props] on it, only when there is none (merging on a null value
      is an error);
    - [WITH s MATCH (e:Event) WHERE id(e) = ... CREATE (s)-[:R]->(e)]
      adds one relationship per bound pair. *)
Module Neo4j.
Import Py.

Record node : Type :=
  Node { node_id : Z; node_label : string; node_props : gmap string json }.

Record relationship : Type :=
  Rel { rel_start : Z; rel_type : string; rel_end : Z }.

Record graph : Type :=
  Graph { nodes : list node; rels : list relationship; next_id : Z }.

Definition empty_graph : graph := Graph [] [] 0.

(** [CREATE (s)-[:R]->(e)] or [CREATE (e)-[:R]->(d)] *)
Inductive direction : Type := EntityToEvent | EventToEntity.

(** [WHERE id(e) = $event_id] or [WHERE id(e) = toInteger($event_id)] *)
Inductive event_ref : Type :=
| ById (p : json)
| ByToInteger (p : json).

Inductive statement : Type :=
| CreateEvent (class_uid category_uid time severity message metadata : json)
| MergeEntity (label : string) (id : json) (props : list (string * json))
              (event : event_ref) (rtype : string) (dir : direction)
| Malformed.

(** A row of a result, as the value of its only column, [id]. *)
Definition row : Type := Z.

(** [SET n += $props]: each key is written, a null value removes it. *)
Definition set_props (kvs : list (string * json)) (m : gmap string json)
  : gmap string json :=
  foldl (fun m kv => match kv.2 with
                     | JNull => delete kv.1 m
                     | v => <[kv.1 := v]> m
                     end) m kvs.

Definition resolve_event_ref (r : event_ref) : option Z :=
  match r with
  | ById (JInt n) => Some n
  | ByToInteger (JInt n) => Some n
  | ByToInteger (JStr s) => Z.of_int <$> NilZero.int_of_string s
  | _ => None
  end.

(** The pattern [(s:label {id: idv})] *)
Definition matches (label : string) (idv : json) (n : node) : bool :=
  String.eqb (node_label n) label
  && from_option (json_eqb idv) false (node_props n !! "id").

Definition is_event (ev : event_ref) (n : node) : bool :=
  String.eqb (node_label n) "Event"
  && from_option (Z.eqb (node_id n)) false (resolve_event_ref ev).

Definition link (rtype : string) (dir : direction) (s e : node) : relationship :=
  match dir with
  | EntityToEvent => Rel (node_id s) rtype (node_id e)
  | EventToEntity => Rel (node_id e) rtype (node_id s)
  end.

(** One statement against the graph; [None] when the store raises. *)
Definition exec (g : graph) (st : statement) : option (list row * graph) :=
  match st with
  | CreateEvent c k t sv m md =>
      let n := Node (next_id g) "Event"
                 (set_props [("class_uid", c); ("category_uid", k); ("time", t);
                             ("severity", sv); ("message", m); ("metadata", md)] ∅) in
      Some ([next_id g],
            Graph (nodes g ++ [n]) (rels g) (next_id g + 1))
  | MergeEntity label idv props ev rtype dir =>
      match idv with
      | JNull => None
      | _ =>
          let found := List.filter (matches label idv) (nodes g) in
          let '(bound, g1) :=
            match found with
            | [] =>
                let n := Node (next_id g) label (set_props props {[ "id" := idv ]}) in
                ([n], Graph (nodes g ++ [n]) (rels g) (next_id g + 1))
            | _ => (found, g)
            end in
          let events := List.filter (is_event ev) (nodes g1) in
          let new_rels :=
            flat_map (fun s => List.map (link rtype dir s) events) bound in
          Some ([], Graph (nodes g1) (rels g1 ++ new_rels) (next_id g1))
      end
  | Malformed => None
  end.

End Neo4j.

(* ===================================================================== *)
(** * Part III.  Effects: the process environment, the world, the monad   *)
(* ===================================================================== *)

Module Runtime.
Import Py Neo4j.

Inductive level : Type := DEBUG | INFO | WARNING | ERROR.

(** What the code acts on: the graph behind [db], the log, and the
    messages handed to the Kafka producer. *)
Record world : Type :=
  World { graph_of : graph; logs : list (level * string); produced : list json }.

(** What the process is started with.
    - [schema_version]: [settings.ocsf_schema_version];
    - [hash_key]: the interpreter's string-hash key;
    - [rejects]: the statements the store refuses in a given state
      (connection loss, a label that is not a Cypher name, a property
      value it cannot hold, ...), beyond those [Neo4j.exec] refuses;
    - [json_loads]: the standard [json.loads], [None] when it raises;
    - [use_kafka], [producer_send]: [settings.use_kafka] and what
      [get_producer()] gives ([None]: no producer; [Some ok]: a producer
      whose [send_event] returns [ok]);
    - [uuid4]: the identifier [uuid.uuid4()] draws. *)
Record env : Type :=
  Env { schema_version : string;
        hash_key : Z * Z;
        rejects : graph -> statement -> bool;
        json_loads : string -> option json;
        use_kafka : bool;
        producer_send : option bool;
        uuid4 : string }.

Definition M (A : Type) : Type := world -> outcome A * world.

Definition ret {A} (a : A) : M A := fun w => (Return a, w).

Definition bind {A B} (c : M A) (k : A -> M B) : M B :=
  fun w => match c w with
           | (Return a, w') => k a w'
           | (Raise e, w') => (Raise e, w')
           end.

Definition raise {A} (e : exn) : M A := fun w => (Raise e, w).

(** [try: body  except Exception as e: handler] *)
Definition try_except {A} (body : M A) (handler : exn -> M A) : M A :=
  fun w => match body w with
           | (Return a, w') => (Return a, w')
           | (Raise e, w') => handler e w'
           end.

Definition lift {A} (o : outcome A) : M A := fun w => (o, w).

Definition log (l : level) (msg : string) : M unit :=
  fun w => (Return tt, World (graph_of w) (logs w ++ [(l, msg)]) (produced w)).

Definition produce (msg : json) : M unit :=
  fun w => (Return tt, World (graph_of w) (logs w) (produced w ++ [msg])).

Declare Scope py_scope.
Delimit Scope py_scope with py.
Notation "x <- c ;; k" := (bind c (fun x => k))
  (at level 100, c at next level, right associativity) : py_scope.
Notation "c ;;; k" := (bind c (fun _ => k))
  (at level 100, right associativity) : py_scope.

Local Open Scope py_scope.

(** [Neo4jConnection.execute_query]: run the statement in a session of
    its own; on an exception log the error, the query and the
    parameters, and raise it again. *)
Definition execute_query (E : env) (st : statement) : M (list row) :=
  fun w =>
    let failed :=
      (log ERROR "Query execution failed" ;;;
       log ERROR "Query" ;;;
       log ERROR "Parameters" ;;;
       raise StoreError) in
    if rejects E (graph_of w) st then failed w
    else match exec (graph_of w) st with
         | Some (rows, g') => (Return rows, World g' (logs w) (produced w))
         | None => failed w
         end.

End Runtime.

(* ===================================================================== *)
(** * Part IV.  [src/schemas/ocsf_schema.py]                              *)
(* ===================================================================== *)

Module OCSFSchema.
Import Py Neo4j Runtime.

Declare Scope out_scope.
Delimit Scope out_scope with out.
Notation "x <- c ;; k" :=
  (match c with Return x => k | Raise e => Raise e end)
  (at level 100, c at next level, right associativity) : out_scope.

(** The dict literal of [_map_syslog_severity]. *)
Definition syslog_to_ocsf : list (Z * Z) :=
  [(0, 10); (1, 9); (2, 8); (3, 7); (4, 6); (5, 5); (6, 4); (7, 3)]%Z.

Fixpoint int_dict_get (k : Z) (d : list (Z * Z)) (default : Z) : Z :=
  match d with
  | [] => default
  | (k', v) :: rest => if (k =? k')%Z then v else int_dict_get k rest default
  end.

(** How a value keys a dict whose keys are ints: an int is itself,
    [True] and [False] are [1] and [0], a str or [None] equals no int,
    a list or a dict is unhashable. *)
Definition as_int_key (v : json) : outcome (option Z) :=
  match v with
  | JInt n => Return (Some n)
  | JBool b => Return (Some (if b then 1 else 0)%Z)
  | JNull | JStr _ => Return None
  | JList _ | JDict _ => Raise TypeError
  end.

(** [syslog_to_ocsf.get(severity, 5)] *)
Definition _map_syslog_severity (severity : json) : outcome json :=
  (k <- as_int_key severity ;;
   Return (JInt (match k with
                 | Some n => int_dict_get n syslog_to_ocsf 5
                 | None => 5
                 end)))%out.

Section Mappers.
Variable E : env.

Definition metadata_of (name vendor_name : json) : json :=
  JDict [("version", JStr (schema_version E));
         ("product", JDict [("name", name); ("vendor_name", vendor_name)])].

Definition _map_syslog_to_ocsf (event : json) : outcome json :=
  (time <- py_get event "timestamp" JNull ;;
   raw_severity <- py_get event "severity" (JInt 0) ;;
   severity <- _map_syslog_severity raw_severity ;;
   message <- py_get event "message" (JStr "") ;;
   vendor_name <- py_get event "hostname" (JStr "Unknown") ;;
   Return (JDict [("class_uid", JStr "0001");
                  ("category_uid", JStr "0002");
                  ("time", time);
                  ("severity", severity);
                  ("message", message);
                  ("metadata", metadata_of (JStr "Syslog") vendor_name)]))%out.

Definition _map_cef_to_ocsf (event : json) : outcome json :=
  (time <- py_get event "deviceReceiptTime" JNull ;;
   severity <- py_get event "severity" (JInt 0) ;;
   message <- py_get event "message" (JStr "") ;;
   name <- py_get event "deviceProduct" (JStr "Unknown") ;;
   vendor_name <- py_get event "deviceVendor" (JStr "Unknown") ;;
   Return (JDict [("class_uid", JStr "0001");
                  ("category_uid", JStr "0002");
                  ("time", time);
                  ("severity", severity);
                  ("message", message);
                  ("metadata", metadata_of name vendor_name)]))%out.

Definition _map_leef_to_ocsf (event : json) : outcome json :=
  (time <- py_get event "devtime" JNull ;;
   severity <- py_get event "severity" (JInt 0) ;;
   message <- py_get event "message" (JStr "") ;;
   name <- py_get event "devname" (JStr "Unknown") ;;
   vendor_name <- py_get event "devtype" (JStr "Unknown") ;;
   Return (JDict [("class_uid", JStr "0001");
                  ("category_uid", JStr "0002");
                  ("time", time);
                  ("severity", severity);
                  ("message", message);
                  ("metadata", metadata_of name vendor_name)]))%out.

Local Open Scope py_scope.

Definition map_to_ocsf (event source_format : json) : M json :=
  if json_eqb source_format (JStr "syslog") then lift (_map_syslog_to_ocsf event)
  else if json_eqb source_format (JStr "cef") then lift (_map_cef_to_ocsf event)
  else if json_eqb source_format (JStr "leef") then lift (_map_leef_to_ocsf event)
  else (log WARNING "Unsupported source format" ;;; ret event).

End Mappers.
End OCSFSchema.

(* ===================================================================== *)
(** * Part V.  The graph writers                                          *)
(* ===================================================================== *)

(** The three writers ([KafkaConsumer.process_event], [create_event],
    [StoreInGraph._process_entities]) repeat one block per fragment:

      if KEY in ocsf_event:
          x = ocsf_event[KEY]
          x_type = x.get("type", DEFAULT)
          x_query = f"MERGE (x:{x_type} {{id: $x_id}}) ON CREATE SET x += $x_props
                      WITH x MATCH (e:Event) WHERE id(e) = REF CREATE <REL>"
          x_params = {"x_id": x.get("id", str(hash(json.dumps(x)))),
                      "x_props": {k: v for k, v in x.items() if k not in ["id", "type"]},
                      "event_id": event_id}
          db.execute_query(x_query, x_params)

    They differ in KEY, DEFAULT, REL and REF only. *)
Module EntityWrite.
Import Py Neo4j Runtime.
Local Open Scope py_scope.

Section WithEnv.
Variable E : env.

(** [x.get("id", str(hash(json.dumps(x))))] *)
Definition identity_key (frag : json) : outcome json :=
  py_get frag "id" (JStr (str_int (py_hash (hash_key E) (json_dumps frag)))).

(** A label written as a plain name: a letter or an underscore, then
    letters, digits and underscores (ASCII). *)
Definition name_start (c : ascii) : bool :=
  let n := byte_val c in
  ((65 <=? n)%Z && (n <=? 90)%Z) || ((97 <=? n)%Z && (n <=? 122)%Z) || (n =? 95)%Z.

Definition name_char (c : ascii) : bool :=
  name_start c || ((48 <=? byte_val c)%Z && (byte_val c <=? 57)%Z).

Definition is_label_name (s : string) : bool :=
  match String.list_ascii_of_string s with
  | [] => false
  | c :: rest => name_start c && forallb name_char rest
  end.

(** The text [f"MERGE (x:{x_type} ..."] together with its parameters.
    The type is spliced into the query text.  When its text is a plain
    name the query is the [MERGE] of that label.  Any other text (the
    empty string, a number, the [repr] of a list or a dict, text with
    spaces or punctuation) does not make the query this block means to
    send; such a query is outside the model and counts as refused. *)
Definition merge_statement (ty idv : json) (props : list (string * json))
    (ev : event_ref) (rtype : string) (dir : direction) : statement :=
  match str_scalar ty with
  | Some label =>
      if is_label_name label then MergeEntity label idv props ev rtype dir
      else Malformed
  | None => Malformed
  end.

Definition write_fragment (key default_type rtype : string) (dir : direction)
    (ref : json -> event_ref) (ocsf_event event_id : json) : M unit :=
  match ocsf_event with
  | JDict kvs =>
      match dict_lookup key kvs with
      | None => ret tt
      | Some frag =>
          ty <- lift (py_get frag "type" (JStr default_type)) ;;
          idv <- lift (identity_key frag) ;;
          props <- lift (props_without_id_type frag) ;;
          _ <- execute_query E (merge_statement ty idv props (ref event_id) rtype dir) ;;
          ret tt
      end
  | _ => raise TypeError
  end.

End WithEnv.
End EntityWrite.

(* ===================================================================== *)
(** * Part VI.  [src/kafka/consumer.py]                                   *)
(* ===================================================================== *)

Module KafkaConsumer.
Import Py Neo4j Runtime OCSFSchema EntityWrite.
Local Open Scope py_scope.

Section WithEnv.
Variable E : env.

Definition process_event (event : json) : M unit :=
  try_except
    (log DEBUG "Processing event" ;;;
     event_data <- lift (py_get event "event" (JDict [])) ;;
     source_format <- lift (py_get event "source_format" (JStr "unknown")) ;;
     ocsf_event <- (if negb (json_eqb source_format (JStr "ocsf"))
                    then map_to_ocsf E event_data source_format
                    else ret event_data) ;;
     class_uid <- lift (py_get ocsf_event "class_uid" (JStr "unknown")) ;;
     category_uid <- lift (py_get ocsf_event "category_uid" (JStr "unknown")) ;;
     time <- lift (py_get ocsf_event "time" (JStr "")) ;;
     severity <- lift (py_get ocsf_event "severity" (JInt 0)) ;;
     message <- lift (py_get ocsf_event "message" (JStr "")) ;;
     metadata <- lift (py_get ocsf_event "metadata" (JDict [])) ;;
     result <- execute_query E
                 (CreateEvent class_uid category_uid time severity message
                              (JStr (json_dumps metadata))) ;;
     match result with
     | id :: _ =>
         let event_id := JStr (str_int id) in
         write_fragment E "src" "Unknown" "GENERATED" EntityToEvent
                        ByToInteger ocsf_event event_id ;;;
         write_fragment E "dst" "Unknown" "TARGETS" EventToEntity
                        ByToInteger ocsf_event event_id ;;;
         log INFO "Successfully processed event with ID"
     | [] => log ERROR "Failed to create event in database"
     end)
    (fun _ => log ERROR "Failed to process event").

(** What [consumer.poll(1.0)] gives. *)
Inductive polled : Type :=
| NoMessage
| PollError (partition_eof : bool)
| Message (value : list Byte.byte).

(** One turn of the [while self.running] loop of [start]. *)
Definition start_step (process_func : option (json -> M unit)) (msg : polled)
  : M unit :=
  match msg with
  | NoMessage => ret tt
  | PollError true => log DEBUG "Reached end of partition"
  | PollError false => log ERROR "Kafka error"
  | Message payload =>
      try_except
        (value <- lift (decode_utf8 payload) ;;
         event <- match json_loads E value with
                  | Some v => ret v
                  | None => raise JSONDecodeError
                  end ;;
         match process_func with
         | Some f => f event
         | None => process_event event
         end)
        (fun _ => log ERROR "Failed to process message")
  end.

(** The loop of [start] over the messages polled while it runs. *)
Fixpoint start (process_func : option (json -> M unit)) (msgs : list polled)
  : M unit :=
  match msgs with
  | [] => ret tt
  | msg :: rest => start_step process_func msg ;;; start process_func rest
  end.

End WithEnv.
End KafkaConsumer.

(* ===================================================================== *)
(** * Part VII.  [src/pipelines/ingest.py]                                *)
(* ===================================================================== *)

Module Ingest.
Import Py Neo4j Runtime OCSFSchema EntityWrite.
Local Open Scope py_scope.

(** What a pipeline step is handed: bytes, a str, or a parsed value. *)
Inductive element : Type :=
| Bytes (b : list Byte.byte)
| Str (s : string)
| Value (v : json).

(** [for x in xs: body(x)] *)
Fixpoint for_each {A} (xs : list A) (body : A -> M unit) : M unit :=
  match xs with
  | [] => ret tt
  | x :: rest => body x ;;; for_each rest body
  end.

(** [json.loads(s)] *)
Definition loads (E : env) (s : string) : M json :=
  match json_loads E s with
  | Some v => ret v
  | None => raise JSONDecodeError
  end.

(** Each [DoFn.process] is a generator; it is modelled by the list of
    the values it yields (none or one). *)

Module ParseEvent.
Definition process (E : env) (elt : element) : M (list json) :=
  try_except
    (event <- match elt with
              | Bytes b => (s <- lift (decode_utf8 b) ;; loads E s)
              | Str s => loads E s
              | Value v => ret v
              end ;;
     log DEBUG "Parsed event" ;;;
     ret [event])
    (fun _ => log ERROR "Failed to parse event" ;;; ret []).
End ParseEvent.

Module DetectSourceFormat.

(** [any(k in element for k in keys)] *)
Definition any_key (keys : list string) (kvs : list (string * json)) : bool :=
  existsb (fun k => dict_mem k kvs) keys.

(** The [if] / [elif] chain on the shape of the element. *)
Definition source_format_of (elt : json) : string :=
  match elt with
  | JDict kvs =>
      if dict_mem "class_uid" kvs && dict_mem "category_uid" kvs then "ocsf"
      else if any_key ["deviceVendor"; "deviceProduct"; "deviceVersion"] kvs then "cef"
      else if any_key ["devname"; "devtime"; "devtype"] kvs then "leef"
      else if any_key ["facility"; "severity"; "timestamp"; "hostname"] kvs then "syslog"
      else "unknown"
  | _ => "unknown"
  end.

Definition process (elt : json) : M (list (json * string)) :=
  try_except
    (let source_format := source_format_of elt in
     log DEBUG "Detected source format" ;;;
     ret [(elt, source_format)])
    (fun _ => log ERROR "Failed to detect source format" ;;; ret []).
End DetectSourceFormat.

Module MapToOCSF.
Definition process (E : env) (elt : json * string) : M (list json) :=
  try_except
    (let '(event, source_format) := elt in
     if String.eqb source_format "ocsf" then ret [event]
     else
       (ocsf_event <- map_to_ocsf E event (JStr source_format) ;;
        log DEBUG "Mapped event to OCSF" ;;;
        ret [ocsf_event]))
    (fun _ => log ERROR "Failed to map event to OCSF" ;;; ret []).
End MapToOCSF.

Module StoreInGraph.

Definition _process_entities (E : env) (event : json) (event_id : Z) : M unit :=
  try_except
    (write_fragment E "src" "Unknown" "GENERATED" EntityToEvent
                    ById event (JInt event_id) ;;;
     write_fragment E "dst" "Unknown" "TARGETS" EventToEntity
                    ById event (JInt event_id) ;;;
     write_fragment E "principal" "User" "PERFORMED" EntityToEvent
                    ById event (JInt event_id))
    (fun _ => log ERROR "Failed to process entities for event").

(** [element['_id'] = event_id] *)
Definition set_item (obj : json) (k : string) (v : json) : outcome json :=
  match obj with
  | JDict kvs => Return (JDict (dict_set k v kvs))
  | _ => Raise TypeError
  end.

Definition process (E : env) (elt : json) : M (list json) :=
  try_except
    (class_uid <- lift (py_get elt "class_uid" JNull) ;;
     category_uid <- lift (py_get elt "category_uid" JNull) ;;
     time <- lift (py_get elt "time" JNull) ;;
     severity <- lift (py_get elt "severity" (JInt 0)) ;;
     message <- lift (py_get elt "message" (JStr "")) ;;
     metadata <- lift (py_get elt "metadata" (JDict [])) ;;
     result <- execute_query E
                 (CreateEvent class_uid category_uid time severity message
                              (JStr (json_dumps metadata))) ;;
     match result with
     | event_id :: _ =>
         elt' <- lift (set_item elt "_id" (JInt event_id)) ;;
         log INFO "Stored event in graph database with ID" ;;;
         _process_entities E elt' event_id ;;;
         ret [elt']
     | [] =>
         log ERROR "Failed to store event in graph database" ;;;
         ret []
     end)
    (fun _ => log ERROR "Failed to store event in graph database" ;;; ret []).
End StoreInGraph.

(** The body of the [while True] loop of [run_standalone] for a message
    without a transport error: the four steps, nested. *)
Definition run_standalone_message (E : env) (value : element) : M unit :=
  parsed <- ParseEvent.process E value ;;
  for_each parsed (fun parsed_event =>
    detected <- DetectSourceFormat.process parsed_event ;;
    for_each detected (fun event_with_format =>
      mapped <- MapToOCSF.process E event_with_format ;;
      for_each mapped (fun ocsf_event =>
        stored <- StoreInGraph.process E ocsf_event ;;
        for_each stored (fun stored_event =>
          log INFO "Successfully processed event")))).

End Ingest.

(* ===================================================================== *)
(** * Part VIII.  [src/api/main.py], [create_event]                       *)
(* ===================================================================== *)

Module Api.
Import Py Neo4j Runtime OCSFSchema EntityWrite.
Local Open Scope py_scope.

(** [EventResponse(id=..., event=...)] *)
Record EventResponse : Type :=
  mkEventResponse { response_id : string; response_event : json }.

(** [producer.send_event(kafka_message)], by what the producer does. *)
Definition send_event (ok : bool) (msg : json) : M bool :=
  if ok then (produce msg ;;; log DEBUG "Sent event to Kafka topic" ;;; ret true)
  else (log ERROR "Failed to send event to Kafka" ;;; ret false).

(** The request body is an [EventCreate]: [event] is a dict and
    [source_format] a str. *)
Definition create_event (E : env) (event : json) (source_format : string)
  : M EventResponse :=
  try_except
    (ocsf_event <- (if negb (String.eqb source_format "ocsf")
                    then map_to_ocsf E event (JStr source_format)
                    else ret event) ;;
     queued <-
       (if use_kafka E then
          match producer_send E with
          | Some ok =>
              success <- send_event ok
                           (JDict [("event", ocsf_event);
                                   ("source_format", JStr "ocsf")]) ;;
              if (success : bool) then
                (log INFO "Event sent to Kafka with temporary ID" ;;;
                 ret (Some (mkEventResponse (uuid4 E) ocsf_event)))
              else raise (HTTPException 500)
          | None =>
              log WARNING "Kafka producer not available, falling back to direct database write" ;;;
              ret None
          end
        else ret None) ;;
     match queued with
     | Some response => ret response
     | None =>
         class_uid <- lift (py_get ocsf_event "class_uid" (JStr "unknown")) ;;
         category_uid <- lift (py_get ocsf_event "category_uid" (JStr "unknown")) ;;
         time <- lift (py_get ocsf_event "time" (JStr "")) ;;
         severity <- lift (py_get ocsf_event "severity" (JInt 0)) ;;
         message <- lift (py_get ocsf_event "message" (JStr "")) ;;
         metadata <- lift (py_get ocsf_event "metadata" (JDict [])) ;;
         result <- execute_query E
                     (CreateEvent class_uid category_uid time severity message
                                  (JStr (json_dumps metadata))) ;;
         match result with
         | id :: _ =>
             let event_id := JStr (str_int id) in
             write_fragment E "src" "Unknown" "GENERATED" EntityToEvent
                            ByToInteger ocsf_event event_id ;;;
             write_fragment E "dst" "Unknown" "TARGETS" EventToEntity
                            ByToInteger ocsf_event event_id ;;;
             ret (mkEventResponse (str_int id) ocsf_event)
         | [] => raise (HTTPException 500)
         end
     end)
    (fun _ => log ERROR "Failed to create event" ;;; raise (HTTPException 500)).

End Api.

(* ===================================================================== *)
(** * Part IX.  A reference environment                                   *)
(* ===================================================================== *)

(** The properties below are stated for every environment.  To run the
    code on concrete messages one is fixed here: the default schema
    version, a hash key, a store that refuses nothing of its own accord,
    and a reader for JSON text.  The reader follows [json.loads] on the
    values of this model; text with a fractional or exponent number, the
    constants [NaN] / [Infinity], or an unpaired surrogate escape denotes
    a value outside the model and is not read. *)
Module Reference.
Import Py Neo4j Runtime.

Definition is_ws (c : ascii) : bool :=
  let n := byte_val c in
  (n =? 32)%Z || (n =? 9)%Z || (n =? 10)%Z || (n =? 13)%Z.

Fixpoint skip_ws (cs : list ascii) : list ascii :=
  match cs with
  | c :: rest => if is_ws c then skip_ws rest else cs
  | [] => []
  end.

Definition digit_val (c : ascii) : option Z :=
  let n := byte_val c in
  if (48 <=? n)%Z && (n <=? 57)%Z then Some (n - 48)%Z else None.

Definition hex_val (c : ascii) : option Z :=
  let n := byte_val c in
  if (48 <=? n)%Z && (n <=? 57)%Z then Some (n - 48)%Z
  else if (97 <=? n)%Z && (n <=? 102)%Z then Some (n - 87)%Z
  else if (65 <=? n)%Z && (n <=? 70)%Z then Some (n - 55)%Z
  else None.

Definition hex4 (a b c d : ascii) : option Z :=
  x ← hex_val a; y ← hex_val b; z ← hex_val c; t ← hex_val d;
  Some (((x * 16 + y) * 16 + z) * 16 + t)%Z.

Definition chr (n : Z) : ascii := ascii_of_N (Z.to_N n).

Definition utf8_encode (n : Z) : list ascii :=
  if (n <? 128)%Z then [chr n]
  else if (n <? 2048)%Z then [chr (192 + n / 64); chr (128 + n mod 64)]
  else if (n <? 65536)%Z then
    [chr (224 + n / 4096); chr (128 + n / 64 mod 64); chr (128 + n mod 64)]
  else
    [chr (240 + n / 262144); chr (128 + n / 4096 mod 64);
     chr (128 + n / 64 mod 64); chr (128 + n mod 64)].

Definition is_high_surrogate (n : Z) : bool := (55296 <=? n)%Z && (n <=? 56319)%Z.
Definition is_low_surrogate (n : Z) : bool := (56320 <=? n)%Z && (n <=? 57343)%Z.

(** The characters of a string literal after its opening quote. *)
Fixpoint read_string (cs : list ascii) (acc : list ascii)
  : option (string * list ascii) :=
  match cs with
  | [] => None
  | c :: rest =>
      if Ascii.eqb c dquote then Some (String.string_of_list_ascii (rev acc), rest)
      else if Ascii.eqb c "\" then
        match rest with
        | "u"%char :: a :: b :: c1 :: d :: rest' =>
            match hex4 a b c1 d with
            | None => None
            | Some n =>
                if is_high_surrogate n then
                  match rest' with
                  | "\"%char :: "u"%char :: a' :: b' :: c' :: d' :: rest'' =>
                      match hex4 a' b' c' d' with
                      | Some m =>
                          if is_low_surrogate m then
                            read_string rest''
                              (rev (utf8_encode (65536 + (n - 55296) * 1024 + (m - 56320)))
                               ++ acc)
                          else None
                      | None => None
                      end
                  | _ => None
                  end
                else if is_low_surrogate n then None
                else read_string rest' (rev (utf8_encode n) ++ acc)
            end
        | e :: rest' =>
            let plain (x : Z) := read_string rest' (chr x :: acc) in
            if Ascii.eqb e dquote then plain 34%Z
            else if Ascii.eqb e "\" then plain 92%Z
            else if Ascii.eqb e "/" then plain 47%Z
            else if Ascii.eqb e "b" then plain 8%Z
            else if Ascii.eqb e "f" then plain 12%Z
            else if Ascii.eqb e "n" then plain 10%Z
            else if Ascii.eqb e "r" then plain 13%Z
            else if Ascii.eqb e "t" then plain 9%Z
            else None
        | [] => None
        end
      else if (byte_val c <? 32)%Z then None
      else read_string rest (c :: acc)
  end.

Fixpoint read_digits (cs : list ascii) (acc : Z) : Z * list ascii :=
  match cs with
  | c :: rest =>
      match digit_val c with
      | Some d => read_digits rest (acc * 10 + d)%Z
      | None => (acc, cs)
      end
  | [] => (acc, [])
  end.

(** [0] or a digit string without a leading zero, not followed by a
    fraction or an exponent. *)
Definition read_nat (cs : list ascii) : option (Z * list ascii) :=
  match cs with
  | c :: rest =>
      match digit_val c with
      | Some d =>
          let '(n, rest') := if (d =? 0)%Z then (0%Z, rest) else read_digits rest d in
          match rest' with
          | x :: _ =>
              if Ascii.eqb x "." || Ascii.eqb x "e" || Ascii.eqb x "E"
              then None else Some (n, rest')
          | [] => Some (n, rest')
          end
      | None => None
      end
  | [] => None
  end.

Fixpoint read_value (fuel : nat) (cs : list ascii) {struct fuel}
  : option (json * list ascii) :=
  match fuel with
  | O => None
  | S fuel' =>
      match skip_ws cs with
      | "n"%char :: "u"%char :: "l"%char :: "l"%char :: rest => Some (JNull, rest)
      | "t"%char :: "r"%char :: "u"%char :: "e"%char :: rest => Some (JBool true, rest)
      | "f"%char :: "a"%char :: "l"%char :: "s"%char :: "e"%char :: rest =>
          Some (JBool false, rest)
      | "["%char :: rest =>
          match skip_ws rest with
          | "]"%char :: rest' => Some (JList [], rest')
          | _ => '(xs, rest') ← read_items fuel' rest; Some (JList xs, rest')
          end
      | "{"%char :: rest =>
          match skip_ws rest with
          | "}"%char :: rest' => Some (JDict [], rest')
          | _ => '(kvs, rest') ← read_members fuel' rest []; Some (JDict kvs, rest')
          end
      | "-"%char :: rest => '(n, rest') ← read_nat rest; Some (JInt (- n), rest')
      | c :: rest =>
          if Ascii.eqb c dquote
          then '(s, rest') ← read_string rest []; Some (JStr s, rest')
          else '(n, rest') ← read_nat (c :: rest); Some (JInt n, rest')
      | [] => None
      end
  end
with read_items (fuel : nat) (cs : list ascii) {struct fuel}
  : option (list json * list ascii) :=
  match fuel with
  | O => None
  | S fuel' =>
      '(v, rest) ← read_value fuel' cs;
      match skip_ws rest with
      | ","%char :: rest' => '(vs, rest'') ← read_items fuel' rest'; Some (v :: vs, rest'')
      | "]"%char :: rest' => Some ([v], rest')
      | _ => None
      end
  end
with read_members (fuel : nat) (cs : list ascii) (acc : list (string * json))
  {struct fuel} : option (list (string * json) * list ascii) :=
  match fuel with
  | O => None
  | S fuel' =>
      match skip_ws cs with
      | c :: rest =>
          if Ascii.eqb c dquote then
            '(k, rest1) ← read_string rest [];
            match skip_ws rest1 with
            | ":"%char :: rest2 =>
                '(v, rest3) ← read_value fuel' rest2;
                let acc' := dict_set k v acc in
                match skip_ws rest3 with
                | ","%char :: rest4 => read_members fuel' rest4 acc'
                | "}"%char :: rest4 => Some (acc', rest4)
                | _ => None
                end
            | _ => None
            end
          else None
      | [] => None
      end
  end.

Definition read_json (s : string) : option json :=
  let cs := String.list_ascii_of_string s in
  '(v, rest) ← read_value (S (length cs)) cs;
  match skip_ws rest with
  | [] => Some v
  | _ => None
  end.

Definition accept_all (g : graph) (st : statement) : bool := false.

Definition E0 : env :=
  {| schema_version := "1.0.0";
     hash_key := (0, 0)%Z;
     rejects := accept_all;
     json_loads := read_json;
     use_kafka := false;
     producer_send := None;
     uuid4 := "00000000-0000-4000-8000-000000000000" |}.

Definition w0 : world := World empty_graph [] [].

End Reference.

(* ===================================================================== *)
(** * [src/api/main.py], [get_event]                                      *)
(* ===================================================================== *)

(** The endpoint that reads an event back.  Its query

      MATCH (e:Event) WHERE id(e) = toInteger($event_id) RETURN e

    changes nothing; each row is the property map of a node the pattern
    selects.  The store can fail on a read as on a write; the states in
    which it does are a parameter. *)
Module ApiRead.
Import Py Neo4j Runtime.
Local Open Scope py_scope.

Definition match_event (g : graph) (event_id : json) : list (gmap string json) :=
  List.map node_props (List.filter (is_event (ByToInteger event_id)) (nodes g)).

Section WithEnv.
Variable E : env.
Variable read_refused : graph -> bool.

(** [db.execute_query] on the read. *)
Definition execute_read (event_id : json) : M (list (gmap string json)) :=
  fun w =>
    if read_refused (graph_of w) then
      (log ERROR "Query execution failed" ;;;
       log ERROR "Query" ;;;
       log ERROR "Parameters" ;;;
       raise StoreError) w
    else (Return (match_event (graph_of w) event_id), w).

(** [json.loads(x)] on a property value: text is read, any other value
    is a [TypeError]. *)
Definition loads_value (v : json) : M json :=
  match v with
  | JStr s => Ingest.loads E s
  | _ => raise TypeError
  end.

(** [event_node.get(k, d)] *)
Definition node_get (event_node : gmap string json) (k : string) (d : json) : json :=
  default d (event_node !! k).

Definition get_event (event_id : string) : M Api.EventResponse :=
  try_except
    (result <- execute_read (JStr event_id) ;;
     match result with
     | [] => raise (HTTPException 404)
     | event_node :: _ =>
         metadata <- loads_value (node_get event_node "metadata" (JStr "{}")) ;;
         ret (Api.mkEventResponse event_id
                (JDict [("class_uid", node_get event_node "class_uid" (JStr "unknown"));
                        ("category_uid", node_get event_node "category_uid" (JStr "unknown"));
                        ("time", node_get event_node "time" (JStr ""));
                        ("severity", node_get event_node "severity" (JInt 0));
                        ("message", node_get event_node "message" (JStr ""));
                        ("metadata", metadata)]))
     end)
    (fun _ => log ERROR "Failed to get event" ;;; raise (HTTPException 500)).

End WithEnv.
End ApiRead.

(* ===================================================================== *)
(** * [src/kafka/producer.py], the value of a message                     *)
(* ===================================================================== *)

Module KafkaProducer.
Import Py.

(** [json.dumps(event).encode('utf-8')], the value [send_event] hands to
    the client.  A str is represented by its UTF-8 encoding, so encoding
    it gives the bytes of the representation. *)
Definition message_value (event : json) : list Byte.byte :=
  String.list_byte_of_string (json_dumps event).

End KafkaProducer.

(* ===================================================================== *)
(** * Part X.  The vocabulary of the properties                           *)
(* ===================================================================== *)

(** The predicates and relations the properties are stated with, and
    the concrete events and messages they are run on. *)

Import Py Neo4j Runtime OCSFSchema EntityWrite Reference.

(** ** Relations on graphs and on computations *)

(** [g'] keeps every node and relationship of [g], in place. *)
Definition extends (g g' : graph) : Prop :=
  (exists ns, nodes g' = nodes g ++ ns) /\
  (exists rs, rels g' = rels g ++ rs) /\
  (next_id g <= next_id g')%Z.

(** Internal ids are below the allocation counter. *)
Definition wf (g : graph) : Prop :=
  Forall (fun n => (node_id n < next_id g)%Z) (nodes g).

(** A relation between the graph before and the graph after is kept
    along a computation. *)
Definition along {A} (R : graph -> graph -> Prop) (c : M A) : Prop :=
  forall w, R (graph_of w) (graph_of (c w).2).

(** A statement keeps [R] whenever the store runs it. *)
Definition keeps (R : graph -> graph -> Prop) (st : statement) : Prop :=
  forall g rows g', exec g st = Some (rows, g') -> R g g'.

(** The properties sent with a fragment: its fields but [id] and [type]. *)
Definition without_id_type (kvs : list (string * json)) : list (string * json) :=
  List.filter (fun kv => negb (String.eqb kv.1 "id" || String.eqb kv.1 "type")) kvs.

(** The statements [write_fragment] can issue. *)
Inductive fragment_statement (rtype : string) (dir : direction) : statement -> Prop :=
| fragment_merge ty idv kvs ev :
    fragment_statement rtype dir
      (merge_statement ty idv (without_id_type kvs) ev rtype dir).

(** The statements of a writer that links sources and destinations. *)
Definition keeps_event_src_dst (R : graph -> graph -> Prop) : Prop :=
  (forall c k t sv m md, keeps R (CreateEvent c k t sv m md)) /\
  (forall st, fragment_statement "GENERATED" EntityToEvent st -> keeps R st) /\
  (forall st, fragment_statement "TARGETS" EventToEntity st -> keeps R st).


(** A node made by [CREATE (e:Event {...})]: it is labelled [Event] and
    has no [id] property, which every node made for a fragment has. *)
Definition created_event (n : node) : bool :=
  String.eqb (node_label n) "Event"
  && match node_props n !! "id" with None => true | Some _ => false end.

(** The nodes of a graph made by [CREATE (e:Event {...})]. *)
Definition event_nodes (g : graph) : list node :=
  List.filter created_event (nodes g).

(** What writing a fragment may do to the graph: extend it, keep it
    well-formed, and leave the event nodes as they are. *)
Definition entity_step (g g' : graph) : Prop :=
  extends g g' /\ (wf g -> wf g') /\ event_nodes g' = event_nodes g.

(** The [PERFORMED] relationships of a graph. *)
Definition performed (g : graph) : list relationship :=
  List.filter (fun r => String.eqb (rel_type r) "PERFORMED") (rels g).

(** No [PERFORMED] relationship is added or lost. *)
Definition same_performed (g g' : graph) : Prop := performed g' = performed g.

(** The store runs every [CREATE (e:Event ...)] it is sent. *)
Definition accepts_create (E : env) : Prop :=
  forall g c k t sv m md, rejects E g (CreateEvent c k t sv m md) = false.

(** The properties of the event node the consumer (and the API) write
    for a canonical event with fields [kvs]. *)
Definition consumer_event_props (kvs : list (string * json)) : gmap string json :=
  set_props
    [("class_uid", from_option id (JStr "unknown") (dict_lookup "class_uid" kvs));
     ("category_uid", from_option id (JStr "unknown") (dict_lookup "category_uid" kvs));
     ("time", from_option id (JStr "") (dict_lookup "time" kvs));
     ("severity", from_option id (JInt 0) (dict_lookup "severity" kvs));
     ("message", from_option id (JStr "") (dict_lookup "message" kvs));
     ("metadata",
      JStr (json_dumps (from_option id (JDict []) (dict_lookup "metadata" kvs))))] ∅.

(** The same for the pipeline's [StoreInGraph.process]. *)
Definition pipeline_event_props (kvs : list (string * json)) : gmap string json :=
  set_props
    [("class_uid", from_option id JNull (dict_lookup "class_uid" kvs));
     ("category_uid", from_option id JNull (dict_lookup "category_uid" kvs));
     ("time", from_option id JNull (dict_lookup "time" kvs));
     ("severity", from_option id (JInt 0) (dict_lookup "severity" kvs));
     ("message", from_option id (JStr "") (dict_lookup "message" kvs));
     ("metadata",
      JStr (json_dumps (from_option id (JDict []) (dict_lookup "metadata" kvs))))] ∅.

(** The graph with one more event node. *)
Definition with_event (g : graph) (props : gmap string json) : graph :=
  Graph (nodes g ++ [Node (next_id g) "Event" props]) (rels g) (next_id g + 1).

(** What the claim asks of the node: the union of both property maps,
    the later write winning. *)
Definition last_write_wins (idv : json) (f1 f2 : list (string * json))
  : gmap string json :=
  set_props (without_id_type f2) (set_props (without_id_type f1) {[ "id" := idv ]}).

(** The policy of the consumer for one event [kvs] written from [w]:
    nothing is raised; the graph with the event node is kept whatever
    happens to the fragments; a failure on the source fragment ends the
    write with an error in the log and the destination is not written; a
    failure on the destination keeps what the source write did. *)
Definition consumer_write_policy (E : env) (msg : json)
    (kvs : list (string * json)) (w : world) : Prop :=
  let g0 := with_event (graph_of w) (consumer_event_props kvs) in
  let w1 := World g0 (logs w ++ [(DEBUG, "Processing event")]) (produced w) in
  let eid := JStr (str_int (next_id (graph_of w))) in
  let src := write_fragment E "src" "Unknown" "GENERATED" EntityToEvent ByToInteger
               (JDict kvs) eid in
  let dst := write_fragment E "dst" "Unknown" "TARGETS" EventToEntity ByToInteger
               (JDict kvs) eid in
  let r := KafkaConsumer.process_event E msg w in
  r.1 = Return tt /\
  extends g0 (graph_of r.2) /\
  (forall e, (src w1).1 = Raise e ->
             graph_of r.2 = g0 /\
             last (logs r.2) = Some (ERROR, "Failed to process event")) /\
  (forall e, (src w1).1 = Return tt -> (dst (src w1).2).1 = Raise e ->
             graph_of r.2 = graph_of (src w1).2 /\
             last (logs r.2) = Some (ERROR, "Failed to process event")).

(** The same for the pipeline, with its third fragment. *)
Definition pipeline_write_policy (E : env) (kvs : list (string * json))
    (w : world) : Prop :=
  let g0 := with_event (graph_of w) (pipeline_event_props kvs) in
  let w1 := World g0 (logs w ++ [(INFO, "Stored event in graph database with ID")])
                  (produced w) in
  let eid := next_id (graph_of w) in
  let elt := JDict (dict_set "_id" (JInt eid) kvs) in
  let src := write_fragment E "src" "Unknown" "GENERATED" EntityToEvent ById
               elt (JInt eid) in
  let dst := write_fragment E "dst" "Unknown" "TARGETS" EventToEntity ById
               elt (JInt eid) in
  let principal := write_fragment E "principal" "User" "PERFORMED" EntityToEvent ById
                     elt (JInt eid) in
  let r := Ingest.StoreInGraph.process E (JDict kvs) w in
  r.1 = Return [elt] /\
  extends g0 (graph_of r.2) /\
  (forall e, (src w1).1 = Raise e ->
             graph_of r.2 = g0 /\
             last (logs r.2) = Some (ERROR, "Failed to process entities for event")) /\
  (forall e, (src w1).1 = Return tt -> (dst (src w1).2).1 = Raise e ->
             graph_of r.2 = graph_of (src w1).2 /\
             last (logs r.2) = Some (ERROR, "Failed to process entities for event")) /\
  (forall e, (src w1).1 = Return tt -> (dst (src w1).2).1 = Return tt ->
             (principal (dst (src w1).2).2).1 = Raise e ->
             graph_of r.2 = graph_of (dst (src w1).2).2 /\
             last (logs r.2) = Some (ERROR, "Failed to process entities for event")).

(** The payload is not UTF-8, or its text is not JSON. *)
Definition unreadable (E : env) (payload : list Byte.byte) : Prop :=
  (exists e, decode_utf8 payload = Raise e) \/
  (exists s, decode_utf8 payload = Return s /\ json_loads E s = None).

(** The world with one more line in the log. *)
Definition logged (l : level) (msg : string) (w : world) : world :=
  World (graph_of w) (logs w ++ [(l, msg)]) (produced w).

(** ** Sample environments, events and messages *)

(** A canonical event that also has the vendor and product fields of
    CEF. *)
Definition cef_shaped_ocsf : list (string * json) :=
  [("deviceVendor", JStr "Acme"); ("deviceProduct", JStr "Wall");
   ("class_uid", JStr "0001"); ("category_uid", JStr "0002")].

(** A canonical event with a principal, as a message of the queue. *)
Definition event_with_principal : json :=
  JDict [("class_uid", JStr "0001"); ("category_uid", JStr "0002");
         ("time", JStr "2023-01-01T12:00:00Z"); ("severity", JInt 5);
         ("message", JStr "login");
         ("principal", JDict [("id", JStr "user-001"); ("type", JStr "User");
                              ("name", JStr "testuser")])].

Definition message_with_principal : json :=
  JDict [("event", event_with_principal); ("source_format", JStr "ocsf")].

(** A canonical event with a source, alone and as a queue message. *)
Definition canonical_event : list (string * json) :=
  [("class_uid", JStr "0001"); ("category_uid", JStr "0002");
   ("time", JStr "2023-01-01T12:00:00Z"); ("severity", JInt 5);
   ("message", JStr "Test OCSF event");
   ("src", JDict [("id", JStr "src-001"); ("type", JStr "IP");
                  ("ip", JStr "192.168.1.100")])].

Definition canonical_message : json :=
  JDict [("event", JDict canonical_event); ("source_format", JStr "ocsf")].

(** The world after the same event has been written twice. *)
Definition consumer_twice : world :=
  (KafkaConsumer.process_event E0 canonical_message
     (KafkaConsumer.process_event E0 canonical_message w0).2).2.

Definition pipeline_twice : world :=
  (Ingest.StoreInGraph.process E0 (JDict canonical_event)
     (Ingest.StoreInGraph.process E0 (JDict canonical_event) w0).2).2.

(** An event in no known format: the detector says "unknown" and the
    mapper passes it through. *)
Definition bare_event : json := JDict [("message", JStr "disk full")].

(** The label of a node with its [class_uid] and [category_uid]. *)
Definition class_and_category (n : node) : string * option json * option json :=
  (node_label n, node_props n !! "class_uid", node_props n !! "category_uid").

(** Two observations of one host: the second changes [os] and adds [ip]. *)
Definition host_seen_first : list (string * json) :=
  [("id", JStr "h1"); ("type", JStr "Host"); ("os", JStr "linux")].

Definition host_seen_later : list (string * json) :=
  [("id", JStr "h1"); ("type", JStr "Host"); ("os", JStr "windows");
   ("ip", JStr "10.0.0.1")].

(** A canonical event about one source fragment. *)
Definition event_about (src : list (string * json)) : list (string * json) :=
  [("class_uid", JStr "0001"); ("category_uid", JStr "0002"); ("src", JDict src)].

(** The consumer, the API and the pipeline on the two observations. *)
Definition consumer_two_hosts : graph :=
  graph_of (KafkaConsumer.process_event E0
              (JDict [("event", JDict (event_about host_seen_later));
                      ("source_format", JStr "ocsf")])
              (KafkaConsumer.process_event E0
                 (JDict [("event", JDict (event_about host_seen_first));
                         ("source_format", JStr "ocsf")]) w0).2).2.

Definition api_two_hosts : graph :=
  graph_of (Api.create_event E0 (JDict (event_about host_seen_later)) "ocsf"
              (Api.create_event E0 (JDict (event_about host_seen_first)) "ocsf" w0).2).2.

Definition pipeline_two_hosts : graph :=
  graph_of (Ingest.StoreInGraph.process E0 (JDict (event_about host_seen_later))
              (Ingest.StoreInGraph.process E0 (JDict (event_about host_seen_first))
                 w0).2).2.

(** [os] and [ip] of the nodes for the host [h1]. *)
Definition host_view (g : graph) : list (option json * option json) :=
  (fun n => (node_props n !! "os", node_props n !! "ip"))
    <$> List.filter (matches "Host" (JStr "h1")) (nodes g).

(** An event whose source fragment is a bare string, with a
    well-formed destination. *)
Definition destination : list (string * json) :=
  [("id", JStr "dst-001"); ("type", JStr "IP"); ("ip", JStr "8.8.8.8")].

(** The event with a source that is text, not a dict; the event with
    the destination alone; an event as a queue message. *)
Definition event_source_is_text : list (string * json) :=
  [("class_uid", JStr "0001"); ("category_uid", JStr "0002");
   ("src", JStr "192.168.1.100"); ("dst", JDict destination)].

Definition event_destination_only : list (string * json) :=
  [("class_uid", JStr "0001"); ("category_uid", JStr "0002");
   ("dst", JDict destination)].

Definition as_message (kvs : list (string * json)) : json :=
  JDict [("event", JDict kvs); ("source_format", JStr "ocsf")].

(** A store that refuses a [MERGE] with a map among its properties, as
    Neo4j does (a property holds a primitive value or an array of them). *)
Definition rejects_map_property (g : graph) (st : statement) : bool :=
  match st with
  | MergeEntity _ _ props _ _ _ =>
      existsb (fun kv => match kv.2 with JDict _ => true | _ => false end) props
  | _ => false
  end.

(** The reference environment with that store, and an event whose
    source has a nested field. *)
Definition E_strict : env :=
  Env (schema_version E0) (hash_key E0) rejects_map_property (json_loads E0)
      (use_kafka E0) (producer_send E0) (uuid4 E0).

Definition event_source_nested : list (string * json) :=
  [("class_uid", JStr "0001"); ("category_uid", JStr "0002");
   ("src", JDict [("id", JStr "src-001"); ("type", JStr "IP");
                  ("geo", JDict [("country", JStr "NZ")])]);
   ("dst", JDict destination)].

(** The labels of the nodes and the relationships of a world. *)
Definition labels_and_rels (w : world) : list string * list relationship :=
  (node_label <$> nodes (graph_of w), rels (graph_of w)).

(** A payload that is text but not JSON, and one that is not text. *)
Definition not_json : list Byte.byte := String.list_byte_of_string "not json".

Definition not_utf8 : list Byte.byte := [Byte.xff; Byte.xfe].

(** A family of fragments without an id, one for each number. *)
Definition numbered (i : nat) : list (string * json) := [("n", JInt (Z.of_nat i))].

(** The environment of a process whose string-hash key is [key]. *)
Definition with_hash_key (key : Z * Z) : env :=
  Env (schema_version E0) key (rejects E0) (json_loads E0)
      (use_kafka E0) (producer_send E0) (uuid4 E0).

(** The keys CPython derives from [PYTHONHASHSEED=1] and [=2]. *)
Definition key_seed_1 : Z * Z := (12598376723466036009, 16999324916296290386)%Z.
Definition key_seed_2 : Z * Z := (4611336564914921517, 11932672506142756049)%Z.

(** A fragment without an id. *)
Definition address_fragment : list (string * json) :=
  [("ip", JStr "10.0.0.1"); ("type", JStr "IP")].

(** ** More relations and predicates *)

(** One of the three format mappers gives [out] for [ev]. *)
Definition mapped_by (E : env) (ev out : json) : Prop :=
  _map_syslog_to_ocsf E ev = Return out \/
  _map_cef_to_ocsf E ev = Return out \/
  _map_leef_to_ocsf E ev = Return out.

(** The keys of a canonical event as the mappers build it. *)
Definition canonical_keys : list string :=
  ["class_uid"; "category_uid"; "time"; "severity"; "message"; "metadata"].

(** The keys the detector looks for. *)
Definition marker_keys : list string :=
  ["deviceVendor"; "deviceProduct"; "deviceVersion";
   "devname"; "devtime"; "devtype";
   "facility"; "severity"; "timestamp"; "hostname"].

Definition is_dict (v : json) : bool :=
  match v with JDict _ => true | _ => false end.

(** A value no dict keyed by ints can look up: a list or a dict. *)
Definition unhashable (v : json) : bool :=
  match v with JList _ | JDict _ => true | _ => false end.








(** A computation that returns on every world: nothing it raises
    escapes. *)
Definition returns {A} (c : M A) : Prop :=
  forall w, exists a, (c w).1 = Return a.

(** The mapper [map_to_ocsf] picks for the format [fmt] gives [out]. *)
Definition maps_as (E : env) (fmt : string) (ev out : json) : Prop :=
  (fmt = "syslog" /\ _map_syslog_to_ocsf E ev = Return out) \/
  (fmt = "cef" /\ _map_cef_to_ocsf E ev = Return out) \/
  (fmt = "leef" /\ _map_leef_to_ocsf E ev = Return out).

(** The store refuses nothing of its own accord. *)
Definition accepts_all (E : env) : Prop := forall g st, rejects E g st = false.

(** ** More sample inputs *)

Definition syslog_event : json :=
  JDict [("timestamp", JStr "2023-01-01T12:00:00Z"); ("severity", JInt 3);
         ("facility", JInt 1); ("hostname", JStr "test-host-1");
         ("message", JStr "Test syslog message");
         ("src", JDict [("id", JStr "src-001"); ("type", JStr "IP")])].

Definition syslog_event_bad_severity : list (string * json) :=
  [("hostname", JStr "test-host-1"); ("severity", JList [JInt 3])].


Definition syslog_message : json :=
  JDict [("event", syslog_event); ("source_format", JStr "syslog")].

(** What the syslog mapper makes of [syslog_event]. *)
Definition syslog_event_mapped : list (string * json) :=
  [("class_uid", JStr "0001"); ("category_uid", JStr "0002");
   ("time", JStr "2023-01-01T12:00:00Z"); ("severity", JInt 7);
   ("message", JStr "Test syslog message");
   ("metadata",
    JDict [("version", JStr "1.0.0");
           ("product", JDict [("name", JStr "Syslog");
                              ("vendor_name", JStr "test-host-1")])])].

Definition syslog_message_bad_severity : json :=
  JDict [("event", JDict syslog_event_bad_severity); ("source_format", JStr "syslog")].

(** ** Relations and predicates for the API and for comparing paths *)

(** The canonical form [create_event] and [process_event] store for an
    event declared in the format [fmt]: what the mapper of a mapped
    format makes of it, the event itself for any other format. *)
Definition canonical_form (E : env) (fmt : string) (event out : json) : Prop :=
  maps_as E fmt event out \/
  (fmt <> "syslog" /\ fmt <> "cef" /\ fmt <> "leef" /\ out = event).

(** The message [create_event] hands to the producer. *)
Definition queue_message (ocsf_event : json) : json :=
  JDict [("event", ocsf_event); ("source_format", JStr "ocsf")].

(** Nodes are only added, and each added node has an id the graph had
    not yet given out. *)
Definition adds_fresh (g g' : graph) : Prop :=
  (next_id g <= next_id g')%Z /\
  exists ns, nodes g' = nodes g ++ ns /\
             Forall (fun n => (next_id g <= node_id n)%Z) ns.

(** Two event references select the same node. *)
Definition same_event (e1 e2 : event_ref) : Prop :=
  resolve_event_ref e1 = resolve_event_ref e2.

(** Two stores refuse the same [MERGE] statements, whichever way the
    event is referred to. *)
Definition same_refusals (E1 E2 : env) : Prop :=
  forall g label idv props e1 e2 rtype dir,
    same_event e1 e2 ->
    rejects E1 g (MergeEntity label idv props e1 rtype dir)
    = rejects E2 g (MergeEntity label idv props e2 rtype dir).

(** Two runs end alike: with the same outcome and the same graph. *)
Definition ends_alike {A} (r1 r2 : outcome A * world) : Prop :=
  r1.1 = r2.1 /\ graph_of r1.2 = graph_of r2.2.

(** What a read finds for a field written from [o] with the default
    [d]: the value, or [d] when the field is missing or null (a null is
    not stored). *)
Definition stored_or (d : json) (o : option json) : json :=
  match o with
  | Some JNull | None => d
  | Some v => v
  end.

(** The event a read gives back for a stored canonical event [kvs] whose
    metadata text reads as [metadata]. *)
Definition event_read_back (kvs : list (string * json)) (metadata : json) : json :=
  JDict [("class_uid", stored_or (JStr "unknown") (dict_lookup "class_uid" kvs));
         ("category_uid", stored_or (JStr "unknown") (dict_lookup "category_uid" kvs));
         ("time", stored_or (JStr "") (dict_lookup "time" kvs));
         ("severity", stored_or (JInt 0) (dict_lookup "severity" kvs));
         ("message", stored_or (JStr "") (dict_lookup "message" kvs));
         ("metadata", metadata)].

(** The store never fails on a read. *)
Definition reads_all (g : graph) : bool := false.

(** ** Sample environments for the API *)

(** The reference environment in Kafka mode, with a producer whose
    [send_event] returns [ok]. *)
Definition E_kafka (ok : bool) : env :=
  Env (schema_version E0) (hash_key E0) (rejects E0) (json_loads E0)
      true (Some ok) (uuid4 E0).

(** A canonical event that names its time as null. *)
Definition event_without_time : list (string * json) :=
  [("class_uid", JStr "0001"); ("category_uid", JStr "0002"); ("time", JNull);
   ("severity", JInt 5); ("message", JStr "Test OCSF event")].

(** A canonical event whose source names its id as null. *)
Definition event_source_null_id : list (string * json) :=
  [("class_uid", JStr "0001"); ("category_uid", JStr "0002");
   ("src", JDict [("id", JNull); ("type", JStr "IP"); ("ip", JStr "10.0.0.1")])].

(** Text of ASCII characters only. *)
Definition is_ascii_text (s : string) : bool :=
  forallb (fun c => (byte_val c <? 128)%Z) (String.list_ascii_of_string s).

(** The reference environment in Kafka mode with no producer at hand. *)
Definition E_kafka_down : env :=
  Env (schema_version E0) (hash_key E0) (rejects E0) (json_loads E0)
      true None (uuid4 E0).

(* ===================================================================== *)
(** * Part XI.  Properties                                                *)
(* ===================================================================== *)

(** ** The format mapper *)

Lemma int_dict_get_outside (s : Z) :
  (s < 0 \/ 7 < s)%Z -> int_dict_get s syslog_to_ocsf 5 = 5%Z.
Proof.
  intros Hs. unfold syslog_to_ocsf. simpl.
  repeat match goal with
         | |- context [(s =? ?k)%Z] => destruct (Z.eqb_spec s k); [lia|]
         end.
  reflexivity.
Qed.

(** C7.  For every syslog event with an integer severity [s], the
    mapped event carries the severity the fixed table gives: 0 to 10,
    1 to 9, 2 to 8, 3 to 7, 4 to 6, 5 to 5, 6 to 4, 7 to 3, and 5 for
    every [s] outside 0..7. *)
Theorem syslog_severity_table (E : env) (kvs : list (string * json)) (s : Z) :
  dict_lookup "severity" kvs = Some (JInt s) ->
  exists (sev : Z) (out : list (string * json)),
    _map_syslog_severity (JInt s) = Return (JInt sev) /\
    _map_syslog_to_ocsf E (JDict kvs) = Return (JDict out) /\
    dict_lookup "severity" out = Some (JInt sev) /\
    (s = 0 -> sev = 10)%Z /\ (s = 1 -> sev = 9)%Z /\ (s = 2 -> sev = 8)%Z /\
    (s = 3 -> sev = 7)%Z /\ (s = 4 -> sev = 6)%Z /\ (s = 5 -> sev = 5)%Z /\
    (s = 6 -> sev = 4)%Z /\ (s = 7 -> sev = 3)%Z /\
    ((s < 0 \/ 7 < s) -> sev = 5)%Z.
Proof.
  intros Hsev.
  exists (int_dict_get s syslog_to_ocsf 5).
  unfold _map_syslog_to_ocsf, py_get. rewrite Hsev. simpl.
  eexists. split; [reflexivity|]. split; [reflexivity|]. split; [reflexivity|].
  repeat split; try (intros ->; reflexivity).
  apply int_dict_get_outside.
Qed.

Lemma syslog_severity_table_witness :
  dict_lookup "severity" [("hostname", JStr "fw-1"); ("severity", JInt 3)]
    = Some (JInt 3)
  /\ exists (sev : Z) (out : list (string * json)),
    _map_syslog_severity (JInt 3) = Return (JInt sev) /\
    _map_syslog_to_ocsf E0 (JDict [("hostname", JStr "fw-1"); ("severity", JInt 3)])
      = Return (JDict out) /\
    dict_lookup "severity" out = Some (JInt sev) /\
    (3 = 0 -> sev = 10)%Z /\ (3 = 1 -> sev = 9)%Z /\ (3 = 2 -> sev = 8)%Z /\
    (3 = 3 -> sev = 7)%Z /\ (3 = 4 -> sev = 6)%Z /\ (3 = 5 -> sev = 5)%Z /\
    (3 = 6 -> sev = 4)%Z /\ (3 = 7 -> sev = 3)%Z /\
    ((3 < 0 \/ 7 < 3) -> sev = 5)%Z.
Proof.
  split; [reflexivity|].
  apply (syslog_severity_table E0 [("hostname", JStr "fw-1"); ("severity", JInt 3)] 3).
  reflexivity.
Defined.

(** A syslog event without a severity field is mapped as severity 0. *)
Lemma syslog_severity_absent (E : env) (kvs : list (string * json)) :
  dict_lookup "severity" kvs = None ->
  exists out, _map_syslog_to_ocsf E (JDict kvs) = Return (JDict out)
              /\ dict_lookup "severity" out = Some (JInt 10).
Proof.
  intros H. unfold _map_syslog_to_ocsf, py_get. rewrite H. simpl.
  eexists. split; reflexivity.
Qed.

(** C9.  The CEF and the LEEF mapper copy the raw [severity] field as it
    is ([0] when the event has none), and both set [class_uid] to "0001"
    and [category_uid] to "0002" whatever the input. *)
Theorem cef_leef_severity_verbatim (E : env) (kvs : list (string * json)) :
  exists out_cef out_leef : list (string * json),
    _map_cef_to_ocsf E (JDict kvs) = Return (JDict out_cef) /\
    _map_leef_to_ocsf E (JDict kvs) = Return (JDict out_leef) /\
    dict_lookup "severity" out_cef
      = Some (from_option id (JInt 0) (dict_lookup "severity" kvs)) /\
    dict_lookup "severity" out_leef
      = Some (from_option id (JInt 0) (dict_lookup "severity" kvs)) /\
    dict_lookup "class_uid" out_cef = Some (JStr "0001") /\
    dict_lookup "category_uid" out_cef = Some (JStr "0002") /\
    dict_lookup "class_uid" out_leef = Some (JStr "0001") /\
    dict_lookup "category_uid" out_leef = Some (JStr "0002").
Proof.
  unfold _map_cef_to_ocsf, _map_leef_to_ocsf, py_get.
  do 2 eexists. repeat split; reflexivity.
Qed.

(** The contrast with the syslog path on one input: severity 2 stays 2
    through the CEF and LEEF mappers and becomes 8 through the syslog
    mapper. *)
Example severity_paths_differ :
  let ev := JDict [("severity", JInt 2)] in
  (out <- _map_cef_to_ocsf E0 ev ;; py_get out "severity" JNull)%out = Return (JInt 2) /\
  (out <- _map_leef_to_ocsf E0 ev ;; py_get out "severity" JNull)%out = Return (JInt 2) /\
  (out <- _map_syslog_to_ocsf E0 ev ;; py_get out "severity" JNull)%out = Return (JInt 8).
Proof. repeat split. Qed.

(** C8.  A dict that carries both [class_uid] and [category_uid] is
    classified "ocsf" by the detector, whatever else it carries: the
    canonical check comes first, so CEF-like vendor and product fields do
    not make it "cef". *)
Theorem detection_precedence (kvs : list (string * json)) (w : world) :
  dict_mem "class_uid" kvs = true ->
  dict_mem "category_uid" kvs = true ->
  Ingest.DetectSourceFormat.source_format_of (JDict kvs) = "ocsf" /\
  Ingest.DetectSourceFormat.source_format_of (JDict kvs) <> "cef" /\
  (Ingest.DetectSourceFormat.process (JDict kvs) w).1 = Return [(JDict kvs, "ocsf")].
Proof.
  intros Hc Hk.
  assert (Hfmt : Ingest.DetectSourceFormat.source_format_of (JDict kvs) = "ocsf").
  { unfold Ingest.DetectSourceFormat.source_format_of. rewrite Hc, Hk. reflexivity. }
  split; [exact Hfmt|]. split; [rewrite Hfmt; discriminate|].
  unfold Ingest.DetectSourceFormat.process, try_except, bind, log, ret.
  simpl. rewrite Hc, Hk. reflexivity.
Qed.

Lemma detection_precedence_witness :
  Ingest.DetectSourceFormat.any_key
    ["deviceVendor"; "deviceProduct"; "deviceVersion"] cef_shaped_ocsf = true
  /\ Ingest.DetectSourceFormat.source_format_of (JDict cef_shaped_ocsf) = "ocsf"
  /\ Ingest.DetectSourceFormat.source_format_of (JDict cef_shaped_ocsf) <> "cef"
  /\ (Ingest.DetectSourceFormat.process (JDict cef_shaped_ocsf) w0).1
     = Return [(JDict cef_shaped_ocsf, "ocsf")].
Proof.
  split; [reflexivity|].
  apply (detection_precedence cef_shaped_ocsf w0); reflexivity.
Defined.

(** Without the canonical pair the same vendor and product fields do
    classify as "cef": the order of the checks decides. *)
Example detection_cef_without_canonical :
  Ingest.DetectSourceFormat.source_format_of
    (JDict [("deviceVendor", JStr "Acme"); ("deviceProduct", JStr "Wall");
            ("class_uid", JStr "0001")]) = "cef".
Proof. reflexivity. Qed.

(** ** How the writers move the graph *)

Lemma extends_refl (g : graph) : extends g g.
Proof.
  repeat split; [exists [] | exists [] | lia]; by rewrite app_nil_r.
Qed.

Lemma extends_trans (g1 g2 g3 : graph) :
  extends g1 g2 -> extends g2 g3 -> extends g1 g3.
Proof.
  intros ([ns1 Hn1] & [rs1 Hr1] & Hi1) ([ns2 Hn2] & [rs2 Hr2] & Hi2).
  repeat split.
  - exists (ns1 ++ ns2). by rewrite Hn2, Hn1, app_assoc.
  - exists (rs1 ++ rs2). by rewrite Hr2, Hr1, app_assoc.
  - lia.
Qed.

Lemma extends_In (g g' : graph) (n : node) :
  extends g g' -> In n (nodes g) -> In n (nodes g').
Proof. intros ([ns ->] & _) Hin. apply in_or_app. by left. Qed.

Lemma wf_empty : wf empty_graph.
Proof. constructor. Qed.

(** What a [MERGE] statement that ran has done: it created at most one
    node, and only when no node matched; every relationship it added has
    the statement's type. *)
Lemma exec_merge_inv (g g' : graph) (label : string) (idv : json)
    (props : list (string * json)) (ev : event_ref) (rtype : string)
    (dir : direction) (rows : list row) :
  exec g (MergeEntity label idv props ev rtype dir) = Some (rows, g') ->
  idv <> JNull /\ rows = [] /\
  exists (created : list node) (new_rels : list relationship),
    nodes g' = nodes g ++ created /\
    rels g' = rels g ++ new_rels /\
    Forall (fun r => rel_type r = rtype) new_rels /\
    ((List.filter (matches label idv) (nodes g) <> [] /\ created = []
      /\ next_id g' = next_id g)
     \/
     (List.filter (matches label idv) (nodes g) = []
      /\ created = [Node (next_id g) label (set_props props {[ "id" := idv ]})]
      /\ next_id g' = (next_id g + 1)%Z)).
Proof.
  simpl. intros H.
  assert (Hid : idv <> JNull) by (intros ->; discriminate).
  assert (Hrel : forall bound events,
             Forall (fun r => rel_type r = rtype)
               (flat_map (fun s => List.map (link rtype dir s) events) bound)).
  { intros bound events. apply List.Forall_forall. intros r Hr.
    apply in_flat_map in Hr as (s & _ & Hr).
    apply in_map_iff in Hr as (e & <- & _). by destruct dir. }
  assert (H' :
    (let '(bound, g1) :=
       match List.filter (matches label idv) (nodes g) with
       | [] =>
           ([Node (next_id g) label (set_props props {[ "id" := idv ]})],
            Graph (nodes g ++ [Node (next_id g) label (set_props props {[ "id" := idv ]})])
                  (rels g) (next_id g + 1))
       | _ => (List.filter (matches label idv) (nodes g), g)
       end in
     Some ([] : list row,
           Graph (nodes g1)
             (rels g1 ++ flat_map (fun s => List.map (link rtype dir s)
                                     (List.filter (is_event ev) (nodes g1))) bound)
             (next_id g1))) = Some (rows, g')).
  { destruct idv; try (exfalso; by apply Hid); exact H. }
  clear H.
  destruct (List.filter (matches label idv) (nodes g)) as [|n0 found] eqn:Hf;
    injection H' as <- <-; (split; [exact Hid|]); (split; [reflexivity|]);
    cbn [nodes rels next_id].
  - eexists _, _. split; [reflexivity|]. split; [reflexivity|].
    split; [exact (Hrel [_] _)|]. right. done.
  - exists []. eexists. rewrite app_nil_r. split; [reflexivity|]. split; [reflexivity|].
    split; [exact (Hrel (n0 :: found) _)|]. left. done.
Qed.

Lemma exec_create_inv (g g' : graph) (c k t sv m md : json) (rows : list row) :
  exec g (CreateEvent c k t sv m md) = Some (rows, g') ->
  rows = [next_id g] /\
  g' = Graph (nodes g ++
               [Node (next_id g) "Event"
                  (set_props [("class_uid", c); ("category_uid", k); ("time", t);
                              ("severity", sv); ("message", m); ("metadata", md)] ∅)])
             (rels g) (next_id g + 1).
Proof. simpl. by intros [= <- <-]. Qed.

Lemma exec_extends (g g' : graph) (st : statement) (rows : list row) :
  exec g st = Some (rows, g') -> extends g g'.
Proof.
  destruct st as [c k t sv m md | label idv props ev rtype dir | ];
    [ | | discriminate].
  - intros [_ ->]%exec_create_inv. repeat split; simpl.
    + by eexists.
    + exists []. by rewrite app_nil_r.
    + lia.
  - intros (_ & _ & created & new_rels & Hn & Hr & _ & Hc)%exec_merge_inv.
    repeat split; [by eexists | by eexists |].
    destruct Hc as [(_ & _ & ->) | (_ & _ & ->)]; lia.
Qed.

Lemma exec_wf (g g' : graph) (st : statement) (rows : list row) :
  exec g st = Some (rows, g') -> wf g -> wf g'.
Proof.
  unfold wf. intros Hx Hwf.
  assert (Hold : Forall (fun n => (node_id n < next_id g')%Z) (nodes g)).
  { apply exec_extends in Hx as (_ & _ & Hle).
    eapply Forall_impl; [exact Hwf|]. simpl. intros; lia. }
  destruct st as [c k t sv m md | label idv props ev rtype dir | ];
    [ | | discriminate].
  - apply exec_create_inv in Hx as [_ ->]. simpl in *.
    apply Forall_app. split; [exact Hold|]. repeat constructor. simpl. lia.
  - apply exec_merge_inv in Hx as (_ & _ & created & new_rels & Hn & _ & _ & Hc).
    rewrite Hn. apply Forall_app. split; [exact Hold|].
    destruct Hc as [(_ & -> & _) | (_ & -> & ->)]; repeat constructor.
    simpl. lia.
Qed.

(** *** Reasoning along the monad *)

Section Along.
Variable R : graph -> graph -> Prop.
Hypothesis R_refl : forall g, R g g.
Hypothesis R_trans : forall g1 g2 g3, R g1 g2 -> R g2 g3 -> R g1 g3.

Lemma along_ret {A} (a : A) : along R (ret a).
Proof. intros w. apply R_refl. Qed.

Lemma along_raise {A} (e : exn) : along R (@raise A e).
Proof. intros w. apply R_refl. Qed.

Lemma along_lift {A} (o : outcome A) : along R (lift o).
Proof. intros w. apply R_refl. Qed.

Lemma along_log (l : level) (msg : string) : along R (log l msg).
Proof. intros w. apply R_refl. Qed.

Lemma along_produce (msg : json) : along R (produce msg).
Proof. intros w. apply R_refl. Qed.

Lemma along_bind {A B} (c : M A) (k : A -> M B) :
  along R c -> (forall a, along R (k a)) -> along R (bind c k).
Proof.
  intros Hc Hk w. unfold bind. specialize (Hc w).
  destruct (c w) as [[a|e] w1]; simpl in *; [|exact Hc].
  eapply R_trans; [exact Hc | apply Hk].
Qed.

(** Binding a pure step keeps what it returned in sight. *)
Lemma along_bind_lift {A B} (o : outcome A) (k : A -> M B) :
  (forall a, o = Return a -> along R (k a)) -> along R (bind (lift o) k).
Proof.
  intros Hk w. unfold bind, lift. destruct o as [a|e]; simpl.
  - by apply Hk.
  - apply R_refl.
Qed.

Lemma along_try {A} (body : M A) (handler : exn -> M A) :
  along R body -> (forall e, along R (handler e)) -> along R (try_except body handler).
Proof.
  intros Hb Hh w. unfold try_except. specialize (Hb w).
  destruct (body w) as [[a|e] w1]; simpl in *; [exact Hb|].
  eapply R_trans; [exact Hb | apply Hh].
Qed.


Lemma along_execute_query (E : env) (st : statement) :
  keeps R st -> along R (execute_query E st).
Proof.
  intros Hst w. unfold execute_query.
  destruct (rejects E (graph_of w) st); [apply R_refl|].
  destruct (exec (graph_of w) st) as [[rows g']|] eqn:Hx; simpl.
  - eapply Hst. exact Hx.
  - apply R_refl.
Qed.

Lemma keeps_malformed : keeps R Malformed.
Proof. intros g rows g'. discriminate. Qed.

End Along.

(** *** Facts on [set_props] and on the statements a fragment yields *)

Lemma set_props_lookup_other (kvs : list (string * json)) (m : gmap string json)
    (k : string) :
  Forall (fun kv => kv.1 <> k) kvs -> set_props kvs m !! k = m !! k.
Proof.
  unfold set_props. revert m.
  induction kvs as [|[k' v] kvs IH]; intros m Hk; [reflexivity|].
  apply Forall_cons in Hk as [Hne Hk]. simpl in *.
  rewrite IH by exact Hk.
  destruct v; first [by apply lookup_delete_ne | by apply lookup_insert_ne].
Qed.

Lemma without_id_type_no_id (kvs : list (string * json)) :
  Forall (fun kv => kv.1 <> "id") (without_id_type kvs).
Proof.
  apply List.Forall_forall. intros [k v] Hin.
  apply filter_In in Hin as [_ Hk]. simpl in *.
  intros ->. discriminate.
Qed.

(** The node a [MERGE] creates for a fragment carries the identity key
    as its [id] property. *)
Lemma merged_node_id (kvs : list (string * json)) (idv : json) :
  set_props (without_id_type kvs) {[ "id" := idv ]} !! "id" = Some idv.
Proof.
  rewrite set_props_lookup_other by apply without_id_type_no_id.
  apply lookup_singleton_eq.
Qed.

Lemma fragment_statement_inv (rtype : string) (dir : direction) (st : statement) :
  fragment_statement rtype dir st ->
  st = Malformed \/
  exists label idv kvs ev,
    st = MergeEntity label idv (without_id_type kvs) ev rtype dir.
Proof.
  intros [ty idv kvs ev]. unfold merge_statement.
  destruct (str_scalar ty) as [label|]; [|by left].
  destruct (is_label_name label); [right; by eexists _, _, _, _ | by left].
Qed.

(** Two steps that recur in the writers: a pure lookup whose value is
    not needed, and a handler that logs and yields nothing. *)
Ltac pure_step := apply along_bind_lift; [assumption|intros ? _].
Ltac log_then_ret :=
  apply along_bind; [assumption|by apply along_log|intro; by apply along_ret].

Section AlongWriters.
Variable R : graph -> graph -> Prop.
Hypothesis R_refl : forall g, R g g.
Hypothesis R_trans : forall g1 g2 g3, R g1 g2 -> R g2 g3 -> R g1 g3.
Variable E : env.

Lemma along_write_fragment (key default_type rtype : string) (dir : direction)
    (ref : json -> event_ref) (ocsf_event event_id : json) :
  (forall st, fragment_statement rtype dir st -> keeps R st) ->
  along R (write_fragment E key default_type rtype dir ref ocsf_event event_id).
Proof.
  intros Hst. unfold write_fragment.
  destruct ocsf_event as [| | | | |kvs]; try (apply along_raise; assumption).
  destruct (dict_lookup key kvs) as [frag|]; [|by apply along_ret].
  apply along_bind_lift; [assumption|]. intros ty _.
  apply along_bind_lift; [assumption|]. intros idv _.
  apply along_bind_lift; [assumption|]. intros props Hprops.
  apply along_bind; [assumption| |intro; by apply along_ret].
  apply along_execute_query; [assumption|].
  apply Hst.
  destruct frag as [| | | | |fkvs]; try discriminate.
  injection Hprops as <-. apply (fragment_merge rtype dir ty idv fkvs).
Qed.

Lemma along_map_to_ocsf (event source_format : json) :
  along R (map_to_ocsf E event source_format).
Proof.
  unfold map_to_ocsf.
  repeat (case (json_eqb _ _); [by apply along_lift|]).
  apply along_bind; [assumption | by apply along_log | intro; by apply along_ret].
Qed.

Lemma along_process_event (event : json) :
  keeps_event_src_dst R -> along R (KafkaConsumer.process_event E event).
Proof.
  intros (Hc & Hs & Hd). unfold KafkaConsumer.process_event.
  apply along_try; [assumption| |intro; by apply along_log].
  apply along_bind; [assumption|by apply along_log|intros _].
  do 2 (pure_step).
  apply along_bind; [assumption| |intros ocsf_event].
  { case (negb _); [by apply along_map_to_ocsf | by apply along_ret]. }
  do 6 (pure_step).
  apply along_bind; [assumption| |intros [|id rows]].
  - apply along_execute_query; [assumption|apply Hc].
  - by apply along_log.
  - apply along_bind; [assumption| |intros _].
    { apply along_write_fragment; assumption. }
    apply along_bind; [assumption| |intros _; by apply along_log].
    apply along_write_fragment; assumption.
Qed.


Lemma along__process_entities (event : json) (event_id : Z) :
  (forall st, fragment_statement "GENERATED" EntityToEvent st -> keeps R st) ->
  (forall st, fragment_statement "TARGETS" EventToEntity st -> keeps R st) ->
  (forall st, fragment_statement "PERFORMED" EntityToEvent st -> keeps R st) ->
  along R (Ingest.StoreInGraph._process_entities E event event_id).
Proof.
  intros Hs Hd Hp. unfold Ingest.StoreInGraph._process_entities.
  apply along_try; [assumption| |intro; by apply along_log].
  apply along_bind; [assumption| |intros _].
  { apply along_write_fragment; assumption. }
  apply along_bind; [assumption| |intros _].
  { apply along_write_fragment; assumption. }
  apply along_write_fragment; assumption.
Qed.



Lemma along_create_event (event : json) (source_format : string) :
  keeps_event_src_dst R -> along R (Api.create_event E event source_format).
Proof.
  intros (Hc & Hs & Hd). unfold Api.create_event.
  apply along_try; [assumption| |intro].
  2: { apply along_bind; [assumption|by apply along_log|intro; by apply along_raise]. }
  apply along_bind; [assumption| |intros ocsf_event].
  { case (negb _); [by apply along_map_to_ocsf | by apply along_ret]. }
  apply along_bind; [assumption| |intros [response|]].
  - destruct (use_kafka E); [|by apply along_ret].
    destruct (producer_send E) as [ok|].
    + apply along_bind; [assumption| |intros [|]].
      * unfold Api.send_event. destruct ok.
        -- apply along_bind; [assumption|by apply along_produce|intro].
           log_then_ret.
        -- log_then_ret.
      * log_then_ret.
      * by apply along_raise.
    + log_then_ret.
  - by apply along_ret.
  - do 6 (pure_step).
    apply along_bind; [assumption| |intros [|id rows]].
    + apply along_execute_query; [assumption|apply Hc].
    + by apply along_raise.
    + apply along_bind; [assumption| |intros _].
      { apply along_write_fragment; assumption. }
      apply along_bind; [assumption| |intros _; by apply along_ret].
      apply along_write_fragment; assumption.
Qed.

End AlongWriters.

(** *** The relations the writers keep *)

Lemma keeps_extends (st : statement) : keeps extends st.
Proof. intros g rows g'. apply exec_extends. Qed.

Lemma entity_step_refl (g : graph) : entity_step g g.
Proof. split; [apply extends_refl | done]. Qed.

Lemma entity_step_trans (g1 g2 g3 : graph) :
  entity_step g1 g2 -> entity_step g2 g3 -> entity_step g1 g3.
Proof.
  intros (He1 & Hw1 & Hn1) (He2 & Hw2 & Hn2).
  split; [by eapply extends_trans|]. split; [auto | congruence].
Qed.

Lemma keeps_entity_step (rtype : string) (dir : direction) (st : statement) :
  fragment_statement rtype dir st -> keeps entity_step st.
Proof.
  intros Hst g rows g' Hx.
  split; [by eapply exec_extends|]. split; [by eapply exec_wf|].
  apply fragment_statement_inv in Hst as [-> | (label & idv & kvs & ev & ->)];
    [discriminate|].
  apply exec_merge_inv in Hx as (_ & _ & created & new_rels & Hn & _ & _ & Hc).
  unfold event_nodes. rewrite Hn, List.filter_app.
  destruct Hc as [(_ & -> & _) | (_ & -> & _)]; simpl; [by rewrite app_nil_r|].
  unfold created_event. simpl. rewrite merged_node_id.
  by rewrite andb_false_r, app_nil_r.
Qed.

Lemma keeps_same_performed_create (c k t sv m md : json) :
  keeps same_performed (CreateEvent c k t sv m md).
Proof. intros g rows g' [_ ->]%exec_create_inv. reflexivity. Qed.

Lemma keeps_same_performed_merge (rtype : string) (dir : direction) (st : statement) :
  rtype <> "PERFORMED" ->
  fragment_statement rtype dir st -> keeps same_performed st.
Proof.
  intros Hne Hst g rows g' Hx.
  apply fragment_statement_inv in Hst as [-> | (label & idv & kvs & ev & ->)];
    [discriminate|].
  apply exec_merge_inv in Hx as (_ & _ & created & new_rels & _ & Hr & Hty & _).
  unfold same_performed, performed. rewrite Hr, List.filter_app.
  replace (List.filter _ new_rels) with (@nil relationship); [by rewrite app_nil_r|].
  symmetry. clear Hr. induction Hty as [|r rs Hr _ IH]; [reflexivity|].
  simpl. rewrite Hr. destruct (String.eqb_spec rtype "PERFORMED"); [done|exact IH].
Qed.

(** ** C3: the relationship of the principal *)

(** The consumer's [process_event] and the API's [create_event] never
    add a [PERFORMED] relationship, whatever the message. *)
Lemma process_event_adds_no_performed (E : env) (event : json) (w : world) :
  performed (graph_of (KafkaConsumer.process_event E event w).2)
  = performed (graph_of w).
Proof.
  apply (along_process_event same_performed); try done.
  - unfold same_performed. congruence.
  - split; [apply keeps_same_performed_create|].
    split; intros st Hst; (eapply keeps_same_performed_merge; [|exact Hst]);
      discriminate.
Qed.

Lemma create_event_adds_no_performed (E : env) (event : json)
    (source_format : string) (w : world) :
  performed (graph_of (Api.create_event E event source_format w).2)
  = performed (graph_of w).
Proof.
  apply (along_create_event same_performed); try done.
  - unfold same_performed. congruence.
  - split; [apply keeps_same_performed_create|].
    split; intros st Hst; (eapply keeps_same_performed_merge; [|exact Hst]);
      discriminate.
Qed.

(** C3 (the code at the failing input).  On the message above the
    consumer's [process_event] and the API's [create_event] store the
    event node, no node for the principal and no [PERFORMED]
    relationship; the pipeline's [StoreInGraph.process] on the same
    canonical event creates the [User] node and links it to the event. *)
Theorem principal_dropped_by_consumer :
  let consumer := graph_of (KafkaConsumer.process_event E0 message_with_principal w0).2 in
  let api := graph_of (Api.create_event E0 event_with_principal "ocsf" w0).2 in
  let pipeline := graph_of (Ingest.StoreInGraph.process E0 event_with_principal w0).2 in
  (node_label <$> nodes consumer = ["Event"] /\ rels consumer = []) /\
  (node_label <$> nodes api = ["Event"] /\ rels api = []) /\
  (node_label <$> nodes pipeline = ["Event"; "User"] /\
   rels pipeline = [Rel 1 "PERFORMED" 0]).
Proof. vm_compute. repeat split. Qed.

(** ** C6: events are appended, never merged *)

Lemma execute_query_create (E : env) (w : world) (c k t sv m md : json) :
  accepts_create E ->
  execute_query E (CreateEvent c k t sv m md) w
  = (Return [next_id (graph_of w)],
     World (with_event (graph_of w)
              (set_props [("class_uid", c); ("category_uid", k); ("time", t);
                          ("severity", sv); ("message", m); ("metadata", md)] ∅))
           (logs w) (produced w)).
Proof. intros Hacc. unfold execute_query. by rewrite Hacc. Qed.

Lemma process_event_creates (E : env) (msg : json) (kvs : list (string * json))
    (w : world) :
  accepts_create E ->
  py_get msg "event" (JDict []) = Return (JDict kvs) ->
  py_get msg "source_format" (JStr "unknown") = Return (JStr "ocsf") ->
  entity_step (with_event (graph_of w) (consumer_event_props kvs))
              (graph_of (KafkaConsumer.process_event E msg w).2).
Proof.
  intros Hacc Hev Hfmt.
  unfold KafkaConsumer.process_event, try_except.
  unfold bind at 1. unfold log at 1. cbn [fst snd].
  unfold bind at 1. rewrite Hev. unfold lift at 1.
  unfold bind at 1. rewrite Hfmt. unfold lift at 1.
  unfold bind at 1. change (json_eqb (JStr "ocsf") (JStr "ocsf")) with true.
  cbn [negb ret].
  do 6 (unfold bind at 1; unfold lift at 1; cbn [py_get]).
  unfold bind at 1. rewrite execute_query_create by exact Hacc.
  fold (consumer_event_props kvs).
  match goal with
  | |- context [bind ?c ?k ?w1] =>
      assert (Hstep : entity_step (graph_of w1) (graph_of (bind c k w1).2));
      [|destruct (bind c k w1) as [[[]|e] w2]; exact Hstep]
  end.
  apply (along_bind entity_step entity_step_trans).
  { apply (along_write_fragment entity_step entity_step_refl entity_step_trans).
    apply keeps_entity_step. }
  intros _. apply (along_bind entity_step entity_step_trans).
  { apply (along_write_fragment entity_step entity_step_refl entity_step_trans).
    apply keeps_entity_step. }
  intros _. apply (along_log entity_step entity_step_refl).
Qed.

Lemma StoreInGraph_process_creates (E : env) (kvs : list (string * json)) (w : world) :
  accepts_create E ->
  entity_step (with_event (graph_of w) (pipeline_event_props kvs))
              (graph_of (Ingest.StoreInGraph.process E (JDict kvs) w).2).
Proof.
  intros Hacc.
  unfold Ingest.StoreInGraph.process, try_except.
  do 6 (unfold bind at 1; unfold lift at 1; cbn [py_get]).
  unfold bind at 1. rewrite execute_query_create by exact Hacc.
  fold (pipeline_event_props kvs).
  unfold bind at 1. unfold lift at 1. cbn [Ingest.StoreInGraph.set_item].
  unfold bind at 1. unfold log at 1. cbn [graph_of logs produced].
  match goal with
  | |- context [bind ?c ?k ?w1] =>
      assert (Hstep : entity_step (with_event (graph_of w) (pipeline_event_props kvs))
                                  (graph_of (bind c k w1).2));
      [|destruct (bind c k w1) as [[?|e] w2]; exact Hstep]
  end.
  apply (along_bind entity_step entity_step_trans
           (Ingest.StoreInGraph._process_entities E _ _)).
  - apply (along__process_entities entity_step entity_step_refl entity_step_trans);
      apply keeps_entity_step.
  - intros _. apply (along_ret entity_step entity_step_refl).
Qed.

Lemma event_props_no_id (c k t sv m md : json) :
  set_props [("class_uid", c); ("category_uid", k); ("time", t);
             ("severity", sv); ("message", m); ("metadata", md)] ∅ !! "id" = None.
Proof.
  rewrite set_props_lookup_other; [apply lookup_empty|].
  repeat constructor; discriminate.
Qed.

Lemma event_nodes_with_event (g : graph) (P : gmap string json) :
  P !! "id" = None ->
  event_nodes (with_event g P) = event_nodes g ++ [Node (next_id g) "Event" P].
Proof.
  intros HP. unfold event_nodes, with_event. simpl.
  rewrite List.filter_app. simpl. unfold created_event at 2. simpl. by rewrite HP.
Qed.

(** Two writes of one event, each followed by its fragments. *)
Lemma two_event_writes (g g1 g2 : graph) (P : gmap string json) :
  P !! "id" = None ->
  wf g ->
  entity_step (with_event g P) g1 ->
  entity_step (with_event g1 P) g2 ->
  exists n1 n2,
    event_nodes g2 = event_nodes g ++ [n1; n2] /\
    node_id n1 <> node_id n2 /\
    node_props n1 = P /\ node_props n2 = P /\
    In n1 (nodes g2) /\ In n2 (nodes g2) /\
    Forall (fun n => node_id n <> node_id n1 /\ node_id n <> node_id n2) (nodes g).
Proof.
  intros HP Hwf (He1 & _ & Hn1) (He2 & _ & Hn2).
  exists (Node (next_id g) "Event" P), (Node (next_id g1) "Event" P).
  assert (Hlt : (next_id g < next_id g1)%Z).
  { destruct He1 as (_ & _ & Hle). simpl in Hle. lia. }
  split.
  { rewrite Hn2, event_nodes_with_event, Hn1, event_nodes_with_event by exact HP.
    by rewrite <- app_assoc. }
  split; [simpl; lia|]. split; [reflexivity|]. split; [reflexivity|].
  split.
  { eapply extends_In; [exact He2|]. simpl. apply in_or_app. left.
    eapply extends_In; [exact He1|]. simpl. apply in_or_app. right. by left. }
  split.
  { eapply extends_In; [exact He2|]. simpl. apply in_or_app. right. by left. }
  eapply Forall_impl; [exact Hwf|]. simpl. intros n Hn. lia.
Qed.

(** C6.  Writing one canonical event twice gives two event nodes with
    distinct ids (both new, with the same properties), on the consumer
    path and on the pipeline path alike: whenever the store runs the
    [CREATE] statements, the event nodes of the graph grow by exactly
    these two. *)
Theorem same_event_twice_two_nodes (E : env) (msg : json)
    (kvs : list (string * json)) (w : world) :
  accepts_create E ->
  wf (graph_of w) ->
  py_get msg "event" (JDict []) = Return (JDict kvs) ->
  py_get msg "source_format" (JStr "unknown") = Return (JStr "ocsf") ->
  let consumer1 := (KafkaConsumer.process_event E msg w).2 in
  let consumer2 := (KafkaConsumer.process_event E msg consumer1).2 in
  let pipeline1 := (Ingest.StoreInGraph.process E (JDict kvs) w).2 in
  let pipeline2 := (Ingest.StoreInGraph.process E (JDict kvs) pipeline1).2 in
  (exists n1 n2,
     event_nodes (graph_of consumer2) = event_nodes (graph_of w) ++ [n1; n2] /\
     node_id n1 <> node_id n2 /\
     node_props n1 = consumer_event_props kvs /\
     node_props n2 = consumer_event_props kvs /\
     In n1 (nodes (graph_of consumer2)) /\ In n2 (nodes (graph_of consumer2)) /\
     Forall (fun n => node_id n <> node_id n1 /\ node_id n <> node_id n2)
            (nodes (graph_of w)))
  /\
  (exists n1 n2,
     event_nodes (graph_of pipeline2) = event_nodes (graph_of w) ++ [n1; n2] /\
     node_id n1 <> node_id n2 /\
     node_props n1 = pipeline_event_props kvs /\
     node_props n2 = pipeline_event_props kvs /\
     In n1 (nodes (graph_of pipeline2)) /\ In n2 (nodes (graph_of pipeline2)) /\
     Forall (fun n => node_id n <> node_id n1 /\ node_id n <> node_id n2)
            (nodes (graph_of w))).
Proof.
  intros Hacc Hwf Hev Hfmt. cbv zeta. split.
  - eapply two_event_writes; [apply event_props_no_id | exact Hwf | |];
      by apply process_event_creates.
  - eapply two_event_writes; [apply event_props_no_id | exact Hwf | |];
      by apply StoreInGraph_process_creates.
Qed.

Lemma accept_all_accepts_create : accepts_create E0.
Proof. intros g c k t sv m md. reflexivity. Qed.

Lemma same_event_twice_two_nodes_witness :
  (exists n1 n2,
     event_nodes (graph_of consumer_twice) = event_nodes (graph_of w0) ++ [n1; n2] /\
     node_id n1 <> node_id n2 /\
     node_props n1 = consumer_event_props canonical_event /\
     node_props n2 = consumer_event_props canonical_event /\
     In n1 (nodes (graph_of consumer_twice)) /\
     In n2 (nodes (graph_of consumer_twice)) /\
     Forall (fun n => node_id n <> node_id n1 /\ node_id n <> node_id n2)
            (nodes (graph_of w0)))
  /\
  (exists n1 n2,
     event_nodes (graph_of pipeline_twice) = event_nodes (graph_of w0) ++ [n1; n2] /\
     node_id n1 <> node_id n2 /\
     node_props n1 = pipeline_event_props canonical_event /\
     node_props n2 = pipeline_event_props canonical_event /\
     In n1 (nodes (graph_of pipeline_twice)) /\
     In n2 (nodes (graph_of pipeline_twice)) /\
     Forall (fun n => node_id n <> node_id n1 /\ node_id n <> node_id n2)
            (nodes (graph_of w0))).
Proof.
  apply (same_event_twice_two_nodes E0 canonical_message canonical_event w0).
  - exact accept_all_accepts_create.
  - exact wf_empty.
  - reflexivity.
  - reflexivity.
Defined.

(** The run behind the witness: two event nodes, one [IP] node. *)
Example same_event_twice_run :
  (fun n => (node_id n, node_label n)) <$> nodes (graph_of consumer_twice)
    = [(0, "Event"); (1, "IP"); (2, "Event")]%Z
  /\ rels (graph_of consumer_twice) = [Rel 1 "GENERATED" 0; Rel 1 "GENERATED" 2].
Proof. vm_compute. split; reflexivity. Qed.

(** ** C2: the defaults of [class_uid] and [category_uid] *)

Lemma set_props_cons (k : string) (v : json) (kvs : list (string * json))
    (m : gmap string json) :
  set_props ((k, v) :: kvs) m
  = set_props kvs (match v with JNull => delete k m | _ => <[k:=v]> m end).
Proof. by destruct v. Qed.

Lemma set_props_lookup_in (kvs : list (string * json)) (m : gmap string json)
    (k : string) (v : json) :
  NoDup kvs.*1 -> In (k, v) kvs ->
  set_props kvs m !! k = match v with JNull => None | _ => Some v end.
Proof.
  revert m.
  induction kvs as [|[k' v'] kvs IH]; intros m Hnd Hin; [destruct Hin|].
  apply NoDup_cons in Hnd as [Hk' Hnd]. rewrite set_props_cons.
  destruct Hin as [[= -> ->] | Hin].
  - rewrite set_props_lookup_other.
    + destruct v; first [apply lookup_delete_eq | apply lookup_insert_eq].
    + apply List.Forall_forall. intros [k2 v2] Hin2 Heq. simpl in Heq.
      subst k2. apply Hk'.
      apply list_elem_of_In, in_map_iff. by exists (k, v2).
  - by apply IH.
Qed.

(** On the consumer and API paths an event without [class_uid] or
    [category_uid] is stored with the value "unknown". *)
Lemma consumer_defaults_unknown (kvs : list (string * json)) :
  dict_lookup "class_uid" kvs = None ->
  dict_lookup "category_uid" kvs = None ->
  consumer_event_props kvs !! "class_uid" = Some (JStr "unknown") /\
  consumer_event_props kvs !! "category_uid" = Some (JStr "unknown").
Proof.
  intros Hc Hk. unfold consumer_event_props. rewrite Hc, Hk. simpl from_option.
  split.
  - rewrite (set_props_lookup_in _ _ "class_uid" (JStr "unknown")); [done| |].
    + apply (bool_decide_unpack _). by vm_compute.
    + simpl. tauto.
  - rewrite (set_props_lookup_in _ _ "category_uid" (JStr "unknown")); [done| |].
    + apply (bool_decide_unpack _). by vm_compute.
    + simpl. tauto.
Qed.

(** On the pipeline path the same event is stored without them. *)
Lemma pipeline_defaults_missing (kvs : list (string * json)) :
  dict_lookup "class_uid" kvs = None ->
  dict_lookup "category_uid" kvs = None ->
  pipeline_event_props kvs !! "class_uid" = None /\
  pipeline_event_props kvs !! "category_uid" = None.
Proof.
  intros Hc Hk. unfold pipeline_event_props. rewrite Hc, Hk. simpl from_option.
  split.
  - rewrite (set_props_lookup_in _ _ "class_uid" JNull); [done| |].
    + apply (bool_decide_unpack _). by vm_compute.
    + simpl. tauto.
  - rewrite (set_props_lookup_in _ _ "category_uid" JNull); [done| |].
    + apply (bool_decide_unpack _). by vm_compute.
    + simpl. tauto.
Qed.

(** C2 (the code at the failing input).  The pipeline stores the event
    above with neither [class_uid] nor [category_uid]; the consumer and
    the API store it with both set to "unknown". *)
Theorem pipeline_stores_no_class_uid :
  class_and_category <$>
    nodes (graph_of (Ingest.run_standalone_message E0
                       (Ingest.Bytes (String.list_byte_of_string (json_dumps bare_event)))
                       w0).2)
    = [("Event", None, None)]
  /\ class_and_category <$>
       nodes (graph_of (KafkaConsumer.process_event E0
                          (JDict [("event", bare_event);
                                  ("source_format", JStr "unknown")]) w0).2)
    = [("Event", Some (JStr "unknown"), Some (JStr "unknown"))]
  /\ class_and_category <$>
       nodes (graph_of (Api.create_event E0 bare_event "unknown" w0).2)
    = [("Event", Some (JStr "unknown"), Some (JStr "unknown"))].
Proof. vm_compute. repeat split. Qed.

(** ** C1: merging entities by identity *)

Lemma json_eqb_refl : forall v : json, json_eqb v v = true.
Proof.
  fix IH 1. intros [| b | n | s | xs | kvs]; simpl.
  - reflexivity.
  - by destruct b.
  - apply Z.eqb_refl.
  - apply String.eqb_refl.
  - induction xs as [|x xs IHxs]; [reflexivity|].
    by rewrite (IH x), IHxs.
  - induction kvs as [|[k x] kvs IHkvs]; [reflexivity|].
    by rewrite String.eqb_refl, (IH x), IHkvs.
Qed.

(** A [MERGE] for a pair no node has yet creates the node. *)
Lemma exec_merge_fresh (g : graph) (label : string) (idv : json)
    (props : list (string * json)) (ev : event_ref) (rtype : string)
    (dir : direction) :
  idv <> JNull ->
  List.filter (matches label idv) (nodes g) = [] ->
  exists g',
    exec g (MergeEntity label idv props ev rtype dir) = Some ([], g') /\
    nodes g' = nodes g ++ [Node (next_id g) label (set_props props {[ "id" := idv ]})].
Proof.
  intros Hid Hnone.
  destruct (exec g (MergeEntity label idv props ev rtype dir)) as [[rows g']|] eqn:Hx.
  - pose proof Hx as Hinv.
    apply exec_merge_inv in Hinv as (_ & -> & created & new_rels & Hn & _ & _ & Hc).
    exists g'. split; [reflexivity|].
    destruct Hc as [(Hsome & _) | (_ & -> & _)]; [by destruct Hsome | exact Hn].
  - exfalso. simpl in Hx. rewrite Hnone in Hx. by destruct idv.
Qed.

(** A [MERGE] for a pair some node has binds that node and creates
    none: no property of any node changes. *)
Lemma exec_merge_found (g : graph) (label : string) (idv : json)
    (props : list (string * json)) (ev : event_ref) (rtype : string)
    (dir : direction) :
  idv <> JNull ->
  List.filter (matches label idv) (nodes g) <> [] ->
  exists g',
    exec g (MergeEntity label idv props ev rtype dir) = Some ([], g') /\
    nodes g' = nodes g.
Proof.
  intros Hid Hsome.
  destruct (exec g (MergeEntity label idv props ev rtype dir)) as [[rows g']|] eqn:Hx.
  - pose proof Hx as Hinv.
    apply exec_merge_inv in Hinv as (_ & -> & created & new_rels & Hn & _ & _ & Hc).
    exists g'. split; [reflexivity|].
    destruct Hc as [(_ & -> & _) | (Hnone & _)]; [|by destruct Hsome].
    by rewrite Hn, app_nil_r.
  - exfalso. simpl in Hx.
    destruct (List.filter (matches label idv) (nodes g)); [by destruct Hsome|].
    by destruct idv.
Qed.

(** What [write_fragment] does for a fragment that is a dict, when the
    store runs its statement. *)
Lemma write_fragment_runs (E : env) (key default_type rtype : string)
    (dir : direction) (ref : json -> event_ref) (ev frag : list (string * json))
    (event_id : json) (label : string) (idv : json) (w : world) (g' : graph) :
  dict_lookup key ev = Some (JDict frag) ->
  str_scalar (from_option id (JStr default_type) (dict_lookup "type" frag)) = Some label ->
  is_label_name label = true ->
  identity_key E (JDict frag) = Return idv ->
  rejects E (graph_of w)
    (MergeEntity label idv (without_id_type frag) (ref event_id) rtype dir) = false ->
  exec (graph_of w)
    (MergeEntity label idv (without_id_type frag) (ref event_id) rtype dir)
    = Some ([], g') ->
  write_fragment E key default_type rtype dir ref (JDict ev) event_id w
  = (Return tt, World g' (logs w) (produced w)).
Proof.
  intros Hfrag Hlabel Hname Hid Hrej Hx.
  unfold write_fragment. rewrite Hfrag.
  unfold bind at 1. unfold lift at 1. cbn [py_get].
  unfold bind at 1. rewrite Hid. unfold lift at 1.
  unfold bind at 1. unfold lift at 1. cbn [props_without_id_type].
  fold (without_id_type frag).
  unfold bind at 1. unfold merge_statement. rewrite Hlabel, Hname.
  unfold execute_query. rewrite Hrej, Hx. reflexivity.
Qed.

(** Two fragments with one label and one identity key, written one
    after the other when no node has the pair yet. *)
Lemma two_writes_one_node (E : env)
    (key1 key2 dty1 dty2 rtype1 rtype2 : string) (dir1 dir2 : direction)
    (ref1 ref2 : json -> event_ref) (ev1 ev2 f1 f2 : list (string * json))
    (eid1 eid2 : json) (label : string) (idv : json) (w : world) :
  (forall g st, rejects E g st = false) ->
  dict_lookup key1 ev1 = Some (JDict f1) ->
  dict_lookup key2 ev2 = Some (JDict f2) ->
  str_scalar (from_option id (JStr dty1) (dict_lookup "type" f1)) = Some label ->
  str_scalar (from_option id (JStr dty2) (dict_lookup "type" f2)) = Some label ->
  is_label_name label = true ->
  identity_key E (JDict f1) = Return idv ->
  identity_key E (JDict f2) = Return idv ->
  idv <> JNull ->
  List.filter (matches label idv) (nodes (graph_of w)) = [] ->
  exists n,
    List.filter (matches label idv)
      (nodes (graph_of
         (write_fragment E key2 dty2 rtype2 dir2 ref2 (JDict ev2) eid2
            (write_fragment E key1 dty1 rtype1 dir1 ref1 (JDict ev1) eid1 w).2).2))
    = [n]
    /\ node_props n = set_props (without_id_type f1) {[ "id" := idv ]}
    /\ nodes (graph_of
         (write_fragment E key2 dty2 rtype2 dir2 ref2 (JDict ev2) eid2
            (write_fragment E key1 dty1 rtype1 dir1 ref1 (JDict ev1) eid1 w).2).2)
       = nodes (graph_of w) ++ [n].
Proof.
  intros Hacc Hf1 Hf2 Hl1 Hl2 Hname Hi1 Hi2 Hid Hnone.
  destruct (exec_merge_fresh (graph_of w) label idv (without_id_type f1)
              (ref1 eid1) rtype1 dir1 Hid Hnone) as (g1 & Hx1 & Hn1).
  rewrite (write_fragment_runs E key1 dty1 rtype1 dir1 ref1 ev1 f1 eid1 label idv
             w g1 Hf1 Hl1 Hname Hi1 (Hacc _ _) Hx1).
  cbn [snd].
  set (n := Node (next_id (graph_of w)) label
              (set_props (without_id_type f1) {[ "id" := idv ]})) in *.
  assert (Hmatch : matches label idv n = true).
  { unfold matches, n. simpl. rewrite merged_node_id. simpl.
    by rewrite String.eqb_refl, json_eqb_refl. }
  assert (Hfound : List.filter (matches label idv) (nodes g1) = [n]).
  { rewrite Hn1, List.filter_app, Hnone. simpl. by rewrite Hmatch. }
  destruct (exec_merge_found g1 label idv (without_id_type f2)
              (ref2 eid2) rtype2 dir2 Hid) as (g2 & Hx2 & Hn2).
  { by rewrite Hfound. }
  rewrite (write_fragment_runs E key2 dty2 rtype2 dir2 ref2 ev2 f2 eid2 label idv
             (World g1 (logs w) (produced w)) g2 Hf2 Hl2 Hname Hi2 (Hacc _ _) Hx2).
  cbn [snd graph_of]. exists n. rewrite Hn2. repeat split; [exact Hfound | exact Hn1].
Qed.

(** C1 (as the code has it).  Two fragments with one entity type and
    one identity key, written one after the other when no node has the
    pair yet, leave exactly one node for the pair; it is the node the
    first write created and its properties are those of the first
    fragment.  The second write binds that node and sets nothing. *)
Theorem entity_first_write_wins (E : env)
    (key1 key2 dty1 dty2 rtype1 rtype2 : string) (dir1 dir2 : direction)
    (ref1 ref2 : json -> event_ref) (ev1 ev2 f1 f2 : list (string * json))
    (eid1 eid2 : json) (label : string) (idv : json) (w : world) :
  (forall g st, rejects E g st = false) ->
  dict_lookup key1 ev1 = Some (JDict f1) ->
  dict_lookup key2 ev2 = Some (JDict f2) ->
  str_scalar (from_option id (JStr dty1) (dict_lookup "type" f1)) = Some label ->
  str_scalar (from_option id (JStr dty2) (dict_lookup "type" f2)) = Some label ->
  is_label_name label = true ->
  identity_key E (JDict f1) = Return idv ->
  identity_key E (JDict f2) = Return idv ->
  idv <> JNull ->
  List.filter (matches label idv) (nodes (graph_of w)) = [] ->
  exists n,
    List.filter (matches label idv)
      (nodes (graph_of
         (write_fragment E key2 dty2 rtype2 dir2 ref2 (JDict ev2) eid2
            (write_fragment E key1 dty1 rtype1 dir1 ref1 (JDict ev1) eid1 w).2).2))
    = [n]
    /\ node_props n = set_props (without_id_type f1) {[ "id" := idv ]}
    /\ nodes (graph_of
         (write_fragment E key2 dty2 rtype2 dir2 ref2 (JDict ev2) eid2
            (write_fragment E key1 dty1 rtype1 dir1 ref1 (JDict ev1) eid1 w).2).2)
       = nodes (graph_of w) ++ [n].
Proof. apply two_writes_one_node. Qed.

Lemma entity_first_write_wins_witness :
  exists n,
    List.filter (matches "Host" (JStr "h1"))
      (nodes (graph_of
         (write_fragment E0 "src" "Unknown" "GENERATED" EntityToEvent ById
            (JDict (event_about host_seen_later)) (JInt 7)
            (write_fragment E0 "src" "Unknown" "GENERATED" EntityToEvent ById
               (JDict (event_about host_seen_first)) (JInt 7) w0).2).2))
    = [n]
    /\ node_props n = set_props (without_id_type host_seen_first) {[ "id" := JStr "h1" ]}
    /\ nodes (graph_of
         (write_fragment E0 "src" "Unknown" "GENERATED" EntityToEvent ById
            (JDict (event_about host_seen_later)) (JInt 7)
            (write_fragment E0 "src" "Unknown" "GENERATED" EntityToEvent ById
               (JDict (event_about host_seen_first)) (JInt 7) w0).2).2)
       = nodes (graph_of w0) ++ [n].
Proof.
  apply (entity_first_write_wins E0 "src" "src" "Unknown" "Unknown"
           "GENERATED" "GENERATED" EntityToEvent EntityToEvent ById ById
           (event_about host_seen_first) (event_about host_seen_later)
           host_seen_first host_seen_later (JInt 7) (JInt 7) "Host" (JStr "h1") w0);
    try reflexivity.
  discriminate.
Defined.

(** C1 fails as stated: on every path the one [Host] node for [h1] keeps
    [os = linux] and has no [ip], where the union with the later write
    winning has [os = windows] and [ip = 10.0.0.1]. *)
Lemma entity_props_not_merged :
  host_view consumer_two_hosts = [(Some (JStr "linux"), None)] /\
  host_view api_two_hosts = [(Some (JStr "linux"), None)] /\
  host_view pipeline_two_hosts = [(Some (JStr "linux"), None)] /\
  last_write_wins (JStr "h1") host_seen_first host_seen_later !! "os"
    = Some (JStr "windows") /\
  last_write_wins (JStr "h1") host_seen_first host_seen_later !! "ip"
    = Some (JStr "10.0.0.1") /\
  ~ (exists n, In n (nodes consumer_two_hosts)
               /\ matches "Host" (JStr "h1") n = true
               /\ node_props n
                  = last_write_wins (JStr "h1") host_seen_first host_seen_later).
Proof.
  repeat split; try (vm_compute; reflexivity).
  intros (n & Hin & Hm & Hp).
  assert (Hos : node_props n !! "os" = Some (JStr "windows")).
  { rewrite Hp. vm_compute. reflexivity. }
  assert (Hview : In (node_props n !! "os", node_props n !! "ip")
                     (host_view consumer_two_hosts)).
  { unfold host_view. apply in_map_iff. exists n. split; [reflexivity|].
    apply filter_In. split; assumption. }
  replace (host_view consumer_two_hosts) with [(Some (JStr "linux"), @None json)]
    in Hview by (vm_compute; reflexivity).
  destruct Hview as [Heq | []]. rewrite Hos in Heq. discriminate.
Qed.

(** ** C5: what a failing fragment write leaves behind *)

(** A statement that fails changes nothing in the graph. *)
Lemma execute_query_raise (E : env) (st : statement) (w : world) (e : exn) :
  (execute_query E st w).1 = Raise e ->
  graph_of (execute_query E st w).2 = graph_of w.
Proof.
  unfold execute_query.
  destruct (rejects E (graph_of w) st); [reflexivity|].
  destruct (exec (graph_of w) st) as [[rows g']|]; [discriminate | reflexivity].
Qed.

Lemma write_fragment_raise (E : env) (key default_type rtype : string)
    (dir : direction) (ref : json -> event_ref) (ocsf_event event_id : json)
    (w : world) (e : exn) :
  (write_fragment E key default_type rtype dir ref ocsf_event event_id w).1 = Raise e ->
  graph_of (write_fragment E key default_type rtype dir ref ocsf_event event_id w).2
  = graph_of w.
Proof.
  unfold write_fragment.
  destruct ocsf_event as [| | | | |kvs]; try reflexivity.
  destruct (dict_lookup key kvs) as [frag|]; [|discriminate].
  unfold bind at 1 3. unfold lift at 1 4.
  destruct (py_get frag "type" (JStr default_type)) as [ty|]; [|reflexivity].
  unfold bind at 1 3. unfold lift at 1 3.
  destruct (identity_key E frag) as [idv|]; [|reflexivity].
  unfold bind at 1 3. unfold lift at 1 2.
  destruct (props_without_id_type frag) as [props|]; [|reflexivity].
  unfold bind.
  pose proof (execute_query_raise E
                (merge_statement ty idv props (ref event_id) rtype dir) w) as Hq.
  destruct (execute_query E _ w) as [[rows|e'] w']; simpl in *; [discriminate|].
  intros _. by eapply Hq.
Qed.

(** [process_event] on a canonical message, once the event node is in. *)
Lemma process_event_after_create (E : env) (msg : json) (kvs : list (string * json))
    (w : world) :
  accepts_create E ->
  py_get msg "event" (JDict []) = Return (JDict kvs) ->
  py_get msg "source_format" (JStr "unknown") = Return (JStr "ocsf") ->
  KafkaConsumer.process_event E msg w
  = try_except
      (bind (write_fragment E "src" "Unknown" "GENERATED" EntityToEvent ByToInteger
               (JDict kvs) (JStr (str_int (next_id (graph_of w)))))
         (fun _ =>
            bind (write_fragment E "dst" "Unknown" "TARGETS" EventToEntity ByToInteger
                    (JDict kvs) (JStr (str_int (next_id (graph_of w)))))
              (fun _ => log INFO "Successfully processed event with ID")))
      (fun _ => log ERROR "Failed to process event")
      (World (with_event (graph_of w) (consumer_event_props kvs))
             (logs w ++ [(DEBUG, "Processing event")]) (produced w)).
Proof.
  intros Hacc Hev Hfmt.
  unfold KafkaConsumer.process_event, try_except.
  unfold bind at 1. unfold log at 1. cbn [fst snd].
  unfold bind at 1. rewrite Hev. unfold lift at 1.
  unfold bind at 1. rewrite Hfmt. unfold lift at 1.
  unfold bind at 1. change (json_eqb (JStr "ocsf") (JStr "ocsf")) with true.
  cbn [negb ret].
  do 6 (unfold bind at 1; unfold lift at 1; cbn [py_get]).
  unfold bind at 1. rewrite execute_query_create by exact Hacc.
  reflexivity.
Qed.

(** [StoreInGraph.process] on a dict, once the event node is in. *)
Lemma StoreInGraph_process_after_create (E : env) (kvs : list (string * json))
    (w : world) :
  accepts_create E ->
  Ingest.StoreInGraph.process E (JDict kvs) w
  = bind (Ingest.StoreInGraph._process_entities E
            (JDict (dict_set "_id" (JInt (next_id (graph_of w))) kvs))
            (next_id (graph_of w)))
      (fun _ => ret [JDict (dict_set "_id" (JInt (next_id (graph_of w))) kvs)])
      (World (with_event (graph_of w) (pipeline_event_props kvs))
             (logs w ++ [(INFO, "Stored event in graph database with ID")])
             (produced w)).
Proof.
  intros Hacc.
  unfold Ingest.StoreInGraph.process, try_except.
  do 6 (unfold bind at 1; unfold lift at 1; cbn [py_get]).
  unfold bind at 1. rewrite execute_query_create by exact Hacc.
  unfold bind at 1. unfold lift at 1. cbn [Ingest.StoreInGraph.set_item].
  unfold bind at 1. unfold log at 1. cbn [graph_of logs produced].
  fold (pipeline_event_props kvs).
  assert (Hnever : forall ev id w1,
             exists w2, Ingest.StoreInGraph._process_entities E ev id w1 = (Return tt, w2)).
  { intros ev id w1. unfold Ingest.StoreInGraph._process_entities, try_except.
    match goal with |- context [bind ?c ?k w1] => destruct (bind c k w1) as [[[]|e] w2] end;
      by eexists. }
  destruct (Hnever (JDict (dict_set "_id" (JInt (next_id (graph_of w))) kvs))
              (next_id (graph_of w))
              (World (with_event (graph_of w) (pipeline_event_props kvs))
                 (logs w ++ [(INFO, "Stored event in graph database with ID")])
                 (produced w))) as [w2 Hw2].
  unfold bind. rewrite Hw2. reflexivity.
Qed.

Lemma consumer_write_policy_holds (E : env) (msg : json)
    (kvs : list (string * json)) (w : world) :
  accepts_create E ->
  py_get msg "event" (JDict []) = Return (JDict kvs) ->
  py_get msg "source_format" (JStr "unknown") = Return (JStr "ocsf") ->
  consumer_write_policy E msg kvs w.
Proof.
  intros Hacc Hev Hfmt. unfold consumer_write_policy. cbv zeta.
  split; [|split].
  - rewrite (process_event_after_create E msg kvs w Hacc Hev Hfmt).
    unfold try_except.
    match goal with |- context [bind ?c ?k ?w1] => destruct (bind c k w1) as [[[]|e] w2] end;
      reflexivity.
  - pose proof (process_event_creates E msg kvs w Hacc Hev Hfmt) as (Hext & _).
    exact Hext.
  - rewrite (process_event_after_create E msg kvs w Hacc Hev Hfmt).
    unfold try_except, bind.
    set (w1 := World _ _ _).
    set (eid := JStr _).
    pose proof (write_fragment_raise E "src" "Unknown" "GENERATED" EntityToEvent
                  ByToInteger (JDict kvs) eid w1) as Hsrc.
    destruct (write_fragment E "src" _ _ _ _ _ eid w1) as [[[]|e1] w2]; cbn [fst snd] in *.
    + split; [intros e; discriminate|]. intros e _.
      pose proof (write_fragment_raise E "dst" "Unknown" "TARGETS" EventToEntity
                    ByToInteger (JDict kvs) eid w2) as Hdst.
      destruct (write_fragment E "dst" _ _ _ _ _ eid w2) as [[[]|e2] w3]; cbn [fst snd] in *;
        [discriminate|].
      intros _. split; [by eapply Hdst | apply last_snoc].
    + split; [|intros e; discriminate].
      intros e _. split; [by eapply Hsrc | apply last_snoc].
Qed.

Lemma pipeline_write_policy_holds (E : env) (kvs : list (string * json)) (w : world) :
  accepts_create E -> pipeline_write_policy E kvs w.
Proof.
  intros Hacc. unfold pipeline_write_policy. cbv zeta.
  split; [|split].
  - rewrite (StoreInGraph_process_after_create E kvs w Hacc).
    unfold bind, Ingest.StoreInGraph._process_entities, try_except.
    match goal with |- context [bind ?c ?k ?w1] => destruct (bind c k w1) as [[[]|e] w2] end;
      reflexivity.
  - pose proof (StoreInGraph_process_creates E kvs w Hacc) as (Hext & _).
    exact Hext.
  - rewrite (StoreInGraph_process_after_create E kvs w Hacc).
    unfold Ingest.StoreInGraph._process_entities, try_except, bind.
    set (w1 := World _ _ _).
    set (eid := next_id (graph_of w)).
    set (elt := JDict _).
    pose proof (write_fragment_raise E "src" "Unknown" "GENERATED" EntityToEvent
                  ById elt (JInt eid) w1) as Hsrc.
    destruct (write_fragment E "src" _ _ _ _ _ (JInt eid) w1) as [[[]|e1] w2];
      cbn [fst snd] in *.
    + split; [intros e; discriminate|].
      pose proof (write_fragment_raise E "dst" "Unknown" "TARGETS" EventToEntity
                    ById elt (JInt eid) w2) as Hdst.
      destruct (write_fragment E "dst" _ _ _ _ _ (JInt eid) w2) as [[[]|e2] w3];
        cbn [fst snd] in *.
      * split; [intros e _; discriminate|]. intros e _ _.
        pose proof (write_fragment_raise E "principal" "User" "PERFORMED"
                      EntityToEvent ById elt (JInt eid) w3) as Hp.
        destruct (write_fragment E "principal" _ _ _ _ _ (JInt eid) w3)
          as [[[]|e3] w4]; cbn [fst snd] in *; [discriminate|].
        intros _. split; [by eapply Hp | apply last_snoc].
      * split; [|intros e _; discriminate].
        intros e _ _. split; [by eapply Hdst | apply last_snoc].
    + split; [|split; intros e; discriminate].
      intros e _. split; [by eapply Hsrc | apply last_snoc].
Qed.

(** C5 (as the code has it).  Within one event write, once the event
    node is created it stays, and so does whatever was written before a
    failure; the failure is logged and nothing is raised.  The fragment
    writes share one [try] block, so a failure on one fragment ends the
    block: the fragments after it (source, destination, then principal
    in the pipeline) are not written. *)
Theorem event_kept_later_fragments_skipped (E : env) (msg : json)
    (kvs : list (string * json)) (w : world) :
  accepts_create E ->
  py_get msg "event" (JDict []) = Return (JDict kvs) ->
  py_get msg "source_format" (JStr "unknown") = Return (JStr "ocsf") ->
  consumer_write_policy E msg kvs w /\ pipeline_write_policy E kvs w.
Proof.
  intros Hacc Hev Hfmt. split.
  - by apply consumer_write_policy_holds.
  - by apply pipeline_write_policy_holds.
Qed.

Lemma event_kept_later_fragments_skipped_witness :
  consumer_write_policy E0 (as_message event_source_is_text) event_source_is_text w0
  /\ pipeline_write_policy E0 event_source_is_text w0.
Proof.
  apply (event_kept_later_fragments_skipped E0 (as_message event_source_is_text)
           event_source_is_text w0).
  - exact accept_all_accepts_create.
  - reflexivity.
  - reflexivity.
Defined.

(** C5 fails as stated: a failure on the source fragment prevents the
    write of the destination fragment of the same event.  With the
    source a bare string ([.get] raises) or refused by the store, the
    graph ends with the event node alone, on the consumer path and on
    the pipeline path; the same event without the source fragment gets
    its destination node and its [TARGETS] relationship. *)
Lemma failure_skips_later_fragments :
  labels_and_rels (KafkaConsumer.process_event E0
                     (as_message event_source_is_text) w0).2 = (["Event"], [])
  /\ labels_and_rels (Ingest.StoreInGraph.process E0
                        (JDict event_source_is_text) w0).2 = (["Event"], [])
  /\ labels_and_rels (KafkaConsumer.process_event E_strict
                        (as_message event_source_nested) w0).2 = (["Event"], [])
  /\ labels_and_rels (Ingest.StoreInGraph.process E_strict
                        (JDict event_source_nested) w0).2 = (["Event"], [])
  /\ labels_and_rels (KafkaConsumer.process_event E0
                        (as_message event_destination_only) w0).2
     = (["Event"; "IP"], [Rel 0 "TARGETS" 1])
  /\ labels_and_rels (Ingest.StoreInGraph.process E0
                        (JDict event_destination_only) w0).2
     = (["Event"; "IP"], [Rel 0 "TARGETS" 1])
  /\ last (logs (KafkaConsumer.process_event E0
                   (as_message event_source_is_text) w0).2)
     = Some (ERROR, "Failed to process event").
Proof. vm_compute. repeat split. Qed.

(** ** C10: a message that cannot be read *)

(** C10.  A message whose payload cannot be decoded or parsed is
    dropped: the step logs one error, returns normally, and leaves the
    graph and the producer untouched, so no event reaches detection,
    mapping or the graph write ([process_func] is never called).  This
    holds for the loop of [KafkaConsumer.start], which goes on with the
    next message, and for [ParseEvent.process] in the standalone
    pipeline, which yields nothing. *)
Theorem unreadable_message_dropped (E : env) (payload : list Byte.byte)
    (process_func : option (json -> M unit))
    (rest : list KafkaConsumer.polled) (w : world) :
  unreadable E payload ->
  KafkaConsumer.start_step E process_func (KafkaConsumer.Message payload) w
    = (Return tt, logged ERROR "Failed to process message" w)
  /\ KafkaConsumer.start E process_func (KafkaConsumer.Message payload :: rest) w
     = KafkaConsumer.start E process_func rest
         (logged ERROR "Failed to process message" w)
  /\ Ingest.ParseEvent.process E (Ingest.Bytes payload) w
     = (Return [], logged ERROR "Failed to parse event" w)
  /\ Ingest.run_standalone_message E (Ingest.Bytes payload) w
     = (Return tt, logged ERROR "Failed to parse event" w).
Proof.
  intros Hbad.
  assert (Hstep : KafkaConsumer.start_step E process_func
                    (KafkaConsumer.Message payload) w
                  = (Return tt, logged ERROR "Failed to process message" w)).
  { unfold KafkaConsumer.start_step, try_except, bind, lift.
    destruct Hbad as [[e ->] | (s & -> & Hs)]; [reflexivity|].
    rewrite Hs. reflexivity. }
  assert (Hparse : Ingest.ParseEvent.process E (Ingest.Bytes payload) w
                   = (Return [], logged ERROR "Failed to parse event" w)).
  { unfold Ingest.ParseEvent.process, try_except, bind, lift, Ingest.loads.
    destruct Hbad as [[e ->] | (s & -> & Hs)]; [reflexivity|].
    rewrite Hs. reflexivity. }
  split; [exact Hstep|]. split; [|split; [exact Hparse|]].
  - cbn [KafkaConsumer.start]. unfold bind at 1. by rewrite Hstep.
  - unfold Ingest.run_standalone_message. unfold bind at 1. by rewrite Hparse.
Qed.

Lemma not_json_unreadable : unreadable E0 not_json.
Proof. right. exists "not json". split; reflexivity. Qed.

Lemma not_utf8_unreadable : unreadable E0 not_utf8.
Proof. left. exists UnicodeDecodeError. reflexivity. Qed.

Lemma unreadable_message_dropped_witness :
  unreadable E0 not_json
  /\ KafkaConsumer.start_step E0 None (KafkaConsumer.Message not_json) w0
     = (Return tt, logged ERROR "Failed to process message" w0)
  /\ KafkaConsumer.start E0 None [KafkaConsumer.Message not_json] w0
     = KafkaConsumer.start E0 None [] (logged ERROR "Failed to process message" w0)
  /\ Ingest.ParseEvent.process E0 (Ingest.Bytes not_json) w0
     = (Return [], logged ERROR "Failed to parse event" w0)
  /\ Ingest.run_standalone_message E0 (Ingest.Bytes not_json) w0
     = (Return tt, logged ERROR "Failed to parse event" w0).
Proof.
  split.
  - right. exists "not json". split; reflexivity.
  - apply (unreadable_message_dropped E0 not_json None [] w0).
    right. exists "not json". split; reflexivity.
Defined.

(** A readable message does reach the graph write. *)
Example readable_message_stored :
  node_label <$>
    nodes (graph_of (KafkaConsumer.start E0 None
                       [KafkaConsumer.Message not_utf8;
                        KafkaConsumer.Message
                          (String.list_byte_of_string (json_dumps canonical_message))]
                       w0).2)
  = ["Event"; "IP"].
Proof. vm_compute. reflexivity. Qed.

(** ** C4: the identity key *)

Lemma identity_key_present (E : env) (frag : list (string * json)) (v : json) :
  dict_lookup "id" frag = Some v -> identity_key E (JDict frag) = Return v.
Proof. intros H. unfold identity_key, py_get. by rewrite H. Qed.

Lemma identity_key_absent (E : env) (frag : list (string * json)) :
  dict_lookup "id" frag = None ->
  identity_key E (JDict frag)
  = Return (JStr (str_int (py_hash (hash_key E) (json_dumps (JDict frag))))).
Proof. intros H. unfold identity_key, py_get. by rewrite H. Qed.

(** [hash] returns a signed 64-bit integer. *)
Lemma py_hash_range (key : Z * Z) (s : string) :
  (- 2 ^ 63 <= py_hash key s < 2 ^ 63)%Z.
Proof.
  unfold py_hash. destruct (bytes_of_string s) as [|b bs]; [lia|].
  set (x := siphash13 key.1 key.2 (b :: bs)).
  assert (Hx : (- 2 ^ 63 <= to_signed64 x < 2 ^ 63)%Z).
  { unfold to_signed64.
    pose proof (Z.mod_pos_bound x (2 ^ 64) ltac:(lia)) as Hm.
    destruct (Z.ltb_spec (x mod 2 ^ 64) (2 ^ 63)); lia. }
  destruct (Z.eqb_spec (to_signed64 x) (-1)); lia.
Qed.

(** No function from [0 .. N] into [0 .. N - 1] is one-to-one. *)
Lemma no_injection_into_smaller (N : nat) (f : nat -> nat) :
  (forall i, f i < N) ->
  ~ (forall i j, i <= N -> j <= N -> f i = f j -> i = j).
Proof.
  intros Hb Hinj.
  assert (Hnd : NoDup (f <$> seq 0 (S N))).
  { apply NoDup_fmap_2_strong; [|apply NoDup_seq].
    intros x y Hx%elem_of_seq Hy%elem_of_seq. apply Hinj; lia. }
  assert (Hsub : f <$> seq 0 (S N) ⊆+ seq 0 N).
  { apply NoDup_submseteq; [exact Hnd|].
    intros x (y & -> & _)%list_elem_of_fmap. apply elem_of_seq.
    specialize (Hb y). lia. }
  apply submseteq_length in Hsub.
  rewrite length_fmap, !length_seq in Hsub. lia.
Qed.

(** Fragments without an id that differ need not get different keys:
    there are more fragments than hash values. *)
Lemma identity_key_collides (E : env) :
  ~ (forall f1 f2 : list (string * json),
       dict_lookup "id" f1 = None -> dict_lookup "id" f2 = None ->
       f1 <> f2 ->
       identity_key E (JDict f1) <> identity_key E (JDict f2)).
Proof.
  intros Hclaim.
  destruct (Z_of_nat_complete (2 ^ 64)%Z ltac:(lia)) as [N HN].
  set (h := fun i => py_hash (hash_key E) (json_dumps (JDict (numbered i)))).
  apply (no_injection_into_smaller N (fun i => Z.to_nat (h i + 2 ^ 63))).
  - intros i. pose proof (py_hash_range (hash_key E) (json_dumps (JDict (numbered i)))).
    fold (h i) in H. lia.
  - intros i j _ _ Hij.
    destruct (decide (i = j)) as [->|Hne]; [reflexivity|]. exfalso.
    apply (Hclaim (numbered i) (numbered j)); [reflexivity | reflexivity | |].
    + unfold numbered. intros [= Heq]. lia.
    + rewrite !identity_key_absent by reflexivity. fold (h i) (h j).
      pose proof (py_hash_range (hash_key E) (json_dumps (JDict (numbered i)))) as Hi.
      pose proof (py_hash_range (hash_key E) (json_dumps (JDict (numbered j)))) as Hj.
      fold (h i) in Hi. fold (h j) in Hj.
      replace (h i) with (h j) by lia. reflexivity.
Qed.

(** C4 fails as stated: the hash is keyed per process, so one fragment
    without an id gets different identity keys in two processes; and
    fragments that differ cannot all get different keys. *)
Lemma identity_key_depends_on_process :
  identity_key (with_hash_key key_seed_1) (JDict address_fragment)
    = Return (JStr "2193845056237153003")
  /\ identity_key (with_hash_key key_seed_2) (JDict address_fragment)
    = Return (JStr "-976167451083522357")
  /\ identity_key (with_hash_key key_seed_1) (JDict address_fragment)
     <> identity_key (with_hash_key key_seed_2) (JDict address_fragment)
  /\ ~ (forall f1 f2 : list (string * json),
          dict_lookup "id" f1 = None -> dict_lookup "id" f2 = None ->
          f1 <> f2 ->
          identity_key E0 (JDict f1) <> identity_key E0 (JDict f2)).
Proof.
  split; [vm_compute; reflexivity|]. split; [vm_compute; reflexivity|].
  split; [vm_compute; discriminate|]. apply identity_key_collides.
Qed.

(** The same fields in another order serialise differently, and the
    key follows the serialisation. *)
Example identity_key_follows_field_order :
  identity_key E0 (JDict [("ip", JStr "10.0.0.1"); ("type", JStr "IP")])
    = Return (JStr "6327310678804847524")
  /\ identity_key E0 (JDict [("type", JStr "IP"); ("ip", JStr "10.0.0.1")])
     <> Return (JStr "6327310678804847524").
Proof. split; [vm_compute; reflexivity | vm_compute; discriminate]. Qed.

(** C4 (as the code has it).  The identity key is the fragment's [id]
    as supplied when it has one.  Without one it is the decimal text of
    [hash] of the fragment's [json.dumps] text under the process's hash
    key: two fragments with the same text, keyed in one process, get the
    same identity key, and written one after the other they end as one
    node. *)
Theorem identity_key_id_or_hash (E : env)
    (key1 key2 dty1 dty2 rtype1 rtype2 : string) (dir1 dir2 : direction)
    (ref1 ref2 : json -> event_ref) (ev1 ev2 f1 f2 : list (string * json))
    (eid1 eid2 : json) (label : string) (w : world) :
  (forall g st, rejects E g st = false) ->
  dict_lookup key1 ev1 = Some (JDict f1) ->
  dict_lookup key2 ev2 = Some (JDict f2) ->
  str_scalar (from_option id (JStr dty1) (dict_lookup "type" f1)) = Some label ->
  str_scalar (from_option id (JStr dty2) (dict_lookup "type" f2)) = Some label ->
  is_label_name label = true ->
  dict_lookup "id" f1 = None ->
  dict_lookup "id" f2 = None ->
  json_dumps (JDict f2) = json_dumps (JDict f1) ->
  List.filter
    (matches label (JStr (str_int (py_hash (hash_key E) (json_dumps (JDict f1))))))
    (nodes (graph_of w)) = [] ->
  identity_key E (JDict f1)
    = Return (JStr (str_int (py_hash (hash_key E) (json_dumps (JDict f1)))))
  /\ identity_key E (JDict f2) = identity_key E (JDict f1)
  /\ (exists n,
        List.filter
          (matches label (JStr (str_int (py_hash (hash_key E) (json_dumps (JDict f1))))))
          (nodes (graph_of
             (write_fragment E key2 dty2 rtype2 dir2 ref2 (JDict ev2) eid2
                (write_fragment E key1 dty1 rtype1 dir1 ref1 (JDict ev1) eid1 w).2).2))
        = [n])
  /\ (forall (f : list (string * json)) (v : json),
        dict_lookup "id" f = Some v -> identity_key E (JDict f) = Return v).
Proof.
  intros Hacc Hf1 Hf2 Hl1 Hl2 Hname Hn1 Hn2 Hsame Hnone.
  pose proof (identity_key_absent E f1 Hn1) as Hk1.
  pose proof (identity_key_absent E f2 Hn2) as Hk2. rewrite Hsame in Hk2.
  split; [exact Hk1|]. split; [congruence|]. split.
  - destruct (two_writes_one_node E key1 key2 dty1 dty2 rtype1 rtype2 dir1 dir2
                ref1 ref2 ev1 ev2 f1 f2 eid1 eid2 label _ w
                Hacc Hf1 Hf2 Hl1 Hl2 Hname Hk1 Hk2 ltac:(discriminate) Hnone)
      as (n & Hn & _).
    by exists n.
  - intros f v. apply identity_key_present.
Qed.

Lemma identity_key_id_or_hash_witness :
  identity_key E0 (JDict address_fragment)
    = Return (JStr (str_int (py_hash (hash_key E0) (json_dumps (JDict address_fragment)))))
  /\ identity_key E0 (JDict address_fragment) = identity_key E0 (JDict address_fragment)
  /\ (exists n,
        List.filter
          (matches "IP"
             (JStr (str_int (py_hash (hash_key E0) (json_dumps (JDict address_fragment))))))
          (nodes (graph_of
             (write_fragment E0 "src" "Unknown" "GENERATED" EntityToEvent ById
                (JDict (event_about address_fragment)) (JInt 1)
                (write_fragment E0 "src" "Unknown" "GENERATED" EntityToEvent ById
                   (JDict (event_about address_fragment)) (JInt 0) w0).2).2))
        = [n])
  /\ (forall (f : list (string * json)) (v : json),
        dict_lookup "id" f = Some v -> identity_key E0 (JDict f) = Return v).
Proof.
  apply (identity_key_id_or_hash E0 "src" "src" "Unknown" "Unknown"
           "GENERATED" "GENERATED" EntityToEvent EntityToEvent ById ById
           (event_about address_fragment) (event_about address_fragment)
           address_fragment address_fragment (JInt 0) (JInt 1) "IP" w0);
    reflexivity.
Defined.

(* ===================================================================== *)
(** * Part XII.  Further properties of the code                           *)
(* ===================================================================== *)

(** ** The format mapper, beyond the claims *)

Lemma syslog_severity_unhashable (v : json) :
  unhashable v = true -> _map_syslog_severity v = Raise TypeError.
Proof. destruct v; try discriminate; reflexivity. Qed.

Lemma syslog_severity_hashable (v : json) :
  unhashable v = false ->
  exists s, _map_syslog_severity v = Return (JInt s) /\ (3 <= s <= 10)%Z.
Proof.
  assert (Hrange : forall n, (3 <= int_dict_get n syslog_to_ocsf 5 <= 10)%Z).
  { intros n. unfold syslog_to_ocsf. simpl.
    repeat match goal with
           | |- context [(n =? ?k)%Z] => destruct (Z.eqb_spec n k); [lia|]
           end.
    lia. }
  destruct v as [| b | n | s | xs | kvs]; try discriminate; intros _;
    unfold _map_syslog_severity; simpl; eexists; (split; [reflexivity|]);
    first [apply Hrange | lia].
Qed.

(** X1.  [_map_syslog_severity] raises [TypeError] on a list or a dict
    (they cannot key its table) and on every other value returns an
    integer between 3 and 10; [True] and [False] count as 1 and 0. *)
Theorem syslog_severity_range (v : json) :
  (unhashable v = true -> _map_syslog_severity v = Raise TypeError) /\
  (unhashable v = false ->
   exists s, _map_syslog_severity v = Return (JInt s) /\ (3 <= s <= 10)%Z) /\
  _map_syslog_severity (JBool true) = Return (JInt 9) /\
  _map_syslog_severity (JBool false) = Return (JInt 10).
Proof.
  split; [apply syslog_severity_unhashable|].
  split; [apply syslog_severity_hashable|]. split; reflexivity.
Qed.

Lemma syslog_severity_range_witness :
  unhashable (JStr "high") = false /\
  exists s, _map_syslog_severity (JStr "high") = Return (JInt s) /\ (3 <= s <= 10)%Z.
Proof.
  split; [reflexivity|].
  apply (syslog_severity_range (JStr "high")). reflexivity.
Defined.

Lemma mappers_on_non_dict (E : env) (ev : json) :
  is_dict ev = false ->
  _map_syslog_to_ocsf E ev = Raise AttributeError /\
  _map_cef_to_ocsf E ev = Raise AttributeError /\
  _map_leef_to_ocsf E ev = Raise AttributeError.
Proof. destruct ev; try discriminate; intros _; repeat split. Qed.

Lemma syslog_mapper_on_dict (E : env) (kvs : list (string * json)) :
  (unhashable (from_option id (JInt 0) (dict_lookup "severity" kvs)) = true ->
   _map_syslog_to_ocsf E (JDict kvs) = Raise TypeError) /\
  (unhashable (from_option id (JInt 0) (dict_lookup "severity" kvs)) = false ->
   exists out, _map_syslog_to_ocsf E (JDict kvs) = Return out).
Proof.
  unfold _map_syslog_to_ocsf, py_get. split.
  - intros Hu. by rewrite (syslog_severity_unhashable _ Hu).
  - intros Hu. destruct (syslog_severity_hashable _ Hu) as (s & -> & _). by eexists.
Qed.

(** X2.  When the mappers fail.  Each of the three mappers raises
    [AttributeError] on an event that is not a dict.  On a dict the CEF
    and LEEF mappers always return; the syslog mapper returns unless the
    [severity] field is a list or a dict, and then raises [TypeError]. *)
Theorem mappers_failure_cases (E : env) (ev : json) :
  (is_dict ev = false ->
   _map_syslog_to_ocsf E ev = Raise AttributeError /\
   _map_cef_to_ocsf E ev = Raise AttributeError /\
   _map_leef_to_ocsf E ev = Raise AttributeError) /\
  (forall kvs, ev = JDict kvs ->
   (exists out, _map_cef_to_ocsf E ev = Return out) /\
   (exists out, _map_leef_to_ocsf E ev = Return out) /\
   (unhashable (from_option id (JInt 0) (dict_lookup "severity" kvs)) = true ->
    _map_syslog_to_ocsf E ev = Raise TypeError) /\
   (unhashable (from_option id (JInt 0) (dict_lookup "severity" kvs)) = false ->
    exists out, _map_syslog_to_ocsf E ev = Return out)).
Proof.
  split; [apply mappers_on_non_dict|].
  intros kvs ->. split; [by eexists|]. split; [by eexists|].
  apply syslog_mapper_on_dict.
Qed.

Lemma mappers_failure_cases_witness :
  is_dict (JStr "raw line") = false /\
  _map_syslog_to_ocsf E0 (JStr "raw line") = Raise AttributeError /\
  _map_cef_to_ocsf E0 (JStr "raw line") = Raise AttributeError /\
  _map_leef_to_ocsf E0 (JStr "raw line") = Raise AttributeError.
Proof.
  split; [reflexivity|].
  apply (mappers_failure_cases E0 (JStr "raw line")). reflexivity.
Defined.

Lemma mapped_by_keys (E : env) (ev out : json) :
  mapped_by E ev out ->
  exists kvs, out = JDict kvs /\ kvs.*1 = canonical_keys.
Proof.
  intros H. destruct ev as [| | | | |ekvs];
    try (destruct H as [H | [H | H]]; discriminate).
  destruct H as [H | [H | H]].
  - unfold _map_syslog_to_ocsf, py_get in H.
    destruct (_map_syslog_severity _) as [sev|]; [|discriminate].
    injection H as <-. by eexists.
  - injection H as <-. by eexists.
  - injection H as <-. by eexists.
Qed.

Lemma dict_mem_keys (k : string) (kvs : list (string * json)) :
  dict_mem k kvs = existsb (String.eqb k) kvs.*1.
Proof.
  induction kvs as [|[k' v] kvs IH]; [reflexivity|]. simpl.
  rewrite IH. by destruct (String.eqb k k').
Qed.

Lemma mapped_event_no_fragments (E : env) (ev out : json) :
  mapped_by E ev out ->
  exists kvs,
    out = JDict kvs /\
    kvs.*1 = canonical_keys /\
    dict_mem "src" kvs = false /\ dict_mem "dst" kvs = false /\
    dict_mem "principal" kvs = false.
Proof.
  intros H. destruct (mapped_by_keys E ev out H) as (kvs & -> & Hk).
  exists kvs. split; [reflexivity|]. split; [exact Hk|].
  rewrite !dict_mem_keys, Hk. repeat split.
Qed.

(** X3.  What a mapper returns is a canonical event of exactly six
    fields, in a fixed order.  It has no [src], [dst] or [principal]
    fragment whatever the raw event had, and the detector classifies it
    as "ocsf": mapping it again would leave it alone. *)
Theorem mapped_event_is_canonical (E : env) (ev out : json) :
  mapped_by E ev out ->
  exists kvs,
    out = JDict kvs /\
    kvs.*1 = canonical_keys /\
    dict_mem "src" kvs = false /\ dict_mem "dst" kvs = false /\
    dict_mem "principal" kvs = false /\
    Ingest.DetectSourceFormat.source_format_of out = "ocsf" /\
    forall w, (Ingest.MapToOCSF.process E (out, "ocsf") w) = (Return [out], w).
Proof.
  intros H.
  destruct (mapped_event_no_fragments E ev out H) as (kvs & -> & Hk & Hs & Hd & Hp).
  exists kvs. split; [reflexivity|]. split; [exact Hk|].
  split; [exact Hs|]. split; [exact Hd|]. split; [exact Hp|].
  unfold Ingest.DetectSourceFormat.source_format_of.
  rewrite !dict_mem_keys, Hk. split; reflexivity.
Qed.

Lemma mapped_event_is_canonical_witness :
  exists out, mapped_by E0 syslog_event out /\
  exists kvs,
    out = JDict kvs /\
    kvs.*1 = canonical_keys /\
    dict_mem "src" kvs = false /\ dict_mem "dst" kvs = false /\
    dict_mem "principal" kvs = false /\
    Ingest.DetectSourceFormat.source_format_of out = "ocsf" /\
    forall w, (Ingest.MapToOCSF.process E0 (out, "ocsf") w) = (Return [out], w).
Proof.
  eexists. split; [left; reflexivity|].
  eapply (mapped_event_is_canonical E0 syslog_event). left. reflexivity.
Defined.

Lemma any_key_false_iff (keys : list string) (kvs : list (string * json)) :
  Ingest.DetectSourceFormat.any_key keys kvs = false
  <-> forall k, In k keys -> dict_mem k kvs = false.
Proof.
  unfold Ingest.DetectSourceFormat.any_key. split.
  - intros H k Hin. destruct (dict_mem k kvs) eqn:Hk; [|reflexivity].
    assert (existsb (fun k0 => dict_mem k0 kvs) keys = true) as Ht
      by (apply existsb_exists; by exists k).
    congruence.
  - intros H. destruct (existsb _ keys) eqn:Hx; [|reflexivity].
    apply existsb_exists in Hx as (k & Hin & Hk). rewrite (H k Hin) in Hk.
    discriminate.
Qed.

(** X4.  The detector always answers one of five formats.  It answers
    "unknown" exactly for an element that is not a dict, or a dict that
    lacks one of [class_uid] and [category_uid] and has none of the ten
    marker fields.  The checks are ordered: CEF markers win over LEEF
    and syslog markers, LEEF markers over syslog markers. *)
Theorem detection_classifies (elt : json) :
  let fmt := Ingest.DetectSourceFormat.source_format_of elt in
  In fmt ["ocsf"; "cef"; "leef"; "syslog"; "unknown"] /\
  (fmt = "unknown" <->
   forall kvs, elt = JDict kvs ->
     dict_mem "class_uid" kvs && dict_mem "category_uid" kvs = false /\
     forall k, In k marker_keys -> dict_mem k kvs = false) /\
  (forall kvs, elt = JDict kvs ->
     dict_mem "class_uid" kvs && dict_mem "category_uid" kvs = false ->
     (Ingest.DetectSourceFormat.any_key
        ["deviceVendor"; "deviceProduct"; "deviceVersion"] kvs = true ->
      fmt = "cef") /\
     (Ingest.DetectSourceFormat.any_key
        ["deviceVendor"; "deviceProduct"; "deviceVersion"] kvs = false ->
      Ingest.DetectSourceFormat.any_key ["devname"; "devtime"; "devtype"] kvs = true ->
      fmt = "leef")).
Proof.
  cbv zeta. unfold Ingest.DetectSourceFormat.source_format_of.
  destruct elt as [| | | | |kvs];
    try (split; [simpl; tauto|]; split; [split; [intros _ kvs; discriminate|reflexivity]|];
         intros kvs; discriminate).
  destruct (dict_mem "class_uid" kvs && dict_mem "category_uid" kvs) eqn:Hc.
  { split; [simpl; tauto|]. split.
    - split; [discriminate|]. intros H. destruct (H kvs eq_refl) as [? _]. congruence.
    - intros kvs' [= <-] Hf. congruence. }
  destruct (Ingest.DetectSourceFormat.any_key
              ["deviceVendor"; "deviceProduct"; "deviceVersion"] kvs) eqn:Hcef.
  { split; [simpl; tauto|]. split.
    - split; [discriminate|]. intros H. destruct (H kvs eq_refl) as [_ Hm].
      assert (Ingest.DetectSourceFormat.any_key
                ["deviceVendor"; "deviceProduct"; "deviceVersion"] kvs = false) as Hf.
      { apply any_key_false_iff. intros k Hk. apply Hm. unfold marker_keys.
        simpl in *. tauto. }
      congruence.
    - intros kvs' [= <-] _. split; intros; first [reflexivity | congruence]. }
  destruct (Ingest.DetectSourceFormat.any_key ["devname"; "devtime"; "devtype"] kvs)
    eqn:Hleef.
  { split; [simpl; tauto|]. split.
    - split; [discriminate|]. intros H. destruct (H kvs eq_refl) as [_ Hm].
      assert (Ingest.DetectSourceFormat.any_key ["devname"; "devtime"; "devtype"] kvs
              = false) as Hf.
      { apply any_key_false_iff. intros k Hk. apply Hm. unfold marker_keys.
        simpl in *. tauto. }
      congruence.
    - intros kvs' [= <-] _. split; intros; first [reflexivity | congruence]. }
  destruct (Ingest.DetectSourceFormat.any_key
              ["facility"; "severity"; "timestamp"; "hostname"] kvs) eqn:Hsys.
  { split; [simpl; tauto|]. split.
    - split; [discriminate|]. intros H. destruct (H kvs eq_refl) as [_ Hm].
      assert (Ingest.DetectSourceFormat.any_key
                ["facility"; "severity"; "timestamp"; "hostname"] kvs = false) as Hf.
      { apply any_key_false_iff. intros k Hk. apply Hm. unfold marker_keys.
        simpl in *. tauto. }
      congruence.
    - intros kvs' [= <-] _. split; intros; first [reflexivity | congruence]. }
  split; [simpl; tauto|]. split.
  - split; [|reflexivity]. intros _ kvs' [= <-]. split; [exact Hc|].
    intros k Hk. unfold marker_keys in Hk. simpl in Hk.
    pose proof (proj1 (any_key_false_iff _ _) Hcef) as H1.
    pose proof (proj1 (any_key_false_iff _ _) Hleef) as H2.
    pose proof (proj1 (any_key_false_iff _ _) Hsys) as H3.
    repeat (destruct Hk as [<- | Hk];
            [solve [apply H1; simpl; tauto | apply H2; simpl; tauto
                   | apply H3; simpl; tauto]|]).
    destruct Hk.
  - intros kvs' [= <-] _. split; intros; first [reflexivity | congruence].
Qed.

Lemma detection_classifies_witness :
  Ingest.DetectSourceFormat.source_format_of
    (JDict [("devname", JStr "fw-1"); ("deviceVendor", JStr "Acme");
            ("severity", JInt 3)]) = "cef".
Proof.
  pose proof (detection_classifies
                (JDict [("devname", JStr "fw-1"); ("deviceVendor", JStr "Acme");
                        ("severity", JInt 3)])) as H.
  cbv zeta in H. destruct H as (_ & _ & H).
  apply (H _ eq_refl); reflexivity.
Defined.

(** ** What the entry points never do *)

(** A computation that always returns. *)
Lemma try_except_returns {A} (body : M A) (handler : exn -> M A) (w : world) :
  (forall e w', exists a, (handler e w').1 = Return a) ->
  exists a, (try_except body handler w).1 = Return a.
Proof.
  intros Hh. unfold try_except. destruct (body w) as [[a|e] w']; [by exists a|].
  apply Hh.
Qed.

Lemma returns_ret {A} (a : A) : returns (ret a).
Proof. intros w. by exists a. Qed.

Lemma returns_log (l : level) (msg : string) : returns (log l msg).
Proof. intros w. by exists tt. Qed.

Lemma returns_bind {A B} (c : M A) (k : A -> M B) :
  returns c -> (forall a, returns (k a)) -> returns (bind c k).
Proof.
  intros Hc Hk w. unfold bind. destruct (Hc w) as [a Ha].
  destruct (c w) as [[a'|e] w']; simpl in Ha; [|discriminate]. apply Hk.
Qed.

Lemma returns_try {A} (body : M A) (handler : exn -> M A) :
  (forall e, returns (handler e)) -> returns (try_except body handler).
Proof.
  intros Hh w. unfold try_except. destruct (body w) as [[a|e] w']; [by exists a|].
  apply Hh.
Qed.

Lemma returns_for_each {A} (xs : list A) (body : A -> M unit) :
  (forall x, returns (body x)) -> returns (Ingest.for_each xs body).
Proof.
  intros Hb. induction xs as [|x xs IH]; simpl; [apply returns_ret|].
  apply returns_bind; [apply Hb | intros _; exact IH].
Qed.

Lemma returns_log_nothing {A} (l : level) (msg : string) :
  returns (bind (log l msg) (fun _ => ret (@nil A))).
Proof. apply returns_bind; [apply returns_log | intros _; apply returns_ret]. Qed.

Lemma returns_unit (c : M unit) (w : world) : returns c -> (c w).1 = Return tt.
Proof. intros H. destruct (H w) as [[] Hw]. exact Hw. Qed.

Lemma returns_start_step (E : env) (process_func : option (json -> M unit))
    (msg : KafkaConsumer.polled) :
  returns (KafkaConsumer.start_step E process_func msg).
Proof.
  destruct msg as [|[|]|payload]; simpl;
    [apply returns_ret | apply returns_log | apply returns_log |].
  apply returns_try. intros _. apply returns_log.
Qed.

(** X5.  Nothing escapes the queue paths.  [process_event], the loop of
    [start] (with any [process_func], even one that raises), each
    pipeline step and the body of the standalone loop return normally on
    every input and every store; [create_event] returns or raises
    [HTTPException] with status 500, never another exception. *)
Theorem no_exception_escapes (E : env) (w : world) :
  (forall event, (KafkaConsumer.process_event E event w).1 = Return tt) /\
  (forall process_func msgs,
     (KafkaConsumer.start E process_func msgs w).1 = Return tt) /\
  (forall elt, exists l, (Ingest.ParseEvent.process E elt w).1 = Return l) /\
  (forall elt, exists l, (Ingest.DetectSourceFormat.process elt w).1 = Return l) /\
  (forall elt, exists l, (Ingest.MapToOCSF.process E elt w).1 = Return l) /\
  (forall elt, exists l, (Ingest.StoreInGraph.process E elt w).1 = Return l) /\
  (forall value, (Ingest.run_standalone_message E value w).1 = Return tt) /\
  (forall event source_format,
     (exists r, (Api.create_event E event source_format w).1 = Return r) \/
     (Api.create_event E event source_format w).1 = Raise (HTTPException 500)).
Proof.
  assert (Hparse : forall elt, returns (Ingest.ParseEvent.process E elt)).
  { intros elt. apply returns_try. intros _. apply returns_log_nothing. }
  assert (Hdetect : forall elt, returns (Ingest.DetectSourceFormat.process elt)).
  { intros elt. apply returns_try. intros _. apply returns_log_nothing. }
  assert (Hmap : forall elt, returns (Ingest.MapToOCSF.process E elt)).
  { intros elt. apply returns_try. intros _. apply returns_log_nothing. }
  assert (Hstore : forall elt, returns (Ingest.StoreInGraph.process E elt)).
  { intros elt. apply returns_try. intros _. apply returns_log_nothing. }
  split; [|split; [|split; [|split; [|split; [|split; [|split]]]]]].
  - intros event. apply returns_unit. apply returns_try. intros _. apply returns_log.
  - intros process_func msgs. apply returns_unit. clear w.
    induction msgs as [|msg msgs IH]; simpl; [apply returns_ret|].
    apply returns_bind; [apply returns_start_step | intros _; exact IH].
  - intros elt. apply Hparse.
  - intros elt. apply Hdetect.
  - intros elt. apply Hmap.
  - intros elt. apply Hstore.
  - intros value. apply returns_unit. unfold Ingest.run_standalone_message.
    apply returns_bind; [apply Hparse|]. intros parsed.
    apply returns_for_each. intros parsed_event.
    apply returns_bind; [apply Hdetect|]. intros detected.
    apply returns_for_each. intros event_with_format.
    apply returns_bind; [apply Hmap|]. intros mapped.
    apply returns_for_each. intros ocsf_event.
    apply returns_bind; [apply Hstore|]. intros stored.
    apply returns_for_each. intros stored_event. apply returns_log.
  - intros event source_format. unfold Api.create_event, try_except.
    match goal with |- context [bind ?c ?k w] => destruct (bind c k w) as [[r|e] w'] end.
    + left. by exists r.
    + right. reflexivity.
Qed.

(** ** Invariants of the graph *)






















(** ** Mapped events and the writers *)

Lemma dict_lookup_not_mem (k : string) (kvs : list (string * json)) :
  dict_mem k kvs = false -> dict_lookup k kvs = None.
Proof.
  induction kvs as [|[k' v] kvs IH]; [reflexivity|]. simpl.
  destruct (String.eqb k k'); [discriminate | exact IH].
Qed.

(** [d[k] = v] then [d[k]], and [d[q]] for another key. *)
Lemma dict_lookup_set_same (k : string) (v : json) (kvs : list (string * json)) :
  dict_lookup k (dict_set k v kvs) = Some v.
Proof.
  induction kvs as [|[k' v'] kvs IH]; simpl.
  - by rewrite String.eqb_refl.
  - destruct (String.eqb k k') eqn:Hk; simpl; rewrite Hk; [reflexivity | exact IH].
Qed.

Lemma dict_lookup_set_other (q k : string) (v : json) (kvs : list (string * json)) :
  q <> k -> dict_lookup q (dict_set k v kvs) = dict_lookup q kvs.
Proof.
  intros Hq. induction kvs as [|[k' v'] kvs IH]; simpl.
  - destruct (String.eqb_spec q k); [congruence | reflexivity].
  - destruct (String.eqb_spec k k') as [<-|Hne]; simpl.
    + destruct (String.eqb_spec q k); [congruence | reflexivity].
    + destruct (String.eqb q k'); [reflexivity | exact IH].
Qed.

Lemma write_fragment_absent (E : env) (key default_type rtype : string)
    (dir : direction) (ref : json -> event_ref) (kvs : list (string * json))
    (event_id : json) (w : world) :
  dict_lookup key kvs = None ->
  write_fragment E key default_type rtype dir ref (JDict kvs) event_id w
  = (Return tt, w).
Proof. intros H. unfold write_fragment. by rewrite H. Qed.

Lemma map_to_ocsf_maps_as (E : env) (fmt : string) (ev out : json) (w : world) :
  maps_as E fmt ev out ->
  map_to_ocsf E ev (JStr fmt) w = (Return out, w)
  /\ json_eqb (JStr fmt) (JStr "ocsf") = false.
Proof.
  intros [[-> H] | [[-> H] | [-> H]]]; unfold map_to_ocsf; simpl;
    unfold lift; by rewrite H.
Qed.

(** X9.  An event that goes through a mapper never brings an entity
    with it.  For a queue message in the syslog, CEF or LEEF format that
    the mapper accepts, [process_event] adds exactly one node, the event
    node of the mapped event, and no relationship, whatever [src], [dst]
    or [principal] the raw event carries; so does [StoreInGraph.process]
    on the mapped event. *)
Theorem mapped_event_stored_alone (E : env) (msg ev : json) (fmt : string)
    (out : list (string * json)) (w : world) :
  accepts_create E ->
  py_get msg "event" (JDict []) = Return ev ->
  py_get msg "source_format" (JStr "unknown") = Return (JStr fmt) ->
  maps_as E fmt ev (JDict out) ->
  graph_of (KafkaConsumer.process_event E msg w).2
    = with_event (graph_of w) (consumer_event_props out)
  /\ graph_of (Ingest.StoreInGraph.process E (JDict out) w).2
    = with_event (graph_of w) (pipeline_event_props out).
Proof.
  intros Hacc Hev Hfmt Hmap.
  assert (Hm : mapped_by E ev (JDict out)).
  { destruct Hmap as [[_ H] | [[_ H] | [_ H]]]; unfold mapped_by; tauto. }
  destruct (mapped_event_no_fragments E ev (JDict out) Hm)
    as (kvs & [= <-] & Hkeys & Hsrc & Hdst & Hpr).
  assert (Hset : forall k v, k <> "src" -> k <> "dst" -> k <> "principal" ->
            dict_lookup "src" (dict_set k v out) = None /\
            dict_lookup "dst" (dict_set k v out) = None /\
            dict_lookup "principal" (dict_set k v out) = None).
  { intros k v H1 H2 H3.
    rewrite !dict_lookup_set_other by congruence.
    repeat split; by apply dict_lookup_not_mem. }
  split.
  - destruct (map_to_ocsf_maps_as E fmt ev (JDict out)
                (World (graph_of w) (logs w ++ [(DEBUG, "Processing event")])
                       (produced w)) Hmap) as [Hrun Hne].
    unfold KafkaConsumer.process_event, try_except.
    unfold bind at 1. unfold log at 1. cbn [fst snd].
    unfold bind at 1. rewrite Hev. unfold lift at 1.
    unfold bind at 1. rewrite Hfmt. unfold lift at 1.
    unfold bind at 1. rewrite Hne. cbn [negb]. rewrite Hrun.
    do 6 (unfold bind at 1; unfold lift at 1; cbn [py_get]).
    unfold bind at 1. rewrite execute_query_create by exact Hacc.
    unfold bind at 1.
    rewrite write_fragment_absent by (by apply dict_lookup_not_mem).
    unfold bind at 1.
    rewrite write_fragment_absent by (by apply dict_lookup_not_mem).
    reflexivity.
  - rewrite (StoreInGraph_process_after_create E out w Hacc).
    unfold bind at 1. unfold Ingest.StoreInGraph._process_entities, try_except.
    destruct (Hset "_id" (JInt (next_id (graph_of w))))
      as (H1 & H2 & H3); try discriminate.
    unfold bind at 1. rewrite write_fragment_absent by exact H1.
    unfold bind at 1. rewrite write_fragment_absent by exact H2.
    rewrite write_fragment_absent by exact H3.
    reflexivity.
Qed.

Lemma mapped_event_stored_alone_witness :
  maps_as E0 "syslog" syslog_event (JDict syslog_event_mapped) /\
  graph_of (KafkaConsumer.process_event E0 syslog_message w0).2
    = with_event (graph_of w0) (consumer_event_props syslog_event_mapped)
  /\ graph_of (Ingest.StoreInGraph.process E0 (JDict syslog_event_mapped) w0).2
    = with_event (graph_of w0) (pipeline_event_props syslog_event_mapped).
Proof.
  split; [left; split; reflexivity|].
  apply (mapped_event_stored_alone E0 syslog_message syslog_event "syslog"
           syslog_event_mapped w0).
  - exact accept_all_accepts_create.
  - reflexivity.
  - reflexivity.
  - left. split; reflexivity.
Defined.

(** ** Inputs that never reach the store *)

Lemma map_to_ocsf_not_dict (E : env) (ev sf : json) (w : world) :
  is_dict ev = false ->
  exists w', graph_of w' = graph_of w /\ produced w' = produced w /\
    (map_to_ocsf E ev sf w = (Raise AttributeError, w') \/
     map_to_ocsf E ev sf w = (Return ev, w')).
Proof.
  intros Hd. unfold map_to_ocsf.
  destruct (mappers_on_non_dict E ev Hd) as (H1 & H2 & H3).
  destruct (json_eqb sf (JStr "syslog")).
  { exists w. unfold lift. rewrite H1. auto. }
  destruct (json_eqb sf (JStr "cef")).
  { exists w. unfold lift. rewrite H2. auto. }
  destruct (json_eqb sf (JStr "leef")).
  { exists w. unfold lift. rewrite H3. auto. }
  eexists. split; [|split; [|right; reflexivity]]; reflexivity.
Qed.

(** X10.  A message that is not an object, or whose [event] field is
    not an object, is logged and dropped.  [process_event] leaves the
    graph as it is and ends with the error "Failed to process event",
    whatever the declared format; the standalone pipeline carries a
    parsed value that is not a dict through detection ("unknown") and
    mapping (passed through) and drops it at the store step, the graph
    untouched. *)
Theorem non_object_never_stored (E : env) (w : world) :
  (forall msg, is_dict msg = false ->
     KafkaConsumer.process_event E msg w
     = (Return tt,
        logged ERROR "Failed to process event" (logged DEBUG "Processing event" w))) /\
  (forall msg ev sf,
     py_get msg "event" (JDict []) = Return ev ->
     py_get msg "source_format" (JStr "unknown") = Return sf ->
     is_dict ev = false ->
     graph_of (KafkaConsumer.process_event E msg w).2 = graph_of w /\
     last (logs (KafkaConsumer.process_event E msg w).2)
       = Some (ERROR, "Failed to process event")) /\
  (forall v, is_dict v = false ->
     Ingest.run_standalone_message E (Ingest.Value v) w
     = (Return tt,
        logged ERROR "Failed to store event in graph database"
          (logged DEBUG "Mapped event to OCSF"
             (logged WARNING "Unsupported source format"
                (logged DEBUG "Detected source format"
                   (logged DEBUG "Parsed event" w)))))).
Proof.
  split; [|split].
  - intros msg Hd. destruct msg; try discriminate; reflexivity.
  - intros msg ev sf Hev Hsf Hd.
    assert (Hrun : exists w',
               graph_of w' = graph_of w /\
               KafkaConsumer.process_event E msg w
               = (Return tt, logged ERROR "Failed to process event" w')).
    { unfold KafkaConsumer.process_event, try_except.
      unfold bind at 1. unfold log at 1. cbn [fst snd].
      unfold bind at 1. rewrite Hev. unfold lift at 1.
      unfold bind at 1. rewrite Hsf. unfold lift at 1.
      unfold bind at 1.
      set (w1 := World _ _ _).
      assert (Hstep : exists w',
                 graph_of w' = graph_of w /\
                 ((if negb (json_eqb sf (JStr "ocsf"))
                   then map_to_ocsf E ev sf else ret ev) w1 = (Raise AttributeError, w')
                  \/ (if negb (json_eqb sf (JStr "ocsf"))
                      then map_to_ocsf E ev sf else ret ev) w1 = (Return ev, w'))).
      { destruct (negb (json_eqb sf (JStr "ocsf"))).
        - destruct (map_to_ocsf_not_dict E ev sf w1 Hd) as (w' & Hg & _ & Hr).
          exists w'. split; [exact Hg | exact Hr].
        - exists w1. split; [reflexivity | right; reflexivity]. }
      destruct Hstep as (w' & Hg & [-> | ->]).
      + exists w'. split; [exact Hg | reflexivity].
      + exists w'. split; [exact Hg|].
        unfold bind at 1. unfold lift at 1.
        destruct ev; try discriminate; reflexivity. }
    destruct Hrun as (w' & Hg & ->). cbn [snd]. split; [exact Hg | apply last_snoc].
  - intros v Hd. destruct v; try discriminate; reflexivity.
Qed.

Lemma non_object_never_stored_witness :
  is_dict (JList [JInt 1; JInt 2]) = false /\
  KafkaConsumer.process_event E0 (JList [JInt 1; JInt 2]) w0
  = (Return tt,
     logged ERROR "Failed to process event" (logged DEBUG "Processing event" w0)).
Proof.
  split; [reflexivity|].
  apply (non_object_never_stored E0 w0). reflexivity.
Defined.

(** X11.  A syslog event whose [severity] is a list or a dict is lost.
    The table lookup raises [TypeError]; on the consumer path the
    failure is caught by [process_event], on the pipeline path by
    [MapToOCSF.process], which yields nothing.  Either way an error is
    logged and no event node is written. *)
Theorem syslog_unhashable_severity_dropped (E : env) (msg : json)
    (kvs : list (string * json)) (w : world) :
  py_get msg "event" (JDict []) = Return (JDict kvs) ->
  py_get msg "source_format" (JStr "unknown") = Return (JStr "syslog") ->
  unhashable (from_option id (JInt 0) (dict_lookup "severity" kvs)) = true ->
  KafkaConsumer.process_event E msg w
    = (Return tt,
       logged ERROR "Failed to process event" (logged DEBUG "Processing event" w))
  /\ Ingest.MapToOCSF.process E (JDict kvs, "syslog") w
     = (Return [], logged ERROR "Failed to map event to OCSF" w).
Proof.
  intros Hev Hfmt Hbad.
  destruct (syslog_mapper_on_dict E kvs) as [Hraise _]. specialize (Hraise Hbad).
  split.
  - unfold KafkaConsumer.process_event, try_except.
    unfold bind at 1. unfold log at 1. cbn [fst snd].
    unfold bind at 1. rewrite Hev. unfold lift at 1.
    unfold bind at 1. rewrite Hfmt. unfold lift at 1.
    unfold bind at 1. unfold map_to_ocsf.
    change (json_eqb (JStr "syslog") (JStr "ocsf")) with false.
    change (json_eqb (JStr "syslog") (JStr "syslog")) with true.
    cbn [negb]. unfold lift. rewrite Hraise. reflexivity.
  - unfold Ingest.MapToOCSF.process, try_except.
    change (String.eqb "syslog" "ocsf") with false. cbv iota.
    unfold bind at 1. unfold map_to_ocsf.
    change (json_eqb (JStr "syslog") (JStr "syslog")) with true.
    cbv iota. unfold lift. rewrite Hraise. reflexivity.
Qed.

Lemma syslog_unhashable_severity_dropped_witness :
  KafkaConsumer.process_event E0 syslog_message_bad_severity w0
    = (Return tt,
       logged ERROR "Failed to process event" (logged DEBUG "Processing event" w0))
  /\ Ingest.MapToOCSF.process E0 (JDict syslog_event_bad_severity, "syslog") w0
     = (Return [], logged ERROR "Failed to map event to OCSF" w0).
Proof.
  apply (syslog_unhashable_severity_dropped E0 syslog_message_bad_severity
           syslog_event_bad_severity w0); reflexivity.
Defined.

(** ** Defaults and identifiers *)

(** X12.  A message with neither an [event] nor a [source_format] field
    still makes an event node.  The event defaults to the empty dict and
    the format to "unknown", the mapper passes the empty event through
    with a warning, and the node is written with the defaults of every
    field: "unknown", "unknown", the empty time and message, severity 0
    and the metadata text of the empty dict. *)
Theorem message_without_event_stored (E : env) (kvs : list (string * json))
    (w : world) :
  accepts_create E ->
  dict_lookup "event" kvs = None ->
  dict_lookup "source_format" kvs = None ->
  KafkaConsumer.process_event E (JDict kvs) w
  = (Return tt,
     logged INFO "Successfully processed event with ID"
       (World (with_event (graph_of w) (consumer_event_props []))
          (logs (logged WARNING "Unsupported source format"
                   (logged DEBUG "Processing event" w)))
          (produced w)))
  /\ consumer_event_props [] !! "class_uid" = Some (JStr "unknown")
  /\ consumer_event_props [] !! "category_uid" = Some (JStr "unknown")
  /\ consumer_event_props [] !! "time" = Some (JStr "")
  /\ consumer_event_props [] !! "severity" = Some (JInt 0)
  /\ consumer_event_props [] !! "message" = Some (JStr "")
  /\ consumer_event_props [] !! "metadata" = Some (JStr "{}").
Proof.
  intros Hacc Hev Hfmt. split; [|vm_compute; repeat split].
  unfold KafkaConsumer.process_event, try_except.
  unfold bind at 1. unfold log at 1. cbn [fst snd].
  unfold py_get at 1 2. rewrite Hev, Hfmt. cbn [from_option].
  unfold bind at 1. unfold lift at 1.
  unfold bind at 1. unfold lift at 1.
  unfold bind at 1.
  change (json_eqb (JStr "unknown") (JStr "ocsf")) with false. cbn [negb].
  unfold map_to_ocsf.
  change (json_eqb (JStr "unknown") (JStr "syslog")) with false.
  change (json_eqb (JStr "unknown") (JStr "cef")) with false.
  change (json_eqb (JStr "unknown") (JStr "leef")) with false.
  cbv iota. unfold bind at 1. unfold log at 1. unfold ret at 1.
  do 6 (unfold bind at 1; unfold lift at 1; cbn [py_get]).
  unfold bind at 1. rewrite execute_query_create by exact Hacc.
  reflexivity.
Qed.

Lemma message_without_event_stored_witness :
  KafkaConsumer.process_event E0 (JDict []) w0
  = (Return tt,
     logged INFO "Successfully processed event with ID"
       (World (with_event (graph_of w0) (consumer_event_props []))
          (logs (logged WARNING "Unsupported source format"
                   (logged DEBUG "Processing event" w0)))
          (produced w0)))
  /\ consumer_event_props [] !! "class_uid" = Some (JStr "unknown")
  /\ consumer_event_props [] !! "category_uid" = Some (JStr "unknown")
  /\ consumer_event_props [] !! "time" = Some (JStr "")
  /\ consumer_event_props [] !! "severity" = Some (JInt 0)
  /\ consumer_event_props [] !! "message" = Some (JStr "")
  /\ consumer_event_props [] !! "metadata" = Some (JStr "{}").
Proof.
  apply (message_without_event_stored E0 [] w0).
  - exact accept_all_accepts_create.
  - reflexivity.
  - reflexivity.
Defined.

Lemma execute_query_refused (E : env) (st : statement) (w : world) :
  rejects E (graph_of w) st = true ->
  execute_query E st w
  = (Raise StoreError,
     logged ERROR "Parameters" (logged ERROR "Query"
       (logged ERROR "Query execution failed" w))).
Proof. intros H. unfold execute_query. rewrite H. reflexivity. Qed.

(** X13.  [StoreInGraph.process] yields an element exactly when its
    event node was created.  When the store runs the [CREATE], the one
    element yielded is the input with [_id] set to the id of the new
    event node (overwriting an [_id] it may have had) and every other
    field as it was.  When the store refuses the [CREATE], nothing is
    yielded, the graph is as before and the failure is logged. *)
Theorem store_step_yields_stored_element (E : env) (kvs : list (string * json))
    (w : world) :
  (accepts_create E ->
   exists elt,
     (Ingest.StoreInGraph.process E (JDict kvs) w).1 = Return [JDict elt] /\
     dict_lookup "_id" elt = Some (JInt (next_id (graph_of w))) /\
     (forall k, k <> "_id" -> dict_lookup k elt = dict_lookup k kvs) /\
     In (Node (next_id (graph_of w)) "Event" (pipeline_event_props kvs))
        (nodes (graph_of (Ingest.StoreInGraph.process E (JDict kvs) w).2))) /\
  ((forall c k t sv m md,
      rejects E (graph_of w) (CreateEvent c k t sv m md) = true) ->
   (Ingest.StoreInGraph.process E (JDict kvs) w).1 = Return [] /\
   graph_of (Ingest.StoreInGraph.process E (JDict kvs) w).2 = graph_of w /\
   last (logs (Ingest.StoreInGraph.process E (JDict kvs) w).2)
     = Some (ERROR, "Failed to store event in graph database")).
Proof.
  split.
  - intros Hacc.
    destruct (pipeline_write_policy_holds E kvs w Hacc) as (Hret & Hext & _).
    cbv zeta in Hret, Hext.
    exists (dict_set "_id" (JInt (next_id (graph_of w))) kvs).
    split; [exact Hret|]. split; [apply dict_lookup_set_same|].
    split; [intros k Hk; by apply dict_lookup_set_other|].
    eapply extends_In; [exact Hext|]. simpl. apply in_or_app. right. by left.
  - intros Hrej.
    assert (Hrun : Ingest.StoreInGraph.process E (JDict kvs) w
                   = (Return [],
                      logged ERROR "Failed to store event in graph database"
                        (logged ERROR "Parameters" (logged ERROR "Query"
                           (logged ERROR "Query execution failed" w))))).
    { unfold Ingest.StoreInGraph.process, try_except.
      do 6 (unfold bind at 1; unfold lift at 1; cbn [py_get]).
      unfold bind at 1. rewrite execute_query_refused by apply Hrej.
      reflexivity. }
    rewrite Hrun. split; [reflexivity|]. split; [reflexivity | apply last_snoc].
Qed.

Lemma store_step_yields_stored_element_witness :
  exists elt,
    (Ingest.StoreInGraph.process E0 (JDict canonical_event) w0).1 = Return [JDict elt] /\
    dict_lookup "_id" elt = Some (JInt (next_id (graph_of w0))) /\
    (forall k, k <> "_id" -> dict_lookup k elt = dict_lookup k canonical_event) /\
    In (Node (next_id (graph_of w0)) "Event" (pipeline_event_props canonical_event))
       (nodes (graph_of (Ingest.StoreInGraph.process E0 (JDict canonical_event) w0).2)).
Proof.
  apply (store_step_yields_stored_element E0 canonical_event w0).
  exact accept_all_accepts_create.
Defined.

(** [toInteger(str(n))] is [n]. *)
Lemma toInteger_str_int (n : Z) :
  resolve_event_ref (ByToInteger (JStr (str_int n))) = Some n.
Proof.
  unfold resolve_event_ref, str_int.
  rewrite NilZero.isi.
  - simpl. f_equal. apply DecimalZ.of_to.
  - destruct n; simpl; [discriminate | |discriminate].
    intros [= H]. by apply Unsigned.to_uint_nonnil in H.
  - destruct n; simpl; [discriminate | discriminate |].
    intros [= H]. by apply Unsigned.to_uint_nonnil in H.
Qed.

Lemma exec_merge_unfold (g : graph) (label : string) (idv : json)
    (props : list (string * json)) (ev : event_ref) (rtype : string)
    (dir : direction) :
  idv <> JNull ->
  exec g (MergeEntity label idv props ev rtype dir)
  = (let found := List.filter (matches label idv) (nodes g) in
     let '(bound, g1) :=
       match found with
       | [] =>
           ([Node (next_id g) label (set_props props {[ "id" := idv ]})],
            Graph (nodes g ++ [Node (next_id g) label (set_props props {[ "id" := idv ]})])
                  (rels g) (next_id g + 1))
       | _ => (found, g)
       end in
     Some ([],
           Graph (nodes g1)
             (rels g1 ++ flat_map (fun s => List.map (link rtype dir s)
                                     (List.filter (is_event ev) (nodes g1))) bound)
             (next_id g1))).
Proof. intros Hid. destruct idv; [by destruct Hid | reflexivity..]. Qed.

(** A [MERGE] that runs binds a node for the pair and links it to every
    event node the statement selects. *)
Lemma exec_merge_links (g : graph) (label : string) (idv : json)
    (kvs : list (string * json)) (ev : event_ref) (rtype : string)
    (dir : direction) (e : node) :
  idv <> JNull ->
  In e (nodes g) -> is_event ev e = true ->
  exists g' s,
    exec g (MergeEntity label idv (without_id_type kvs) ev rtype dir) = Some ([], g') /\
    In s (nodes g') /\ matches label idv s = true /\
    In (link rtype dir s e) (rels g').
Proof.
  intros Hid He Hev. rewrite exec_merge_unfold by exact Hid. cbv zeta.
  destruct (List.filter (matches label idv) (nodes g)) as [|n0 found] eqn:Hf.
  - eexists. exists (Node (next_id g) label
                       (set_props (without_id_type kvs) {[ "id" := idv ]})).
    split; [reflexivity|]. cbn [nodes rels].
    split; [apply in_or_app; right; by left|]. split.
    + unfold matches. cbn [node_label node_props]. rewrite merged_node_id. simpl.
      by rewrite String.eqb_refl, json_eqb_refl.
    + apply in_or_app. right. simpl. rewrite app_nil_r.
      apply in_map. apply filter_In. split; [|exact Hev].
      apply in_or_app. by left.
  - assert (Hn0 : In n0 (nodes g) /\ matches label idv n0 = true).
    { apply filter_In. rewrite Hf. by left. }
    eexists. exists n0. split; [reflexivity|]. cbn [nodes rels].
    split; [apply Hn0|]. split; [apply Hn0|].
    apply in_or_app. right. apply in_flat_map. exists n0. split; [by left|].
    apply in_map. apply filter_In. split; assumption.
Qed.

(** X14.  A source fragment ends linked to the event it came with.  On
    the consumer path the id of the new event node goes to the [MERGE]
    as text and comes back through [toInteger]; when the store runs the
    statements, the graph has a node for the fragment's label and
    identity key with a [GENERATED] relationship to the event node just
    created. *)
Theorem source_linked_to_its_event (E : env) (msg : json)
    (kvs frag : list (string * json)) (label : string) (idv : json) (w : world) :
  accepts_all E ->
  py_get msg "event" (JDict []) = Return (JDict kvs) ->
  py_get msg "source_format" (JStr "unknown") = Return (JStr "ocsf") ->
  dict_lookup "src" kvs = Some (JDict frag) ->
  str_scalar (from_option id (JStr "Unknown") (dict_lookup "type" frag)) = Some label ->
  is_label_name label = true ->
  identity_key E (JDict frag) = Return idv ->
  idv <> JNull ->
  exists s,
    In s (nodes (graph_of (KafkaConsumer.process_event E msg w).2)) /\
    matches label idv s = true /\
    In (Node (next_id (graph_of w)) "Event" (consumer_event_props kvs))
       (nodes (graph_of (KafkaConsumer.process_event E msg w).2)) /\
    In (Rel (node_id s) "GENERATED" (next_id (graph_of w)))
       (rels (graph_of (KafkaConsumer.process_event E msg w).2)).
Proof.
  intros Hall Hev Hfmt Hsrc Hlabel Hname Hkey Hid.
  assert (Hacc : accepts_create E) by (intros g c k t sv m md; apply Hall).
  rewrite (process_event_after_create E msg kvs w Hacc Hev Hfmt).
  set (e := Node (next_id (graph_of w)) "Event" (consumer_event_props kvs)).
  set (eid := JStr (str_int (next_id (graph_of w)))).
  set (w1 := World _ _ _).
  assert (Hein : In e (nodes (graph_of w1))).
  { simpl. apply in_or_app. right. by left. }
  assert (Hevt : is_event (ByToInteger eid) e = true).
  { unfold is_event, eid. rewrite toInteger_str_int. simpl.
    by rewrite Z.eqb_refl. }
  destruct (exec_merge_links (graph_of w1) label idv frag (ByToInteger eid)
              "GENERATED" EntityToEvent e Hid Hein Hevt)
    as (g2 & s & Hx & Hs & Hm & Hr).
  pose proof (write_fragment_runs E "src" "Unknown" "GENERATED" EntityToEvent
                ByToInteger kvs frag eid label idv w1 g2 Hsrc Hlabel Hname Hkey
                (Hall _ _) Hx) as Hrun.
  set (w2 := World g2 (logs w1) (produced w1)) in *.
  assert (Hext : extends g2
            (graph_of
               (try_except
                  (bind (write_fragment E "src" "Unknown" "GENERATED" EntityToEvent
                           ByToInteger (JDict kvs) eid)
                     (fun _ =>
                        bind (write_fragment E "dst" "Unknown" "TARGETS" EventToEntity
                                ByToInteger (JDict kvs) eid)
                          (fun _ => log INFO "Successfully processed event with ID")))
                  (fun _ => log ERROR "Failed to process event") w1).2)).
  { unfold try_except. unfold bind at 1. rewrite Hrun.
    match goal with
    | |- context [bind ?c ?k w2] =>
        pose proof (along_bind extends extends_trans c k
                      (along_write_fragment extends extends_refl extends_trans E
                         "dst" "Unknown" "TARGETS" EventToEntity ByToInteger
                         (JDict kvs) eid (fun st _ => keeps_extends st))
                      (fun _ => along_log extends extends_refl INFO
                                  "Successfully processed event with ID") w2) as Ha;
        destruct (bind c k w2) as [[[]|e'] w3]; exact Ha
    end. }
  pose proof (exec_extends _ _ _ _ Hx) as Hext1.
  exists s. split; [by eapply extends_In|]. split; [exact Hm|].
  split; [eapply extends_In; [exact Hext|]; by eapply extends_In|].
  destruct Hext as (_ & [rs ->] & _). apply in_or_app. left. exact Hr.
Qed.

Lemma source_linked_to_its_event_witness :
  exists s,
    In s (nodes (graph_of (KafkaConsumer.process_event E0 canonical_message w0).2)) /\
    matches "IP" (JStr "src-001") s = true /\
    In (Node (next_id (graph_of w0)) "Event" (consumer_event_props canonical_event))
       (nodes (graph_of (KafkaConsumer.process_event E0 canonical_message w0).2)) /\
    In (Rel (node_id s) "GENERATED" (next_id (graph_of w0)))
       (rels (graph_of (KafkaConsumer.process_event E0 canonical_message w0).2)).
Proof.
  apply (source_linked_to_its_event E0 canonical_message canonical_event
           [("id", JStr "src-001"); ("type", JStr "IP"); ("ip", JStr "192.168.1.100")]
           "IP" (JStr "src-001") w0); try reflexivity.
  - intros g st. reflexivity.
  - discriminate.
Defined.

(** ** The API in Kafka mode *)

Lemma canonical_form_step (E : env) (fmt : string) (event out : json) (w : world) :
  canonical_form E fmt event out ->
  exists w1,
    (if negb (String.eqb fmt "ocsf") then map_to_ocsf E event (JStr fmt) else ret event) w
    = (Return out, w1)
    /\ graph_of w1 = graph_of w /\ produced w1 = produced w.
Proof.
  intros [Hmap | (H1 & H2 & H3 & ->)].
  - destruct (map_to_ocsf_maps_as E fmt event out w Hmap) as [Hrun _].
    assert (Hne : String.eqb fmt "ocsf" = false).
    { by destruct Hmap as [[-> _] | [[-> _] | [-> _]]]. }
    exists w. rewrite Hne. cbn [negb]. by rewrite Hrun.
  - destruct (String.eqb fmt "ocsf"); cbn [negb]; [by exists w|].
    unfold map_to_ocsf. cbn [json_eqb].
    apply String.eqb_neq in H1, H2, H3. rewrite H1, H2, H3.
    eexists. split; [reflexivity|]. by split.
Qed.

(** [create_event] in Kafka mode with a producer that sends. *)
Lemma kafka_mode_step (E : env) (event out : json) (fmt : string) (w : world) :
  use_kafka E = true ->
  canonical_form E fmt event out ->
  producer_send E = Some true ->
  exists w',
    Api.create_event E event fmt w
    = (Return (Api.mkEventResponse (uuid4 E) out), w') /\
    graph_of w' = graph_of w /\
    produced w' = produced w ++ [queue_message out].
Proof.
  intros Hk Hform Hsend.
  destruct (canonical_form_step E fmt event out w Hform) as (w1 & Hstep & Hg & Hp).
  eexists. split.
  - unfold Api.create_event, try_except. unfold bind at 1. rewrite Hstep.
    rewrite Hk, Hsend. reflexivity.
  - cbn. by rewrite Hg, Hp.
Qed.

(** X15.  In Kafka mode the API writes nothing to the graph.  With a
    producer at hand, [create_event] hands it one message, the canonical
    form of the event marked as "ocsf", and answers with the identifier
    [uuid4] drew, which is no id of the store.  When the producer
    reports a failure the answer is the HTTP error 500: nothing is
    queued and nothing is written, the direct write is not tried. *)
Theorem kafka_mode_queues_only (E : env) (event out : json) (fmt : string)
    (w : world) :
  use_kafka E = true ->
  canonical_form E fmt event out ->
  (producer_send E = Some true ->
   exists w',
     Api.create_event E event fmt w
     = (Return (Api.mkEventResponse (uuid4 E) out), w') /\
     graph_of w' = graph_of w /\
     produced w' = produced w ++ [queue_message out]) /\
  (producer_send E = Some false ->
   exists w',
     Api.create_event E event fmt w = (Raise (HTTPException 500), w') /\
     graph_of w' = graph_of w /\
     produced w' = produced w).
Proof.
  intros Hk Hform.
  destruct (canonical_form_step E fmt event out w Hform) as (w1 & Hstep & Hg & Hp).
  split; intros Hsend.
  - by apply kafka_mode_step.
  - eexists. split.
    + unfold Api.create_event, try_except. unfold bind at 1. rewrite Hstep.
      rewrite Hk, Hsend. reflexivity.
    + cbn. by rewrite Hg, Hp.
Qed.

Lemma kafka_mode_queues_only_witness :
  exists w',
    Api.create_event (E_kafka true) syslog_event "syslog" w0
    = (Return (Api.mkEventResponse (uuid4 (E_kafka true)) (JDict syslog_event_mapped)), w') /\
    graph_of w' = graph_of w0 /\
    produced w' = produced w0 ++ [queue_message (JDict syslog_event_mapped)].
Proof.
  apply (kafka_mode_queues_only (E_kafka true) syslog_event (JDict syslog_event_mapped)
           "syslog" w0).
  - reflexivity.
  - left. left. split; reflexivity.
  - reflexivity.
Defined.

(** X16.  The standalone pipeline misreads what the API queues.  The
    message [create_event] sends wraps the event in an object with the
    keys [event] and [source_format]; the pipeline takes the object
    itself for the event.  The detector finds no marker in it, the
    mapper passes it through, and the store step writes an event node
    with no class, category or time, severity 0 and an empty message:
    nothing of the event is stored, and no entity. *)
Theorem pipeline_misreads_queue_message (E : env) (payload : list Byte.byte)
    (s : string) (ocsf_event : json) (w : world) :
  accepts_create E ->
  decode_utf8 payload = Return s ->
  json_loads E s = Some (queue_message ocsf_event) ->
  graph_of (Ingest.run_standalone_message E (Ingest.Bytes payload) w).2
    = with_event (graph_of w) (pipeline_event_props [])
  /\ pipeline_event_props [] !! "class_uid" = None
  /\ pipeline_event_props [] !! "category_uid" = None
  /\ pipeline_event_props [] !! "time" = None
  /\ pipeline_event_props [] !! "severity" = Some (JInt 0)
  /\ pipeline_event_props [] !! "message" = Some (JStr "")
  /\ pipeline_event_props [] !! "metadata" = Some (JStr "{}").
Proof.
  intros Hacc Hdec Hload. split; [|vm_compute; repeat split].
  unfold Ingest.run_standalone_message.
  unfold bind at 1. unfold Ingest.ParseEvent.process, try_except.
  unfold bind at 1. unfold bind at 1. rewrite Hdec. unfold lift at 1.
  unfold Ingest.loads. rewrite Hload. unfold ret at 1.
  unfold bind at 1. unfold log at 1. unfold ret at 1.
  cbn [Ingest.for_each]. unfold bind at 1. unfold bind at 1.
  unfold Ingest.DetectSourceFormat.process, try_except.
  change (Ingest.DetectSourceFormat.source_format_of (queue_message ocsf_event))
    with "unknown".
  unfold bind at 1. unfold log at 1. unfold ret at 1.
  cbn [Ingest.for_each]. unfold bind at 1. unfold bind at 1.
  unfold Ingest.MapToOCSF.process, try_except.
  change (String.eqb "unknown" "ocsf") with false. cbv iota.
  unfold bind at 1. unfold map_to_ocsf.
  change (json_eqb (JStr "unknown") (JStr "syslog")) with false.
  change (json_eqb (JStr "unknown") (JStr "cef")) with false.
  change (json_eqb (JStr "unknown") (JStr "leef")) with false.
  cbv iota. unfold bind at 1. unfold log at 1. unfold ret at 1.
  unfold bind at 1. unfold log at 1. unfold ret at 1.
  cbn [Ingest.for_each]. unfold bind at 1. unfold bind at 1.
  unfold queue_message.
  rewrite (StoreInGraph_process_after_create E _ _ Hacc).
  unfold bind at 1. unfold Ingest.StoreInGraph._process_entities, try_except.
  unfold bind at 1. rewrite write_fragment_absent by reflexivity.
  unfold bind at 1. rewrite write_fragment_absent by reflexivity.
  rewrite write_fragment_absent by reflexivity.
  reflexivity.
Qed.

Lemma pipeline_misreads_queue_message_witness :
  graph_of (Ingest.run_standalone_message E0
              (Ingest.Bytes (String.list_byte_of_string
                               (json_dumps (queue_message (JDict canonical_event))))) w0).2
    = with_event (graph_of w0) (pipeline_event_props [])
  /\ pipeline_event_props [] !! "class_uid" = None
  /\ pipeline_event_props [] !! "category_uid" = None
  /\ pipeline_event_props [] !! "time" = None
  /\ pipeline_event_props [] !! "severity" = Some (JInt 0)
  /\ pipeline_event_props [] !! "message" = Some (JStr "")
  /\ pipeline_event_props [] !! "metadata" = Some (JStr "{}").
Proof.
  apply (pipeline_misreads_queue_message E0
           (String.list_byte_of_string (json_dumps (queue_message (JDict canonical_event))))
           (json_dumps (queue_message (JDict canonical_event)))
           (JDict canonical_event) w0).
  - exact accept_all_accepts_create.
  - by vm_compute.
  - by vm_compute.
Defined.

(** ** Two runs that end alike *)

Lemma exec_merge_same_event (g : graph) (label : string) (idv : json)
    (props : list (string * json)) (e1 e2 : event_ref) (rtype : string)
    (dir : direction) :
  same_event e1 e2 ->
  exec g (MergeEntity label idv props e1 rtype dir)
  = exec g (MergeEntity label idv props e2 rtype dir).
Proof. unfold same_event. intros H. unfold exec, is_event. by rewrite H. Qed.

(** What [execute_query] does depends on the graph alone. *)
Lemma execute_query_alike (E1 E2 : env) (st1 st2 : statement) (w1 w2 : world) :
  graph_of w1 = graph_of w2 ->
  exec (graph_of w1) st1 = exec (graph_of w1) st2 ->
  (exec (graph_of w1) st1 <> None ->
   rejects E1 (graph_of w1) st1 = rejects E2 (graph_of w1) st2) ->
  ends_alike (execute_query E1 st1 w1) (execute_query E2 st2 w2).
Proof.
  intros Hg Hx Hrej. unfold execute_query. rewrite <- Hg, <- Hx.
  destruct (exec (graph_of w1) st1) as [[rows g']|] eqn:Hexec.
  - rewrite <- Hrej by discriminate.
    destruct (rejects E1 (graph_of w1) st1); split; cbn; congruence.
  - destruct (rejects E1 (graph_of w1) st1), (rejects E2 (graph_of w1) st2);
      split; cbn; congruence.
Qed.

Lemma write_fragment_alike (E1 E2 : env) (key default_type rtype : string)
    (dir : direction) (r1 r2 : json -> event_ref)
    (kvs1 kvs2 : list (string * json)) (id1 id2 : json) (w1 w2 : world) :
  hash_key E1 = hash_key E2 ->
  (forall g label idv props,
     rejects E1 g (MergeEntity label idv props (r1 id1) rtype dir)
     = rejects E2 g (MergeEntity label idv props (r2 id2) rtype dir)) ->
  same_event (r1 id1) (r2 id2) ->
  dict_lookup key kvs1 = dict_lookup key kvs2 ->
  graph_of w1 = graph_of w2 ->
  ends_alike
    (write_fragment E1 key default_type rtype dir r1 (JDict kvs1) id1 w1)
    (write_fragment E2 key default_type rtype dir r2 (JDict kvs2) id2 w2).
Proof.
  intros Hk Hrej Hev Hkey Hg. unfold write_fragment. rewrite <- Hkey.
  destruct (dict_lookup key kvs1) as [frag|]; [|by split].
  unfold bind at 1 3. unfold lift at 1 4.
  destruct (py_get frag "type" (JStr default_type)) as [ty|e]; [|by split].
  unfold bind at 1 3. unfold lift at 1 3.
  replace (identity_key E2 frag) with (identity_key E1 frag)
    by (unfold identity_key; by rewrite Hk).
  destruct (identity_key E1 frag) as [idv|e]; [|by split].
  unfold bind at 1 3. unfold lift at 1 2.
  destruct (props_without_id_type frag) as [props|e]; [|by split].
  unfold bind.
  assert (Ha : ends_alike
            (execute_query E1 (merge_statement ty idv props (r1 id1) rtype dir) w1)
            (execute_query E2 (merge_statement ty idv props (r2 id2) rtype dir) w2)).
  { unfold merge_statement. destruct (str_scalar ty) as [label|].
    - destruct (is_label_name label).
      + apply execute_query_alike; [exact Hg | by apply exec_merge_same_event |].
        intros _. by apply Hrej.
      + apply execute_query_alike; [exact Hg | reflexivity | by intros []].
    - apply execute_query_alike; [exact Hg | reflexivity | by intros []]. }
  destruct Ha as [Ho Hgr].
  destruct (execute_query E1 _ w1) as [[rows1|e1] w1'],
           (execute_query E2 _ w2) as [[rows2|e2] w2'];
    cbn in Ho, Hgr; try discriminate; split; cbn; congruence.
Qed.

(** X17.  An event queued by the API and then taken up by the consumer
    leaves the graph the direct write leaves, provided both processes
    bring the event to the same canonical form, the consumer's store
    refuses what the API's store refuses, and the two interpreters
    share their string-hash key (so that a fragment without an [id]
    gets the same identity key in both).  The answers differ: the
    queued event is answered with a fresh UUID, and a failure in the
    consumer is logged only, where the direct write answers 500. *)
Theorem queued_event_stored_as_direct (Eq Ec Ed : env) (event out : json)
    (fmt : string) (w : world) :
  use_kafka Eq = true ->
  producer_send Eq = Some true ->
  use_kafka Ed = false ->
  canonical_form Eq fmt event out ->
  canonical_form Ed fmt event out ->
  hash_key Ec = hash_key Ed ->
  (forall g st, rejects Ec g st = rejects Ed g st) ->
  exists w',
    Api.create_event Eq event fmt w
    = (Return (Api.mkEventResponse (uuid4 Eq) out), w') /\
    produced w' = produced w ++ [queue_message out] /\
    graph_of (KafkaConsumer.process_event Ec (queue_message out) w').2
    = graph_of (Api.create_event Ed event fmt w).2.
Proof.
  intros Hkq Hsend Hkd Hfq Hfd Hk Hrej.
  destruct (kafka_mode_step Eq event out fmt w Hkq Hfq Hsend) as (w' & Hrun & Hg & Hp).
  exists w'. split; [exact Hrun|]. split; [exact Hp|].
  destruct (canonical_form_step Ed fmt event out w Hfd) as (w1 & Hstep & Hg1 & _).
  unfold KafkaConsumer.process_event, try_except.
  unfold bind at 1. unfold log at 1. cbn [fst snd].
  unfold bind at 1. unfold lift at 1. unfold queue_message at 1. cbn [py_get dict_lookup].
  unfold bind at 1. unfold lift at 1. unfold queue_message at 1.
  change (py_get _ "source_format" (JStr "unknown")) with (Return (JStr "ocsf")).
  cbv iota. unfold bind at 1.
  change (json_eqb (JStr "ocsf") (JStr "ocsf")) with true. cbn [negb]. unfold ret at 1.
  change (default (JDict []) _) with out.
  match goal with
  | |- graph_of (let (_, _) := _ ?wc in _).2 = _ => set (Wc := wc)
  end.
  assert (HgW : graph_of Wc = graph_of w1) by (subst Wc; cbn; congruence).
  clearbody Wc. clear Hrun.
  match goal with |- ?l = _ => set (L := l) end.
  unfold Api.create_event, try_except.
  unfold bind at 1. rewrite Hstep. rewrite Hkd. unfold bind at 1. unfold ret at 1.
  subst L. clear Hstep.
  destruct out as [| | | | |kvs]; try (cbn; exact HgW).
  cbn [bind lift py_get].
  unfold bind. cbv beta.
  match goal with
  | |- context [execute_query Ec ?st Wc] =>
      destruct (execute_query_alike Ec Ed st st Wc w1 HgW eq_refl
                  (fun _ => Hrej _ _)) as [Ho Hgr];
      destruct (execute_query Ec st Wc) as [[rows|e1] wc1],
               (execute_query Ed st w1) as [[rows'|e2] wd1]
  end; cbn in Ho, Hgr; try discriminate; [|exact Hgr].
  injection Ho as <-. destruct rows as [|n rows]; [exact Hgr|].
  match goal with
  | |- context [write_fragment Ec ?k ?d ?r ?dir ?ref ?ev ?eid wc1] =>
      destruct (write_fragment_alike Ec Ed k d r dir ref ref kvs kvs eid eid wc1 wd1
                  Hk (fun _ _ _ _ => Hrej _ _) eq_refl eq_refl Hgr) as [Ho1 Hgr1];
      destruct (write_fragment Ec k d r dir ref ev eid wc1) as [[[]|e1] wc2],
               (write_fragment Ed k d r dir ref ev eid wd1) as [[[]|e2] wd2]
  end; cbn in Ho1, Hgr1; try discriminate; [|exact Hgr1].
  match goal with
  | |- context [write_fragment Ec ?k ?d ?r ?dir ?ref ?ev ?eid wc2] =>
      destruct (write_fragment_alike Ec Ed k d r dir ref ref kvs kvs eid eid wc2 wd2
                  Hk (fun _ _ _ _ => Hrej _ _) eq_refl eq_refl Hgr1) as [Ho2 Hgr2];
      destruct (write_fragment Ec k d r dir ref ev eid wc2) as [[[]|e1] wc3],
               (write_fragment Ed k d r dir ref ev eid wd2) as [[[]|e2] wd3]
  end; cbn in Ho2, Hgr2; try discriminate; exact Hgr2.
Qed.

Lemma queued_event_stored_as_direct_witness :
  exists w',
    Api.create_event (E_kafka true) (JDict canonical_event) "ocsf" w0
    = (Return (Api.mkEventResponse (uuid4 (E_kafka true)) (JDict canonical_event)), w') /\
    produced w' = produced w0 ++ [queue_message (JDict canonical_event)] /\
    graph_of (KafkaConsumer.process_event E0 (queue_message (JDict canonical_event)) w').2
    = graph_of (Api.create_event E0 (JDict canonical_event) "ocsf" w0).2.
Proof.
  apply (queued_event_stored_as_direct (E_kafka true) E0 E0 (JDict canonical_event)
           (JDict canonical_event) "ocsf" w0); try reflexivity.
  - right. repeat split; discriminate.
  - right. repeat split; discriminate.
Defined.

Lemma dict_lookup_mem (k : string) (kvs : list (string * json)) :
  dict_mem k kvs = true -> exists v, dict_lookup k kvs = Some v.
Proof.
  induction kvs as [|[k' v'] kvs IH]; cbn; [discriminate|].
  destruct (String.eqb k k'); [by eexists | exact IH].
Qed.

(** X18.  The consumer and the pipeline write the same graph for a
    canonical event that names its class, its category and its time and
    has no principal, each handed the event in its own form (wrapped in
    a queue message, or bare), provided the store does not refuse a
    [MERGE] for the way it refers to the event.  The two differ only in
    how they refer to the event node, by [toInteger] of the id as text or
    by the id itself. *)
Theorem consumer_and_pipeline_agree (E : env) (kvs : list (string * json))
    (w : world) :
  same_refusals E E ->
  dict_mem "class_uid" kvs = true ->
  dict_mem "category_uid" kvs = true ->
  dict_mem "time" kvs = true ->
  dict_lookup "principal" kvs = None ->
  graph_of (KafkaConsumer.process_event E (queue_message (JDict kvs)) w).2
  = graph_of (Ingest.StoreInGraph.process E (JDict kvs) w).2.
Proof.
  intros Hrej Hc Hk Ht Hp.
  destruct (dict_lookup_mem _ _ Hc) as [c Hc'].
  destruct (dict_lookup_mem _ _ Hk) as [k Hk'].
  destruct (dict_lookup_mem _ _ Ht) as [t Ht'].
  unfold KafkaConsumer.process_event, try_except.
  unfold bind at 1. unfold log at 1. cbn [fst snd].
  unfold bind at 1. unfold lift at 1. unfold queue_message at 1. cbn [py_get dict_lookup].
  unfold bind at 1. unfold lift at 1. unfold queue_message at 1.
  change (py_get _ "source_format" (JStr "unknown")) with (Return (JStr "ocsf")).
  cbv iota. unfold bind at 1.
  change (json_eqb (JStr "ocsf") (JStr "ocsf")) with true. cbn [negb]. unfold ret at 1.
  change (default (JDict []) _) with (JDict kvs).
  match goal with
  | |- graph_of (let (_, _) := _ ?wc in _).2 = _ => set (Wc := wc)
  end.
  assert (HgW : graph_of Wc = graph_of w) by reflexivity.
  clearbody Wc.
  unfold Ingest.StoreInGraph.process, Ingest.StoreInGraph._process_entities, try_except.
  cbn [bind lift py_get]. rewrite Hc', Hk', Ht'. cbn [default].
  unfold bind. cbv beta.
  match goal with
  | |- context [execute_query E ?st Wc] =>
      destruct (execute_query_alike E E st st Wc w HgW eq_refl (fun _ => eq_refl))
        as [Ho Hgr];
      destruct (execute_query E st Wc) as [[rows|e1] wc1],
               (execute_query E st w) as [[rows'|e2] wd1]
  end; cbn in Ho, Hgr; try discriminate; [|exact Hgr].
  injection Ho as <-. destruct rows as [|n rows]; [exact Hgr|].
  cbn [Ingest.StoreInGraph.set_item lift log graph_of logs produced].
  assert (Hsame : same_event (ByToInteger (JStr (str_int n))) (ById (JInt n))).
  { unfold same_event. by rewrite toInteger_str_int. }
  match goal with
  | |- context [write_fragment E "src" ?d ?r ?dir ById (JDict ?kvs2) ?eid2 ?wd] =>
      destruct (write_fragment_alike E E "src" d r dir ByToInteger ById kvs kvs2
                  (JStr (str_int n)) eid2 wc1 wd eq_refl
                  (fun _ _ _ _ => Hrej _ _ _ _ _ _ _ _ Hsame) Hsame
                  (eq_sym (dict_lookup_set_other "src" "_id" _ kvs ltac:(discriminate)))
                  Hgr) as [Ho1 Hgr1];
      destruct (write_fragment E "src" d r dir ByToInteger (JDict kvs)
                  (JStr (str_int n)) wc1) as [[[]|e1] wc2],
               (write_fragment E "src" d r dir ById (JDict kvs2) eid2 wd) as [[[]|e2] wd2]
  end; cbn in Ho1, Hgr1; try discriminate; [|exact Hgr1].
  match goal with
  | |- context [write_fragment E "dst" ?d ?r ?dir ById (JDict ?kvs2) ?eid2 wd2] =>
      destruct (write_fragment_alike E E "dst" d r dir ByToInteger ById kvs kvs2
                  (JStr (str_int n)) eid2 wc2 wd2 eq_refl
                  (fun _ _ _ _ => Hrej _ _ _ _ _ _ _ _ Hsame) Hsame
                  (eq_sym (dict_lookup_set_other "dst" "_id" _ kvs ltac:(discriminate)))
                  Hgr1) as [Ho2 Hgr2];
      destruct (write_fragment E "dst" d r dir ByToInteger (JDict kvs)
                  (JStr (str_int n)) wc2) as [[[]|e1] wc3],
               (write_fragment E "dst" d r dir ById (JDict kvs2) eid2 wd2) as [[[]|e2] wd3]
  end; cbn in Ho2, Hgr2; try discriminate; [|exact Hgr2].
  rewrite write_fragment_absent
    by (rewrite dict_lookup_set_other by discriminate; exact Hp).
  exact Hgr2.
Qed.

Lemma consumer_and_pipeline_agree_witness :
  graph_of (KafkaConsumer.process_event E0
              (queue_message (JDict (("time", JNull) :: event_source_nested))) w0).2
  = graph_of (Ingest.StoreInGraph.process E0
                (JDict (("time", JNull) :: event_source_nested)) w0).2.
Proof.
  apply (consumer_and_pipeline_agree E0 (("time", JNull) :: event_source_nested) w0);
    try reflexivity.
  intros g label idv props e1 e2 rtype dir _. reflexivity.
Defined.

(** ** Reading an event back *)

Lemma adds_fresh_refl (g : graph) : adds_fresh g g.
Proof. split; [lia|]. exists []. by rewrite app_nil_r. Qed.

Lemma adds_fresh_trans (g1 g2 g3 : graph) :
  adds_fresh g1 g2 -> adds_fresh g2 g3 -> adds_fresh g1 g3.
Proof.
  intros (Hle1 & ns1 & Hn1 & Hf1) (Hle2 & ns2 & Hn2 & Hf2). split; [lia|].
  exists (ns1 ++ ns2). split; [by rewrite Hn2, Hn1, <- app_assoc|].
  apply Forall_app. split; [exact Hf1|].
  eapply Forall_impl; [exact Hf2|]. cbn. intros; lia.
Qed.

Lemma keeps_adds_fresh (rtype : string) (dir : direction) (st : statement) :
  fragment_statement rtype dir st -> keeps adds_fresh st.
Proof.
  intros [-> | (label & idv & kvs & ev & ->)]%fragment_statement_inv g rows g' Hx;
    [discriminate|].
  apply exec_merge_inv in Hx as (_ & _ & created & new_rels & Hn & _ & _ & Hc).
  destruct Hc as [(_ & -> & Hnx) | (_ & -> & Hnx)].
  - split; [lia|]. exists []. split; [exact Hn | constructor].
  - split; [lia|]. eexists. split; [exact Hn|]. repeat constructor. cbn. lia.
Qed.

Lemma filter_none {A} (f : A -> bool) (l : list A) :
  Forall (fun x => f x = false) l -> List.filter f l = [].
Proof.
  induction 1 as [|x l Hx _ IH]; [reflexivity|]. cbn. by rewrite Hx.
Qed.

(** In a graph grown from one with a new event node, the read finds
    that node and no other. *)
Lemma match_event_created (g g' : graph) (P : gmap string json) :
  wf g ->
  adds_fresh (with_event g P) g' ->
  ApiRead.match_event g' (JStr (str_int (next_id g))) = [P].
Proof.
  intros Hwf (_ & ns & Hn & Hfresh). unfold ApiRead.match_event.
  rewrite Hn. cbn [with_event nodes]. rewrite !List.filter_app.
  assert (His : forall x,
             is_event (ByToInteger (JStr (str_int (next_id g)))) x
             = String.eqb (node_label x) "Event" && (node_id x =? next_id g)%Z).
  { intros x. unfold is_event. by rewrite toInteger_str_int. }
  rewrite (filter_none _ (nodes g)), (filter_none _ ns).
  - cbn [List.filter]. rewrite His. cbn. by rewrite Z.eqb_refl.
  - eapply Forall_impl; [exact Hfresh|]. cbn. intros x Hx. rewrite His.
    apply andb_false_intro2. apply Z.eqb_neq. lia.
  - eapply Forall_impl; [exact Hwf|]. cbn. intros x Hx. rewrite His.
    apply andb_false_intro2. apply Z.eqb_neq. lia.
Qed.

(** [create_event] writing directly, once the event node is in. *)
Lemma create_event_after_create (E : env) (event : json) (fmt : string)
    (kvs : list (string * json)) (w : world) :
  accepts_create E ->
  use_kafka E = false ->
  canonical_form E fmt event (JDict kvs) ->
  exists w1,
    graph_of w1 = graph_of w /\
    Api.create_event E event fmt w
    = try_except
        (bind (write_fragment E "src" "Unknown" "GENERATED" EntityToEvent ByToInteger
                 (JDict kvs) (JStr (str_int (next_id (graph_of w)))))
           (fun _ =>
              bind (write_fragment E "dst" "Unknown" "TARGETS" EventToEntity ByToInteger
                      (JDict kvs) (JStr (str_int (next_id (graph_of w)))))
                (fun _ => ret (Api.mkEventResponse (str_int (next_id (graph_of w)))
                                 (JDict kvs)))))
        (fun _ => bind (log ERROR "Failed to create event")
                    (fun _ => raise (HTTPException 500)))
        (World (with_event (graph_of w) (consumer_event_props kvs))
               (logs w1) (produced w1)).
Proof.
  intros Hacc Hk Hform.
  destruct (canonical_form_step E fmt event (JDict kvs) w Hform) as (w1 & Hstep & Hg & _).
  exists w1. split; [exact Hg|].
  unfold Api.create_event, try_except.
  unfold bind at 1. rewrite Hstep. rewrite Hk. unfold bind at 1. unfold ret at 1.
  do 6 (unfold bind at 1; unfold lift at 1; cbn [py_get]).
  unfold bind at 1. rewrite execute_query_create by exact Hacc.
  rewrite Hg. reflexivity.
Qed.

Lemma consumer_event_props_lookup (kvs : list (string * json)) (k : string) (d : json) :
  d <> JNull ->
  In (k, d) [("class_uid", JStr "unknown"); ("category_uid", JStr "unknown");
             ("time", JStr ""); ("severity", JInt 0); ("message", JStr "")] ->
  ApiRead.node_get (consumer_event_props kvs) k d = stored_or d (dict_lookup k kvs).
Proof.
  intros Hd Hin. unfold ApiRead.node_get, consumer_event_props.
  rewrite (set_props_lookup_in _ _ k (from_option id d (dict_lookup k kvs))).
  - destruct (dict_lookup k kvs) as [[]|]; cbn; by destruct d.
  - apply (bool_decide_unpack _). by vm_compute.
  - cbn in Hin. cbn.
    destruct Hin as [[= <- <-] | [[= <- <-] | [[= <- <-] | [[= <- <-] | [[= <- <-] | []]]]]];
      tauto.
Qed.

(** X19.  [get_event] never answers 404.  The [HTTPException] it raises
    for an id that selects no event node is caught by its own
    [except Exception] and raised again as 500; so is every other
    failure.  The graph is not changed. *)
Theorem get_event_not_found_is_500 (E : env) (read_refused : graph -> bool)
    (event_id : string) (w : world) :
  ((exists r, (ApiRead.get_event E read_refused event_id w).1 = Return r) \/
   (ApiRead.get_event E read_refused event_id w).1 = Raise (HTTPException 500)) /\
  graph_of (ApiRead.get_event E read_refused event_id w).2 = graph_of w /\
  (read_refused (graph_of w) = false ->
   ApiRead.match_event (graph_of w) (JStr event_id) = [] ->
   ApiRead.get_event E read_refused event_id w
   = (Raise (HTTPException 500), logged ERROR "Failed to get event" w)).
Proof.
  unfold ApiRead.get_event, try_except.
  set (body := bind _ _).
  assert (Hbody : graph_of (body w).2 = graph_of w).
  { subst body. unfold bind, ApiRead.execute_read.
    destruct (read_refused (graph_of w)); [reflexivity|].
    destruct (ApiRead.match_event (graph_of w) (JStr event_id)) as [|event_node rest];
      [reflexivity|].
    unfold ApiRead.loads_value.
    destruct (ApiRead.node_get event_node "metadata" (JStr "{}")); try reflexivity.
    unfold Ingest.loads. by destruct (json_loads E s). }
  split; [|split].
  - destruct (body w) as [[r|e] w']; [left; by eexists | right; reflexivity].
  - destruct (body w) as [[r|e] w']; exact Hbody.
  - intros Hread Hnone. subst body. unfold bind at 1, ApiRead.execute_read.
    rewrite Hread, Hnone. reflexivity.
Qed.

Lemma get_event_not_found_is_500_witness :
  ApiRead.get_event E0 reads_all "42" w0
  = (Raise (HTTPException 500), logged ERROR "Failed to get event" w0).
Proof.
  apply (get_event_not_found_is_500 E0 reads_all "42" w0); reflexivity.
Defined.

Lemma body_returns_response {A} (c1 c2 : M unit) (a r : A) (w w' : world) :
  bind c1 (fun _ => bind c2 (fun _ => ret a)) w = (Return r, w') -> r = a.
Proof.
  unfold bind, ret. destruct (c1 w) as [[[]|e1] w1]; [|discriminate].
  destruct (c2 w1) as [[[]|e2] w2]; [|discriminate]. by intros [= <- _].
Qed.

(** X20.  An event written through [create_event] is read back by
    [get_event] under the id the write answered with.  The five scalar
    fields come back as they were given, except that a field that was
    missing or null comes back as its default (a null is not stored);
    the metadata comes back as what [json.loads] makes of its stored
    text; no other field of the event (such as [src] or [dst]) comes
    back. *)
Theorem created_event_read_back (E : env) (read_refused : graph -> bool)
    (event : json) (fmt : string) (kvs : list (string * json)) (metadata : json)
    (r : Api.EventResponse) (w : world) :
  accepts_create E ->
  use_kafka E = false ->
  wf (graph_of w) ->
  canonical_form E fmt event (JDict kvs) ->
  json_loads E (json_dumps (from_option id (JDict []) (dict_lookup "metadata" kvs)))
    = Some metadata ->
  (Api.create_event E event fmt w).1 = Return r ->
  read_refused (graph_of (Api.create_event E event fmt w).2) = false ->
  ApiRead.get_event E read_refused (Api.response_id r) (Api.create_event E event fmt w).2
  = (Return (Api.mkEventResponse (Api.response_id r) (event_read_back kvs metadata)),
     (Api.create_event E event fmt w).2).
Proof.
  intros Hacc Hk Hwf Hform Hmd Hret Hread.
  destruct (create_event_after_create E event fmt kvs w Hacc Hk Hform)
    as (w1 & Hg & Hrun).
  rewrite Hrun in *. clear Hrun.
  set (W1 := World _ _ _) in *. unfold try_except in *.
  match type of Hret with
  | context [bind ?c ?k W1] =>
      pose proof (along_bind adds_fresh adds_fresh_trans c k
                    (along_write_fragment adds_fresh adds_fresh_refl adds_fresh_trans E
                       "src" "Unknown" "GENERATED" EntityToEvent ByToInteger _ _
                       (keeps_adds_fresh "GENERATED" EntityToEvent))
                    (fun _ =>
                       along_bind adds_fresh adds_fresh_trans _ _
                         (along_write_fragment adds_fresh adds_fresh_refl adds_fresh_trans E
                            "dst" "Unknown" "TARGETS" EventToEntity ByToInteger _ _
                            (keeps_adds_fresh "TARGETS" EventToEntity))
                         (fun _ => along_ret adds_fresh adds_fresh_refl _)) W1) as Hfresh;
      pose proof (body_returns_response
                    (write_fragment E "src" "Unknown" "GENERATED" EntityToEvent ByToInteger
                       (JDict kvs) (JStr (str_int (next_id (graph_of w)))))
                    (write_fragment E "dst" "Unknown" "TARGETS" EventToEntity ByToInteger
                       (JDict kvs) (JStr (str_int (next_id (graph_of w)))))
                    (Api.mkEventResponse (str_int (next_id (graph_of w))) (JDict kvs))) as Hresp;
      destruct (bind c k W1) as [[r'|e] w2] eqn:Hbody
  end; [|discriminate].
  cbn [fst snd] in *. injection Hret as <-. rewrite (Hresp r' W1 w2 Hbody).
  cbn [Api.response_id].
  pose proof (match_event_created (graph_of w) (graph_of w2) _ Hwf Hfresh) as Hfound.
  unfold ApiRead.get_event, try_except.
  unfold bind at 1. unfold ApiRead.execute_read. rewrite Hread, Hfound.
  unfold bind at 1. unfold ApiRead.loads_value.
  replace (ApiRead.node_get (consumer_event_props kvs) "metadata" (JStr "{}"))
    with (JStr (json_dumps (from_option id (JDict []) (dict_lookup "metadata" kvs)))).
  2: { unfold ApiRead.node_get, consumer_event_props.
       rewrite (set_props_lookup_in _ _ "metadata"
                  (JStr (json_dumps (from_option id (JDict [])
                                       (dict_lookup "metadata" kvs))))).
       - reflexivity.
       - apply (bool_decide_unpack _). by vm_compute.
       - cbn. tauto. }
  unfold Ingest.loads. rewrite Hmd. unfold ret. unfold event_read_back.
  rewrite !consumer_event_props_lookup by (try discriminate; cbn; tauto).
  reflexivity.
Qed.

Lemma created_event_read_back_witness :
  ApiRead.get_event E0 reads_all "0"
    (Api.create_event E0 (JDict event_without_time) "ocsf" w0).2
  = (Return (Api.mkEventResponse "0"
               (JDict [("class_uid", JStr "0001"); ("category_uid", JStr "0002");
                       ("time", JStr ""); ("severity", JInt 5);
                       ("message", JStr "Test OCSF event"); ("metadata", JDict [])])),
     (Api.create_event E0 (JDict event_without_time) "ocsf" w0).2).
Proof.
  apply (created_event_read_back E0 reads_all (JDict event_without_time) "ocsf"
           event_without_time (JDict [])
           (Api.mkEventResponse "0" (JDict event_without_time)) w0).
  - exact accept_all_accepts_create.
  - reflexivity.
  - exact wf_empty.
  - right. repeat split; discriminate.
  - by vm_compute.
  - by vm_compute.
  - reflexivity.
Defined.

(** ** Writes that fail *)

Lemma null_id_fragment_step (E : env) (key default_type rtype : string)
    (dir : direction) (ref : json -> event_ref)
    (kvs frag : list (string * json)) (event_id : json) (w : world) :
  dict_lookup key kvs = Some (JDict frag) ->
  dict_lookup "id" frag = Some JNull ->
  write_fragment E key default_type rtype dir ref (JDict kvs) event_id w
  = (Raise StoreError,
     logged ERROR "Parameters" (logged ERROR "Query"
       (logged ERROR "Query execution failed" w))).
Proof.
  intros Hkey Hid. unfold write_fragment. rewrite Hkey.
  unfold bind at 1. unfold lift at 1. cbn [py_get].
  unfold bind at 1. unfold lift at 1. unfold identity_key. cbn [py_get].
  rewrite Hid. cbn [from_option id].
  unfold bind at 1. unfold lift at 1. cbn [props_without_id_type].
  unfold bind at 1. unfold execute_query.
  assert (Hx : forall st,
             st = merge_statement
                    (from_option id (JStr default_type) (dict_lookup "type" frag)) JNull
                    (List.filter
                       (fun kv => negb (String.eqb kv.1 "id" || String.eqb kv.1 "type"))
                       frag)
                    (ref event_id) rtype dir ->
             exec (graph_of w) st = None).
  { intros st ->. unfold merge_statement.
    destruct (str_scalar _) as [label|]; [|reflexivity].
    by destruct (is_label_name label). }
  rewrite (Hx _ eq_refl). by destruct (rejects E (graph_of w) _).
Qed.

(** X21.  A fragment that names its [id] as null is never stored.  The
    default of [x.get("id", ...)], the hash of the fragment, is used
    only when the key is missing; with the key present and null the
    [MERGE] is sent with a null id, which the store refuses, whatever
    the type and the other fields are.  The graph is as before and the
    failure is logged by [execute_query]. *)
Theorem null_id_fragment_refused (E : env) (key default_type rtype : string)
    (dir : direction) (ref : json -> event_ref)
    (kvs frag : list (string * json)) (event_id : json) (w : world) :
  dict_lookup key kvs = Some (JDict frag) ->
  dict_lookup "id" frag = Some JNull ->
  write_fragment E key default_type rtype dir ref (JDict kvs) event_id w
  = (Raise StoreError,
     logged ERROR "Parameters" (logged ERROR "Query"
       (logged ERROR "Query execution failed" w))).
Proof. apply null_id_fragment_step. Qed.


Lemma null_id_fragment_refused_witness :
  write_fragment E0 "src" "Unknown" "GENERATED" EntityToEvent ByToInteger
    (JDict event_source_null_id) (JStr "0") w0
  = (Raise StoreError,
     logged ERROR "Parameters" (logged ERROR "Query"
       (logged ERROR "Query execution failed" w0))).
Proof.
  apply (null_id_fragment_refused E0 "src" "Unknown" "GENERATED" EntityToEvent
           ByToInteger event_source_null_id
           [("id", JNull); ("type", JStr "IP"); ("ip", JStr "10.0.0.1")]
           (JStr "0") w0); reflexivity.
Defined.

Lemma bind_raise {A B} (c : M A) (k : A -> M B) (w : world) (e : exn) :
  (c w).1 = Raise e -> bind c k w = (Raise e, (c w).2).
Proof.
  unfold bind. destruct (c w) as [[a|e'] w']; cbn; [discriminate | by intros [= ->]].
Qed.

(** X22.  An answer 500 from [create_event] does not mean that nothing
    was written.  When the write of the source fragment fails after the
    event node has been created, the request is answered with the HTTP
    error 500 and the event node stays in the graph, so that a client
    that sends the event again gets a second event node. *)
Theorem api_error_keeps_event_node (E : env) (event : json) (fmt : string)
    (kvs : list (string * json)) (w : world) :
  accepts_create E ->
  use_kafka E = false ->
  canonical_form E fmt event (JDict kvs) ->
  (forall w1,
     graph_of w1 = with_event (graph_of w) (consumer_event_props kvs) ->
     exists e,
       (write_fragment E "src" "Unknown" "GENERATED" EntityToEvent ByToInteger
          (JDict kvs) (JStr (str_int (next_id (graph_of w)))) w1).1 = Raise e) ->
  (Api.create_event E event fmt w).1 = Raise (HTTPException 500) /\
  graph_of (Api.create_event E event fmt w).2
  = with_event (graph_of w) (consumer_event_props kvs) /\
  last (logs (Api.create_event E event fmt w).2) = Some (ERROR, "Failed to create event").
Proof.
  intros Hacc Hk Hform Hfail.
  destruct (create_event_after_create E event fmt kvs w Hacc Hk Hform)
    as (w1 & Hg & Hrun).
  rewrite Hrun. clear Hrun. set (W1 := World _ _ _).
  destruct (Hfail W1 eq_refl) as [e He].
  pose proof (write_fragment_raise E "src" "Unknown" "GENERATED" EntityToEvent
                ByToInteger (JDict kvs) (JStr (str_int (next_id (graph_of w)))) W1 e He)
    as Hsame.
  unfold try_except. rewrite (bind_raise _ _ W1 e He).
  split; [reflexivity|]. split; [exact Hsame|]. cbn. apply last_snoc.
Qed.

Lemma api_error_keeps_event_node_witness :
  (Api.create_event E0 (JDict event_source_null_id) "ocsf" w0).1
    = Raise (HTTPException 500) /\
  graph_of (Api.create_event E0 (JDict event_source_null_id) "ocsf" w0).2
  = with_event (graph_of w0) (consumer_event_props event_source_null_id) /\
  last (logs (Api.create_event E0 (JDict event_source_null_id) "ocsf" w0).2)
  = Some (ERROR, "Failed to create event").
Proof.
  apply (api_error_keeps_event_node E0 (JDict event_source_null_id) "ocsf"
           event_source_null_id w0).
  - exact accept_all_accepts_create.
  - reflexivity.
  - right. repeat split; discriminate.
  - intros w1 _. exists StoreError.
    by rewrite (null_id_fragment_step E0 "src" "Unknown" "GENERATED" EntityToEvent
                  ByToInteger event_source_null_id
                  [("id", JNull); ("type", JStr "IP"); ("ip", JStr "10.0.0.1")]
                  (JStr (str_int (next_id (graph_of w0)))) w1 eq_refl eq_refl).
Defined.

(** ** What goes on the wire *)

Lemma list_ascii_of_string_app (a b : string) :
  String.list_ascii_of_string (a +:+ b)
  = String.list_ascii_of_string a ++ String.list_ascii_of_string b.
Proof. induction a as [|c a IH]; [reflexivity|]. simpl. by rewrite IH. Qed.

Lemma is_ascii_text_app (a b : string) :
  is_ascii_text a = true -> is_ascii_text b = true -> is_ascii_text (a +:+ b) = true.
Proof.
  unfold is_ascii_text. intros Ha Hb.
  by rewrite list_ascii_of_string_app, forallb_app, Ha, Hb.
Qed.

Lemma is_ascii_text_of_list (cs : list ascii) :
  forallb (fun c => (byte_val c <? 128)%Z) cs = true ->
  is_ascii_text (String.string_of_list_ascii cs) = true.
Proof. unfold is_ascii_text. by rewrite String.list_ascii_of_string_of_list_ascii. Qed.

Lemma byte_val_ascii_of (m : Z) :
  (0 <= m < 128)%Z -> (byte_val (ascii_of_N (Z.to_N m)) <? 128)%Z = true.
Proof.
  intros Hm. unfold byte_val. rewrite N_ascii_embedding by lia.
  apply Z.ltb_lt. lia.
Qed.

Lemma hex_digit_ascii (d : Z) :
  (0 <= d < 16)%Z -> (byte_val (hex_digit d) <? 128)%Z = true.
Proof.
  intros Hd. unfold hex_digit. apply byte_val_ascii_of.
  destruct (d <? 10)%Z; lia.
Qed.

Lemma u_escape_ascii (n : Z) :
  forallb (fun c => (byte_val c <? 128)%Z) (u_escape n) = true.
Proof.
  unfold u_escape. cbn [forallb].
  rewrite !hex_digit_ascii by (apply Z.mod_pos_bound; lia). reflexivity.
Qed.

Lemma escape_code_point_ascii (n : Z) :
  forallb (fun c => (byte_val c <? 128)%Z) (escape_code_point n) = true.
Proof.
  unfold escape_code_point.
  repeat match goal with
         | |- context [(n =? ?k)%Z] => destruct (n =? k)%Z; [reflexivity|]
         end.
  destruct ((32 <=? n)%Z && (n <=? 126)%Z) eqn:Hp.
  - apply andb_prop in Hp as [H1%Z.leb_le H2%Z.leb_le]. cbn [forallb].
    rewrite byte_val_ascii_of by lia. reflexivity.
  - destruct (n <? 65536)%Z; [apply u_escape_ascii|].
    rewrite forallb_app, !u_escape_ascii. reflexivity.
Qed.

Lemma dumps_str_ascii (s : string) : is_ascii_text (dumps_str s) = true.
Proof.
  unfold dumps_str.
  set (cps := from_option id _ _). clearbody cps.
  change (is_ascii_text
            (String.string_of_list_ascii
               (dquote :: concat (escape_code_point <$> cps) ++ [dquote])) = true).
  apply is_ascii_text_of_list. cbn [forallb]. rewrite forallb_app.
  replace (forallb _ (concat _)) with true; [reflexivity|].
  symmetry. induction cps as [|n cps IH]; [reflexivity|].
  cbn [fmap list_fmap concat]. by rewrite forallb_app, escape_code_point_ascii, IH.
Qed.

Lemma string_of_digits_ascii (d : Decimal.uint) :
  is_ascii_text (NilEmpty.string_of_uint d) = true.
Proof.
  unfold is_ascii_text.
  induction d; cbn [NilEmpty.string_of_uint String.list_ascii_of_string forallb];
    [reflexivity | by rewrite IHd..].
Qed.

Lemma string_of_uint_ascii (d : Decimal.uint) :
  is_ascii_text (NilZero.string_of_uint d) = true.
Proof. destruct d; [reflexivity | apply string_of_digits_ascii..]. Qed.

Lemma str_int_ascii (n : Z) : is_ascii_text (str_int n) = true.
Proof.
  unfold str_int, NilZero.string_of_int.
  destruct (Z.to_int n) as [d|d]; [apply string_of_uint_ascii|].
  pose proof (string_of_uint_ascii d) as Hd. unfold is_ascii_text in *.
  cbn [String.list_ascii_of_string forallb]. by rewrite Hd.
Qed.

Lemma json_dumps_ascii : forall v : json, is_ascii_text (json_dumps v) = true.
Proof.
  fix IH 1. intros [| b | n | s | xs | kvs]; cbn [json_dumps].
  - reflexivity.
  - by destruct b.
  - apply str_int_ascii.
  - apply dumps_str_ascii.
  - apply is_ascii_text_app; [reflexivity|].
    apply is_ascii_text_app; [|reflexivity].
    induction xs as [|x xs IHxs]; [reflexivity|].
    destruct xs as [|y xs]; [apply IH|].
    apply is_ascii_text_app; [apply IH|].
    apply is_ascii_text_app; [reflexivity | exact IHxs].
  - apply is_ascii_text_app; [reflexivity|].
    apply is_ascii_text_app; [|reflexivity].
    induction kvs as [|[k x] kvs IHkvs]; [reflexivity|].
    destruct kvs as [|[k' y] kvs].
    + apply is_ascii_text_app; [apply dumps_str_ascii|].
      apply is_ascii_text_app; [reflexivity | apply IH].
    + apply is_ascii_text_app; [apply dumps_str_ascii|].
      apply is_ascii_text_app; [reflexivity|].
      apply is_ascii_text_app; [apply IH|].
      apply is_ascii_text_app; [reflexivity | exact IHkvs].
Qed.

Lemma utf8_code_points_ascii (bs : list Z) :
  forallb (fun b => (b <? 128)%Z) bs = true -> utf8_code_points bs = Some bs.
Proof.
  induction bs as [|b bs IH]; [reflexivity|].
  cbn [forallb utf8_code_points]. intros [Hb Hbs]%andb_prop.
  by rewrite Hb, (IH Hbs).
Qed.

Lemma decode_utf8_ascii (s : string) :
  is_ascii_text s = true ->
  decode_utf8 (String.list_byte_of_string s) = Return s.
Proof.
  intros Hs. unfold decode_utf8. rewrite String.string_of_list_byte_of_string.
  rewrite utf8_code_points_ascii; [reflexivity|].
  unfold bytes_of_string, is_ascii_text in *.
  induction (String.list_ascii_of_string s) as [|c cs IH]; [reflexivity|].
  cbn [fmap list_fmap forallb] in *. apply andb_prop in Hs as [Hc Hcs].
  by rewrite Hc, IH.
Qed.

(** X23.  What the producer puts on the wire is ASCII text, and the
    consumer's [decode('utf-8')] gives back the text [json.dumps] made:
    no message the producer sends is dropped by the consumer or by
    [ParseEvent] for its encoding, whatever characters the event holds.
    When the text reads back as the message, the consumer processes the
    message itself. *)
Theorem queued_value_decodes (E : env) (event : json) (w : world) :
  is_ascii_text (json_dumps event) = true /\
  decode_utf8 (KafkaProducer.message_value event) = Return (json_dumps event) /\
  (json_loads E (json_dumps event) = Some event ->
   KafkaConsumer.start_step E None
     (KafkaConsumer.Message (KafkaProducer.message_value event)) w
   = try_except (KafkaConsumer.process_event E event)
       (fun _ => log ERROR "Failed to process message") w).
Proof.
  pose proof (json_dumps_ascii event) as Ha.
  pose proof (decode_utf8_ascii _ Ha) as Hd.
  split; [exact Ha|]. split; [exact Hd|].
  intros Hl. unfold KafkaConsumer.start_step, try_except, KafkaProducer.message_value.
  unfold bind at 1. rewrite Hd. unfold lift at 1.
  unfold bind at 1. rewrite Hl. reflexivity.
Qed.

Lemma queued_value_decodes_witness :
  KafkaConsumer.start_step E0 None
    (KafkaConsumer.Message (KafkaProducer.message_value canonical_message)) w0
  = try_except (KafkaConsumer.process_event E0 canonical_message)
      (fun _ => log ERROR "Failed to process message") w0.
Proof.
  apply (queued_value_decodes E0 canonical_message w0). by vm_compute.
Defined.

(** ** The pipeline from end to end *)

(** What [StoreInGraph.process] yields and writes depends on the graph
    alone. *)
Lemma StoreInGraph_process_alike (E : env) (elt : json) (w1 w2 : world) :
  graph_of w1 = graph_of w2 ->
  ends_alike (Ingest.StoreInGraph.process E elt w1)
             (Ingest.StoreInGraph.process E elt w2).
Proof.
  intros Hg.
  unfold Ingest.StoreInGraph.process, Ingest.StoreInGraph._process_entities, try_except.
  destruct elt as [| | | | |kvs]; try (split; [reflexivity | exact Hg]).
  cbn [bind lift py_get]. unfold bind. cbv beta.
  match goal with
  | |- context [execute_query E ?st w1] =>
      destruct (execute_query_alike E E st st w1 w2 Hg eq_refl (fun _ => eq_refl))
        as [Ho Hgr];
      destruct (execute_query E st w1) as [[rows|e1] wa],
               (execute_query E st w2) as [[rows'|e2] wb]
  end; cbn in Ho, Hgr; try discriminate; [|split; [reflexivity | exact Hgr]].
  injection Ho as <-. destruct rows as [|n rows]; [split; [reflexivity | exact Hgr]|].
  cbn [Ingest.StoreInGraph.set_item lift log].
  set (Wa := World (graph_of wa) _ _). set (Wb := World (graph_of wb) _ _).
  set (ev := dict_set "_id" (JInt n) kvs).
  destruct (write_fragment_alike E E "src" "Unknown" "GENERATED" EntityToEvent ById ById
              ev ev (JInt n) (JInt n) Wa Wb
              eq_refl (fun _ _ _ _ => eq_refl) eq_refl eq_refl Hgr) as [Ho1 Hgr1].
  destruct (write_fragment E "src" _ _ _ _ _ _ Wa) as [[[]|e1] wa1],
           (write_fragment E "src" _ _ _ _ _ _ Wb) as [[[]|e2] wb1];
    cbn in Ho1, Hgr1; try discriminate; [|split; [reflexivity | exact Hgr1]].
  destruct (write_fragment_alike E E "dst" "Unknown" "TARGETS" EventToEntity ById ById
              ev ev (JInt n) (JInt n) wa1 wb1
              eq_refl (fun _ _ _ _ => eq_refl) eq_refl eq_refl Hgr1) as [Ho2 Hgr2].
  destruct (write_fragment E "dst" _ _ _ _ _ _ wa1) as [[[]|e1] wa2],
           (write_fragment E "dst" _ _ _ _ _ _ wb1) as [[[]|e2] wb2];
    cbn in Ho2, Hgr2; try discriminate; [|split; [reflexivity | exact Hgr2]].
  destruct (write_fragment_alike E E "principal" "User" "PERFORMED" EntityToEvent ById ById
              ev ev (JInt n) (JInt n) wa2 wb2
              eq_refl (fun _ _ _ _ => eq_refl) eq_refl eq_refl Hgr2) as [Ho3 Hgr3].
  destruct (write_fragment E "principal" _ _ _ _ _ _ wa2) as [[[]|e1] wa3],
           (write_fragment E "principal" _ _ _ _ _ _ wb2) as [[[]|e2] wb3];
    cbn in Ho3, Hgr3; try discriminate; split; first [reflexivity | exact Hgr3].
Qed.

(** X24.  The standalone pipeline is its store step after detection and
    mapping.  For a payload that reads as [event], whose detected format
    gives the canonical form [out], the four nested steps of
    [run_standalone] leave the graph that [StoreInGraph.process] leaves
    on [out]: parsing, detection and mapping write to the log only. *)
Theorem pipeline_is_store_of_canonical_form (E : env) (payload : list Byte.byte)
    (s : string) (event out : json) (w : world) :
  decode_utf8 payload = Return s ->
  json_loads E s = Some event ->
  canonical_form E (Ingest.DetectSourceFormat.source_format_of event) event out ->
  graph_of (Ingest.run_standalone_message E (Ingest.Bytes payload) w).2
  = graph_of (Ingest.StoreInGraph.process E out w).2.
Proof.
  intros Hdec Hload Hform.
  unfold Ingest.run_standalone_message.
  unfold bind at 1. unfold Ingest.ParseEvent.process, try_except.
  unfold bind at 1. unfold bind at 1. rewrite Hdec. unfold lift at 1.
  unfold Ingest.loads. rewrite Hload. unfold ret at 1.
  unfold bind at 1. unfold log at 1. unfold ret at 1.
  cbn [Ingest.for_each]. unfold bind at 1. unfold bind at 1.
  unfold Ingest.DetectSourceFormat.process, try_except.
  unfold bind at 1. unfold log at 1. unfold ret at 1.
  cbn [Ingest.for_each graph_of logs produced]. unfold bind at 1. unfold bind at 1.
  set (fmt := Ingest.DetectSourceFormat.source_format_of event) in *.
  match goal with
  | |- context [Ingest.MapToOCSF.process E (event, fmt) ?w2] => set (W2 := w2)
  end.
  assert (Hmap : exists W3,
             graph_of W3 = graph_of w /\
             Ingest.MapToOCSF.process E (event, fmt) W2 = (Return [out], W3)).
  { unfold Ingest.MapToOCSF.process, try_except.
    destruct (canonical_form_step E fmt event out W2 Hform) as (W3 & Hstep & Hg3 & _).
    destruct (String.eqb fmt "ocsf") eqn:Hfmt; cbn [negb] in Hstep.
    - injection Hstep as <- <-. exists W2. by split.
    - eexists. split; [|unfold bind at 1; rewrite Hstep; reflexivity].
      cbn. exact Hg3. }
  destruct Hmap as (W3 & Hg3 & ->).
  cbn [Ingest.for_each]. unfold bind at 1. unfold bind at 1.
  destruct (StoreInGraph_process_alike E out W3 w Hg3) as [Ho Hgr].
  destruct (Ingest.StoreInGraph.process E out W3) as [[stored|e] W4],
           (Ingest.StoreInGraph.process E out w) as [[stored'|e'] w4];
    cbn in Ho, Hgr; try discriminate; [|exact Hgr].
  injection Ho as <-.
  assert (Hlogs : forall (xs : list json) W,
             graph_of (Ingest.for_each xs
                         (fun _ => log INFO "Successfully processed event") W).2
             = graph_of W).
  { induction xs as [|x xs IH]; intros W; [reflexivity|].
    cbn [Ingest.for_each]. unfold bind. cbn [log]. by rewrite IH. }
  unfold bind.
  pose proof (Hlogs stored W4) as H4.
  destruct (Ingest.for_each stored _ W4) as [[[]|e] W5]; cbn in H4 |- *; congruence.
Qed.

Lemma pipeline_is_store_of_canonical_form_witness :
  graph_of (Ingest.run_standalone_message E0
              (Ingest.Bytes (KafkaProducer.message_value syslog_event)) w0).2
  = graph_of (Ingest.StoreInGraph.process E0 (JDict syslog_event_mapped) w0).2.
Proof.
  apply (pipeline_is_store_of_canonical_form E0
           (KafkaProducer.message_value syslog_event) (json_dumps syslog_event)
           syslog_event (JDict syslog_event_mapped) w0).
  - by vm_compute.
  - by vm_compute.
  - left. left. split; reflexivity.
Defined.

(** X25.  Without a producer the API in Kafka mode falls back to the
    direct write.  When [get_producer()] gives nothing, [create_event]
    logs a warning and goes on as if Kafka were off: the answer and the
    graph are those of the direct write. *)
Theorem kafka_fallback_is_direct_write (Ek Ed : env) (event out : json)
    (fmt : string) (w : world) :
  use_kafka Ek = true ->
  producer_send Ek = None ->
  use_kafka Ed = false ->
  canonical_form Ek fmt event out ->
  canonical_form Ed fmt event out ->
  hash_key Ek = hash_key Ed ->
  (forall g st, rejects Ek g st = rejects Ed g st) ->
  ends_alike (Api.create_event Ek event fmt w) (Api.create_event Ed event fmt w).
Proof.
  intros Hk Hnone Hd Hfk Hfd Hkey Hrej.
  destruct (canonical_form_step Ek fmt event out w Hfk) as (wk & Hstepk & Hgk & _).
  destruct (canonical_form_step Ed fmt event out w Hfd) as (wd & Hstepd & Hgd & _).
  unfold Api.create_event, try_except.
  match goal with |- ends_alike ?l _ => set (L := l) end.
  unfold bind at 1. rewrite Hstepd, Hd. unfold bind at 1. unfold ret at 1.
  subst L.
  unfold bind at 1. rewrite Hstepk, Hk, Hnone.
  unfold bind at 1. unfold bind at 1. unfold log at 1. unfold ret at 1.
  match goal with
  | |- ends_alike (let (_, _) := _ ?wk' in _) _ => set (Wk := wk')
  end.
  assert (HgW : graph_of Wk = graph_of wd) by (subst Wk; cbn; congruence).
  clearbody Wk. clear Hstepk Hstepd.
  destruct out as [| | | | |kvs]; try (split; [reflexivity | cbn; exact HgW]).
  cbn [bind lift py_get]. unfold bind. cbv beta.
  match goal with
  | |- context [execute_query Ek ?st Wk] =>
      destruct (execute_query_alike Ek Ed st st Wk wd HgW eq_refl
                  (fun _ => Hrej _ _)) as [Ho Hgr];
      destruct (execute_query Ek st Wk) as [[rows|e1] wk1],
               (execute_query Ed st wd) as [[rows'|e2] wd1]
  end; cbn in Ho, Hgr; try discriminate; [|split; [reflexivity | exact Hgr]].
  injection Ho as <-. destruct rows as [|n rows]; [split; [reflexivity | exact Hgr]|].
  match goal with
  | |- context [write_fragment Ek ?k ?d ?r ?dir ?ref ?ev ?eid wk1] =>
      destruct (write_fragment_alike Ek Ed k d r dir ref ref kvs kvs eid eid wk1 wd1
                  Hkey (fun _ _ _ _ => Hrej _ _) eq_refl eq_refl Hgr) as [Ho1 Hgr1];
      destruct (write_fragment Ek k d r dir ref ev eid wk1) as [[[]|e1] wk2],
               (write_fragment Ed k d r dir ref ev eid wd1) as [[[]|e2] wd2]
  end; cbn in Ho1, Hgr1; try discriminate; [|split; [reflexivity | exact Hgr1]].
  match goal with
  | |- context [write_fragment Ek ?k ?d ?r ?dir ?ref ?ev ?eid wk2] =>
      destruct (write_fragment_alike Ek Ed k d r dir ref ref kvs kvs eid eid wk2 wd2
                  Hkey (fun _ _ _ _ => Hrej _ _) eq_refl eq_refl Hgr1) as [Ho2 Hgr2];
      destruct (write_fragment Ek k d r dir ref ev eid wk2) as [[[]|e1] wk3],
               (write_fragment Ed k d r dir ref ev eid wd2) as [[[]|e2] wd3]
  end; cbn in Ho2, Hgr2; try discriminate; split; first [reflexivity | exact Hgr2].
Qed.

Lemma kafka_fallback_is_direct_write_witness :
  ends_alike (Api.create_event E_kafka_down (JDict canonical_event) "ocsf" w0)
             (Api.create_event E0 (JDict canonical_event) "ocsf" w0).
Proof.
  apply (kafka_fallback_is_direct_write E_kafka_down E0 (JDict canonical_event)
           (JDict canonical_event) "ocsf" w0); try reflexivity.
  - right. repeat split; discriminate.
  - right. repeat split; discriminate.
Defined.
